(** * Lightdash Terraform provider: the project and personal-access-token
      reconcilers

    A shallow embedding of

    - [internal/lightdash/models/project.go] (request and response records
      and their JSON field tags),
    - [internal/lightdash/api] ([CreateProjectV1], [UpdateProjectV1],
      [CreatePersonalAccessTokenV1], [ListPersonalAccessTokensV1]),
    - [internal/provider/resource_lightdash_project.go], which holds two
      listings of the project resource: the first (lines 1-452) has an
      inline [warehouse_connection], an [Update] that always fails and a
      [Delete] that only warns; the second (lines 453-905) has
      [ImportState], a patching [Update] and a remote [Delete].  They are
      embedded as the modules [ImmutableProject] and [PatchableProject],
    - the personal access token resource ([Create]) and the
      [lightdash_personal_access_tokens] data source ([Read]).

    Go strings are byte strings: [string].  A Go [(T, error)] result is a
    [result T]; an error is its message.  A nilable pointer is an [option].
    Calls that leave the process (the HTTP round trip, and the client
    methods [GetProjectV1] and [DeleteProjectV1], which are kept abstract)
    are events of a small free monad, so that "performs no remote call" is
    a statement about the program itself and not about one particular
    server. *)

From Stdlib Require Import String Ascii List Bool ZArith Lia.
From Stdlib Require Import Permutation Sorted.
Import ListNotations.
Local Open Scope string_scope.
Local Open Scope list_scope.

Set Implicit Arguments.

(* ------------------------------------------------------------------ *)
(** ** Go results *)

Definition error := string.

Inductive result (A : Type) : Type :=
| Ok (a : A)
| Err (e : error).
Arguments Ok {A} a.
Arguments Err {A} e.

(* ------------------------------------------------------------------ *)
(** ** Terraform plugin framework values *)

(** [types.String]: null, unknown or a known value. *)
Inductive tfString : Type :=
| StringNull
| StringUnknown
| StringValue (s : string).

Definition String_IsNull (v : tfString) : bool :=
  match v with StringNull => true | _ => false end.

Definition String_IsUnknown (v : tfString) : bool :=
  match v with StringUnknown => true | _ => false end.

(** [ValueString] is the empty string for null and unknown. *)
Definition ValueString (v : tfString) : string :=
  match v with StringValue s => s | _ => "" end.

(** [types.Int64]. *)
Inductive tfInt64 : Type :=
| Int64Null
| Int64Unknown
| Int64Value (z : Z).

Definition Int64_IsNull (v : tfInt64) : bool :=
  match v with Int64Null => true | _ => false end.

Definition ValueInt64 (v : tfInt64) : Z :=
  match v with Int64Value z => z | _ => 0%Z end.

(** Diagnostics: a severity, a short summary and a detail. *)
Inductive Severity : Type := SeverityError | SeverityWarning.

Record Diagnostic : Type := MkDiag {
  diag_severity : Severity;
  diag_summary : string;
  diag_detail : string
}.

Definition Diagnostics := list Diagnostic.

Definition Severity_eqb (a b : Severity) : bool :=
  match a, b with
  | SeverityError, SeverityError => true
  | SeverityWarning, SeverityWarning => true
  | _, _ => false
  end.

Definition Diagnostic_eqb (a b : Diagnostic) : bool :=
  Severity_eqb (diag_severity a) (diag_severity b)
  && String.eqb (diag_summary a) (diag_summary b)
  && String.eqb (diag_detail a) (diag_detail b).

Definition isError (d : Diagnostic) : bool :=
  Severity_eqb (diag_severity d) SeverityError.

Definition HasError (ds : Diagnostics) : bool := existsb isError ds.

(** [Diagnostics.Append] skips a diagnostic that is already in the
    collection. *)
Fixpoint Append (ds : Diagnostics) (more : list Diagnostic) : Diagnostics :=
  match more with
  | [] => ds
  | d :: rest =>
      Append (if existsb (Diagnostic_eqb d) ds then ds else ds ++ [d]) rest
  end.

Definition AddError (ds : Diagnostics) (summary detail : string) : Diagnostics :=
  Append ds [MkDiag SeverityError summary detail].

Definition AddWarning (ds : Diagnostics) (summary detail : string) : Diagnostics :=
  Append ds [MkDiag SeverityWarning summary detail].

(** What [req.Plan.Get] / [req.State.Get] hand to the resource: the decoded
    model and the diagnostics of the decoding. *)
Record TfData (M : Type) : Type := MkTfData {
  Raw : M;
  GetDiags : Diagnostics
}.

(** A response: the state the framework will store ([None]: null state, the
    resource is not tracked) and the diagnostics. *)
Record Response (M : Type) : Type := MkResponse {
  State : option M;
  Diags : Diagnostics
}.

(* ------------------------------------------------------------------ *)
(** ** JSON documents *)

#[warnings="-register-all"]
Inductive json : Type :=
| JNull
| JBool (b : bool)
| JNumber (n : Z)
| JString (s : string)
| JArray (items : list json)
| JObject (fields : list (string * json)).

(** Encoding of a struct, field by field in declaration order.
    [field]: no [omitempty]; [ptrField]: a pointer without [omitempty] is
    [null] when nil; [omitemptyPtr]: a nil pointer is left out, a pointer to
    anything (also to an empty string) is kept. *)
Definition field (key : string) (v : json) : list (string * json) := [(key, v)].

Definition ptrField {A} (key : string) (enc : A -> json) (p : option A)
  : list (string * json) :=
  match p with
  | None => [(key, JNull)]
  | Some a => [(key, enc a)]
  end.

Definition omitemptyPtr {A} (key : string) (enc : A -> json) (p : option A)
  : list (string * json) :=
  match p with
  | None => []
  | Some a => [(key, enc a)]
  end.

(** [omitempty] on a slice: left out when its length is 0. *)
Definition omitemptySlice (key : string) (l : list json) : list (string * json) :=
  match l with
  | [] => []
  | _ :: _ => [(key, JArray l)]
  end.

Definition keys (fields : list (string * json)) : list string := map fst fields.

Fixpoint lookup (key : string) (fields : list (string * json)) : option json :=
  match fields with
  | [] => None
  | (k, v) :: rest => if String.eqb k key then Some v else lookup key rest
  end.

Definition member (key : string) (doc : json) : option json :=
  match doc with
  | JObject fields => lookup key fields
  | _ => None
  end.

(* ------------------------------------------------------------------ *)
(** ** [internal/lightdash/models] *)

Module Models.

(** [models.DbtProjectType]. *)
Definition DbtProjectType := string.
Definition DbtProjectTypeGithub : DbtProjectType := "github".
Definition DbtProjectTypeGitlab : DbtProjectType := "gitlab".
Definition DbtProjectTypeDbt : DbtProjectType := "dbt".

Definition ProjectType := string.

(** [models.DbtGithubProjectConfig]. *)
Record DbtGithubProjectConfig : Type := MkDbtGithubProjectConfig {
  Dbt_Type : DbtProjectType;
  Dbt_AuthorizationMethod : string;
  Dbt_PersonalAccessToken : option string;
  Dbt_InstallationID : option string;
  Dbt_Repository : string;
  Dbt_Branch : string;
  Dbt_ProjectSubPath : string;
  Dbt_HostDomain : option string;
  Dbt_Target : option string;
  Dbt_Environment : list json;
  Dbt_Selector : option string
}.

(** [models.BigQueryCredentials], with the fields the project resource
    fills; it is declared in another file of the package, so its JSON tags
    are a parameter ([BigQueryCredentials_json] below).
    [models.WarehouseCredentials] is what [CreateProject] points to and what
    the resource assigns a [BigQueryCredentials] to. *)
Record BigQueryCredentials : Type := MkBigQueryCredentials {
  BQ_Type : string;
  BQ_Project : string;
  BQ_KeyfileContents : json;
  BQ_Dataset : option string;
  BQ_AuthenticationType : option string;
  BQ_Location : option string;
  BQ_TimeoutSeconds : option Z;
  BQ_MaximumBytesBilled : option Z;
  BQ_Priority : option string;
  BQ_Retries : option Z;
  BQ_StartOfWeek : option Z
}.

Definition WarehouseCredentials := BigQueryCredentials.

(** [models.Project]. *)
Record Project : Type := MkProject {
  P_OrganizationUUID : string;
  P_ProjectUUID : string;
  P_Name : string;
  P_Type : ProjectType;
  P_DbtConnection : option DbtGithubProjectConfig;
  P_DbtVersion : string;
  P_OrganizationWarehouseCredentialsUUID : option string;
  P_WarehouseConnection : option WarehouseCredentials;
  P_UpstreamProjectUUID : option string;
  P_PinnedListUUID : option string;
  P_SchedulerTimezone : option string
}.

(** [models.CreateProject]. *)
Record CreateProject : Type := MkCreateProject {
  CP_Name : string;
  CP_Type : ProjectType;
  CP_DbtConnection : option DbtGithubProjectConfig;
  CP_DbtVersion : string;
  CP_OrganizationWarehouseCredentialsUUID : option string;
  CP_WarehouseConnection : option WarehouseCredentials;
  CP_UpstreamProjectUUID : option string;
  CP_CopyWarehouseConnectionFromUpstreamProject : option bool
}.

(** [models.UpdateProject]. *)
Record UpdateProject : Type := MkUpdateProject {
  UP_Name : string;
  UP_DbtConnection : option DbtGithubProjectConfig;
  UP_DbtVersion : string;
  UP_OrganizationWarehouseCredentialsUUID : option string;
  UP_WarehouseConnection : option WarehouseCredentials
}.

(** [models.PersonalAccessToken], [models.PersonalAccessTokenWithToken] and
    [models.CreatePersonalAccessToken], declared in another file of the
    package: the fields are those the provider reads and writes. *)
Record PersonalAccessToken : Type := MkPersonalAccessToken {
  PAT_UUID : string;
  PAT_Description : string;
  PAT_CreatedAt : string;
  PAT_ExpiresAt : option string;
  PAT_RotatedAt : option string;
  PAT_LastUsedAt : option string
}.

Record PersonalAccessTokenWithToken : Type := MkPersonalAccessTokenWithToken {
  PATT_UUID : string;
  PATT_Description : string;
  PATT_CreatedAt : string;
  PATT_ExpiresAt : option string;
  PATT_Token : string
}.

Record CreatePersonalAccessToken : Type := MkCreatePersonalAccessToken {
  CPAT_Description : string;
  CPAT_AutoGenerated : bool;
  CPAT_ExpiresAt : option string
}.

End Models.
Import Models.

Module Api.

(** [api.Client]: only the base URL matters here. *)
Record Client : Type := MkClient { HostUrl : string }.

(** An [http.Request] as the client builds it. *)
Record Request : Type := MkRequest {
  Method : string;
  URL : string;
  Body : option json
}.

Record CreateProjectV1Results : Type := MkCreateProjectV1Results {
  HasContentCopy : bool;
  ContentCopyError : option string;
  CPR_Project : Project
}.

Record CreateProjectV1Response : Type := MkCreateProjectV1Response {
  CPResp_Results : CreateProjectV1Results;
  CPResp_Status : string
}.

Record UpdateProjectV1Response : Type := MkUpdateProjectV1Response {
  UPResp_Results : Project;
  UPResp_Status : string
}.

Record CreatePersonalAccessTokenV1Response : Type :=
  MkCreatePersonalAccessTokenV1Response {
  CPATResp_Results : PersonalAccessTokenWithToken;
  CPATResp_Status : string
}.

Record ListPersonalAccessTokensV1Response : Type :=
  MkListPersonalAccessTokensV1Response {
  LPATResp_Results : list PersonalAccessToken;
  LPATResp_Status : string
}.

(** What [GetProjectV1] returns (declared with it, in another file of the
    package): the fields the project resource reads. *)
Record GetProjectV1Results : Type := MkGetProjectV1Results {
  G_OrganizationUUID : string;
  G_ProjectUUID : string;
  G_ProjectName : string;
  G_ProjectType : string;
  G_DbtVersion : string;
  G_OrganizationWarehouseCredentialsUUID : option string;
  G_UpstreamProjectUUID : option string
}.

End Api.
Import Api.

(* ------------------------------------------------------------------ *)
(** ** The environment

    The functions of the Go standard library the code calls
    ([encoding/json], [net/http], [strings], [sort]), and what is fixed by
    declarations in other files of the repository, as one interface. *)
Class Env : Type := MkEnv {
  (** [string(marshalled)]: the text of an encoded document (used in error
      messages only). *)
  json_text : json -> string;
  (** [http.NewRequest method url body] fails on a bad method or URL. *)
  http_NewRequest_error : string -> string -> option error;
  (** [json.Unmarshal] into [map[string]interface{}] and into the response
      structs. *)
  json_Unmarshal_map : string -> result json;
  json_Unmarshal_CreateProjectV1Response :
    string -> result CreateProjectV1Response;
  json_Unmarshal_UpdateProjectV1Response :
    string -> result UpdateProjectV1Response;
  json_Unmarshal_CreatePersonalAccessTokenV1Response :
    string -> result CreatePersonalAccessTokenV1Response;
  json_Unmarshal_ListPersonalAccessTokensV1Response :
    string -> result ListPersonalAccessTokensV1Response;
  (** [strings.ToLower]. *)
  strings_ToLower : string -> string;
  (** [sort.Slice], with the comparison on elements. *)
  sort_Slice : forall A : Type, (A -> A -> bool) -> list A -> list A;
  (** The JSON encodings fixed by the struct tags of [BigQueryCredentials]
      and [CreatePersonalAccessToken]. *)
  BigQueryCredentials_json : BigQueryCredentials -> json;
  CreatePersonalAccessToken_json : CreatePersonalAccessToken -> json;
  (** The wording of [extractStrings]'s error, before the pattern it
      names, when the input does not match. *)
  extractStrings_noMatch : string -> error
}.

(** [strings.TrimSpace], which [DeletePersonalAccessTokenV1] calls on the
    UUID it is given. *)
Class GoStrings : Type := MkGoStrings {
  strings_TrimSpace : string -> string
}.

(* ------------------------------------------------------------------ *)
(** ** Calls that leave the process *)

(** [doRequest] / [DoRequest] is the client's HTTP round trip
    ([CreatePersonalAccessTokenV1] calls it by its exported name).
    [GetProjectV1] and [DeleteProjectV1] are the client methods the project
    resource calls to fetch and to delete a project; they live in other
    files of the api package and are kept abstract. *)
Inductive Call : Type -> Type :=
| doRequest (req : Request) : Call (result string)
| DoRequest (req : Request) : Call (result string)
| GetProjectV1 (projectUuid : string) : Call (result GetProjectV1Results)
| DeleteProjectV1 (projectUuid : string) : Call (option error).

(** A program: it returns, or makes a call and goes on with the answer. *)
Inductive Prog (A : Type) : Type :=
| Ret (a : A)
| Vis (R : Type) (c : Call R) (k : R -> Prog A).
Arguments Ret {A} a.
Arguments Vis {A R} c k.

Fixpoint bind {A B} (m : Prog A) (f : A -> Prog B) : Prog B :=
  match m with
  | Ret a => f a
  | Vis c k => Vis c (fun r => bind (k r) f)
  end.

Definition call {R} (c : Call R) : Prog R := Vis c (fun r => Ret r).

Declare Scope prog_scope.
Delimit Scope prog_scope with prog.
Notation "x <- m ;; k" := (bind m (fun x => k))
  (at level 61, m at next level, right associativity) : prog_scope.

(** A server (with the network in front of it): it answers each call from
    its state. *)
Definition Handler (W : Type) : Type := forall R, Call R -> W -> R * W.

(** A call with its answer type hidden, for logs. *)
Inductive Event : Type :=
| EvCall (R : Type) (c : Call R).
Arguments EvCall {R} c.

(** Running a program against a server: the result, the server's final
    state and the calls made, in order. *)
Fixpoint run {W A} (h : Handler W) (p : Prog A) (w : W) : A * W * list Event :=
  match p with
  | Ret a => (a, w, [])
  | Vis c k =>
      let '(r, w1) := h _ c w in
      let '(a, w2, log) := run h (k r) w1 in
      (a, w2, EvCall c :: log)
  end.

(* ------------------------------------------------------------------ *)
(** ** [internal/lightdash/models/project.go]: JSON encodings *)

Module ModelsJson.

(** [DbtGithubProjectConfig], by its struct tags. *)
Definition DbtGithubProjectConfig_fields (c : DbtGithubProjectConfig)
  : list (string * json) :=
  field "type" (JString (Dbt_Type c))
  ++ field "authorization_method" (JString (Dbt_AuthorizationMethod c))
  ++ omitemptyPtr "personal_access_token" JString (Dbt_PersonalAccessToken c)
  ++ omitemptyPtr "installation_id" JString (Dbt_InstallationID c)
  ++ field "repository" (JString (Dbt_Repository c))
  ++ field "branch" (JString (Dbt_Branch c))
  ++ field "project_sub_path" (JString (Dbt_ProjectSubPath c))
  ++ omitemptyPtr "host_domain" JString (Dbt_HostDomain c)
  ++ omitemptyPtr "target" JString (Dbt_Target c)
  ++ omitemptySlice "environment" (Dbt_Environment c)
  ++ omitemptyPtr "selector" JString (Dbt_Selector c).

Definition DbtGithubProjectConfig_json (c : DbtGithubProjectConfig) : json :=
  JObject (DbtGithubProjectConfig_fields c).

(** [CreateProject], by its struct tags: [dbtConnection] has no
    [omitempty]. *)
Definition CreateProject_fields `{E : Env} (p : CreateProject)
  : list (string * json) :=
  field "name" (JString (CP_Name p))
  ++ field "type" (JString (CP_Type p))
  ++ ptrField "dbtConnection" DbtGithubProjectConfig_json (CP_DbtConnection p)
  ++ field "dbtVersion" (JString (CP_DbtVersion p))
  ++ omitemptyPtr "organizationWarehouseCredentialsUuid" JString
       (CP_OrganizationWarehouseCredentialsUUID p)
  ++ omitemptyPtr "warehouseConnection" BigQueryCredentials_json
       (CP_WarehouseConnection p)
  ++ omitemptyPtr "upstreamProjectUuid" JString (CP_UpstreamProjectUUID p)
  ++ omitemptyPtr "copyWarehouseConnectionFromUpstreamProject" JBool
       (CP_CopyWarehouseConnectionFromUpstreamProject p).

Definition CreateProject_json `{E : Env} (p : CreateProject) : json :=
  JObject (CreateProject_fields p).

(** [UpdateProject], by its struct tags. *)
Definition UpdateProject_fields `{E : Env} (p : UpdateProject)
  : list (string * json) :=
  field "name" (JString (UP_Name p))
  ++ ptrField "dbtConnection" DbtGithubProjectConfig_json (UP_DbtConnection p)
  ++ field "dbtVersion" (JString (UP_DbtVersion p))
  ++ omitemptyPtr "organizationWarehouseCredentialsUuid" JString
       (UP_OrganizationWarehouseCredentialsUUID p)
  ++ omitemptyPtr "warehouseConnection" BigQueryCredentials_json
       (UP_WarehouseConnection p).

Definition UpdateProject_json `{E : Env} (p : UpdateProject) : json :=
  JObject (UpdateProject_fields p).

End ModelsJson.
Import ModelsJson.

(* ------------------------------------------------------------------ *)
(** ** [internal/lightdash/api] *)

Module ApiCalls.

Local Open Scope string_scope.
Local Open Scope prog_scope.

(** [http.NewRequest]: the request as given, unless the method or the URL
    is refused. *)
Definition http_NewRequest `{E : Env} (method url : string) (body : option json)
  : result Request :=
  match http_NewRequest_error method url with
  | Some e => Err e
  | None => Ok (MkRequest method url body)
  end.

(** [Client.CreateProjectV1].  [json.Marshal] cannot fail on a
    [CreateProject] (strings, pointers and a decoded JSON map), so its error
    branch is not reachable and the encoding is taken as total. *)
Definition CreateProjectV1 `{E : Env} (c : Client) (project : CreateProject)
  : Prog (result Project) :=
  let marshalled := CreateProject_json project in
  let path := HostUrl c ++ "/api/v1/org/projects" in
  match http_NewRequest "POST" path (Some marshalled) with
  | Err e =>
      Ret (Err ("failed to create new request: " ++ e ++ ", body: "
                ++ json_text marshalled))
  | Ok req =>
      r <- call (doRequest req) ;;
      match r with
      | Err e =>
          Ret (Err ("request failed: " ++ e ++ ", body: "
                    ++ json_text marshalled))
      | Ok body =>
          match json_Unmarshal_CreateProjectV1Response body with
          | Err e =>
              Ret (Err ("failed to unmarshal response: " ++ e ++ ", body: "
                        ++ body))
          | Ok response =>
              if String.eqb (P_ProjectUUID (CPR_Project (CPResp_Results response))) ""
              then Ret (Err "project UUID is missing in the response")
              else Ret (Ok (CPR_Project (CPResp_Results response)))
          end
      end
  end.

(** [Client.UpdateProjectV1]. *)
Definition UpdateProjectV1 `{E : Env} (c : Client) (projectUuid : string)
  (project : UpdateProject) : Prog (result Project) :=
  let marshalled := UpdateProject_json project in
  let path := HostUrl c ++ "/api/v1/projects/" ++ projectUuid in
  match http_NewRequest "PATCH" path (Some marshalled) with
  | Err e =>
      Ret (Err ("failed to create new request: " ++ e ++ ", body: "
                ++ json_text marshalled))
  | Ok req =>
      r <- call (doRequest req) ;;
      match r with
      | Err e =>
          Ret (Err ("request failed: " ++ e ++ ", body: "
                    ++ json_text marshalled))
      | Ok body =>
          match json_Unmarshal_UpdateProjectV1Response body with
          | Err e =>
              Ret (Err ("failed to unmarshal response: " ++ e ++ ", body: "
                        ++ body))
          | Ok response =>
              if String.eqb (P_ProjectUUID (UPResp_Results response)) ""
              then Ret (Err "project UUID is missing in the response")
              else Ret (Ok (UPResp_Results response))
          end
      end
  end.

(** [Client.CreatePersonalAccessTokenV1]. *)
Definition CreatePersonalAccessTokenV1 `{E : Env} (c : Client)
  (request : CreatePersonalAccessToken)
  : Prog (result PersonalAccessTokenWithToken) :=
  let marshalled := CreatePersonalAccessToken_json request in
  let path := HostUrl c ++ "/api/v1/user/me/personal-access-tokens" in
  match http_NewRequest "POST" path (Some marshalled) with
  | Err e =>
      Ret (Err ("error creating POST request for personal access token: " ++ e))
  | Ok req =>
      r <- call (DoRequest req) ;;
      match r with
      | Err e =>
          Ret (Err ("error performing POST request for personal access token: "
                    ++ e ++ ", body: " ++ json_text marshalled))
      | Ok body =>
          match json_Unmarshal_CreatePersonalAccessTokenV1Response body with
          | Err e =>
              Ret (Err ("error unmarshalling response for personal access token: "
                        ++ e ++ ", body: " ++ body))
          | Ok response =>
              if String.eqb (PATT_UUID (CPATResp_Results response)) ""
              then Ret (Err "token UUID is missing in the response")
              else Ret (Ok (CPATResp_Results response))
          end
      end
  end.

(** [Client.ListPersonalAccessTokensV1]. *)
Definition ListPersonalAccessTokensV1 `{E : Env} (c : Client)
  : Prog (result (list PersonalAccessToken)) :=
  let path := HostUrl c ++ "/api/v1/user/me/personal-access-tokens" in
  match http_NewRequest "GET" path None with
  | Err e =>
      Ret (Err ("error creating GET request for personal access tokens: " ++ e))
  | Ok req =>
      r <- call (doRequest req) ;;
      match r with
      | Err e =>
          Ret (Err ("error performing GET request for personal access tokens: "
                    ++ e))
      | Ok body =>
          match json_Unmarshal_ListPersonalAccessTokensV1Response body with
          | Err e =>
              Ret (Err ("error unmarshalling response for personal access tokens: "
                        ++ e))
          | Ok response => Ret (Ok (LPATResp_Results response))
          end
      end
  end.

(** [Client.DeletePersonalAccessTokenV1]: [None] is a nil error. *)
Definition DeletePersonalAccessTokenV1 `{E : Env} `{S : GoStrings} (c : Client)
  (tokenUuid : string) : Prog (option error) :=
  if String.eqb (strings_TrimSpace tokenUuid) "" then
    Ret (Some "token UUID is empty")
  else
    let path := HostUrl c ++ "/api/v1/user/me/personal-access-tokens/" ++ tokenUuid in
    match http_NewRequest "DELETE" path None with
    | Err e =>
        Ret (Some ("error creating DELETE request for personal access token: "
                   ++ e))
    | Ok req =>
        r <- call (DoRequest req) ;;
        match r with
        | Err e =>
            Ret (Some ("error performing DELETE request for personal access token UUID '"
                       ++ tokenUuid ++ "': " ++ e))
        | Ok _ => Ret None
        end
    end.

End ApiCalls.
Import ApiCalls.

(* ------------------------------------------------------------------ *)
(** ** Composite resource identifiers *)

Module ResourceId.

Local Open Scope string_scope.

(** The pattern language the identifiers need: an anchored sequence of
    literals and capture groups [([^c]+)]. *)
Inductive Item : Type :=
| Lit (s : string)
| NotCharPlus (c : ascii).

Fixpoint stripPrefix (p s : string) : option string :=
  match p with
  | EmptyString => Some s
  | String a p' =>
      match s with
      | EmptyString => None
      | String b s' => if Ascii.eqb a b then stripPrefix p' s' else None
      end
  end.

(** [([^c]+)] followed by [cont]: greedy, giving back one character at a
    time when the rest does not match. *)
Fixpoint matchPlus (c : ascii) (cont : string -> option (list string))
  (s : string) : option (string * list string) :=
  match s with
  | EmptyString => None
  | String a s' =>
      if Ascii.eqb a c then None
      else
        match matchPlus c cont s' with
        | Some (cap, caps) => Some (String a cap, caps)
        | None =>
            match cont s' with
            | Some caps => Some (String a EmptyString, caps)
            | None => None
            end
        end
  end.

(** Anchored match ([^...$]): the captured groups, in order. *)
Fixpoint matchItems (items : list Item) (s : string) : option (list string) :=
  match items with
  | [] => match s with EmptyString => Some [] | _ => None end
  | Lit l :: rest =>
      match stripPrefix l s with
      | Some s' => matchItems rest s'
      | None => None
      end
  | NotCharPlus c :: rest =>
      match matchPlus c (matchItems rest) s with
      | Some (cap, caps) => Some (cap :: caps)
      | None => None
      end
  end.

(** The pattern [^organizations/([^/]+)/projects/([^/]+)$] and its text. *)
Definition projectIdPattern : list Item :=
  [Lit "organizations/"; NotCharPlus "/"; Lit "/projects/"; NotCharPlus "/"].

Definition projectIdPatternText : string :=
  "^organizations/([^/]+)/projects/([^/]+)$".

(** Modelled from the spec: [extractStrings], the helper of the provider
    package that [extractProjectResourceId] calls; its file is missing.
    The spec has the composite ID parsed "via a fixed pattern", malformed IDs
    failing "with a parse error naming the expected shape"; the caller reads
    the organization at index 0 and the project at index 1 of its result.  So
    it returns the capture groups of the match, and when the input does not
    match an error that ends with the pattern. *)
Definition extractStrings `{E : Env} (input : string) (pattern : list Item)
  (patternText : string) : result (list string) :=
  match matchItems pattern input with
  | Some groups => Ok groups
  | None => Err (extractStrings_noMatch input ++ patternText)
  end.

(** [getProjectResourceId]. *)
Definition getProjectResourceId (organizationUUID projectUUID : string) : string :=
  "organizations/" ++ organizationUUID ++ "/projects/" ++ projectUUID.

(** [extractProjectResourceId].  Indexing a slice out of range stops a Go
    program; the two reads are in range whenever the pattern matched. *)
Definition extractProjectResourceId `{E : Env} (input : string)
  : result (list string) :=
  match extractStrings input projectIdPattern projectIdPatternText with
  | Err e => Err ("could not extract resource ID: " ++ e)
  | Ok groups =>
      let organizationUUID := nth 0 groups "" in
      let projectUUID := nth 1 groups "" in
      Ok [organizationUUID; projectUUID]
  end.

(** [getPersonalAccessTokenResourceId]. *)
Definition getPersonalAccessTokenResourceId (tokenUuid : string) : string :=
  "personal-access-tokens/" ++ tokenUuid.

(** A string without the character [c]. *)
Fixpoint lacks (c : ascii) (s : string) : bool :=
  match s with
  | EmptyString => true
  | String a s' => negb (Ascii.eqb a c) && lacks c s'
  end.

(** The strings the pattern describes. *)
Definition wellFormedProjectId (s : string) : Prop :=
  exists o p : string,
    o <> "" /\ p <> "" /\ lacks "/" o = true /\ lacks "/" p = true
    /\ s = getProjectResourceId o p.

End ResourceId.
Import ResourceId.

(* ------------------------------------------------------------------ *)
(** ** [internal/provider]: what both listings of the project resource
       share *)

Module ProviderCommon.

(** [dbtConnectionModel]. *)
Record dbtConnectionModel : Type := MkDbtConnectionModel {
  DC_Type : tfString;
  DC_AuthorizationMethod : tfString;
  DC_PersonalAccessToken : tfString;
  DC_Repository : tfString;
  DC_Branch : tfString;
  DC_ProjectSubPath : tfString;
  DC_HostDomain : tfString;
  DC_Target : tfString
}.

(** [if !x.IsNull() { v := x.ValueString(); p = &v }], starting from a nil
    [p]. *)
Definition stringPtr (x : tfString) : option string :=
  if String_IsNull x then None else Some (ValueString x).

(** The same for an [Int64] attribute; [int(...)] on a 64-bit platform
    keeps the value. *)
Definition int64Ptr (x : tfInt64) : option Z :=
  if Int64_IsNull x then None else Some (ValueInt64 x).

(** The block "Build dbt connection config" of [Create] and [Update]: the
    connection type is always [github], whatever the plan says. *)
Definition dbtConnectionConfig (d : dbtConnectionModel) : DbtGithubProjectConfig :=
  {| Dbt_Type := DbtProjectTypeGithub;
     Dbt_AuthorizationMethod := ValueString (DC_AuthorizationMethod d);
     Dbt_PersonalAccessToken := stringPtr (DC_PersonalAccessToken d);
     Dbt_InstallationID := None;
     Dbt_Repository := ValueString (DC_Repository d);
     Dbt_Branch := ValueString (DC_Branch d);
     Dbt_ProjectSubPath := ValueString (DC_ProjectSubPath d);
     Dbt_HostDomain := stringPtr (DC_HostDomain d);
     Dbt_Target := stringPtr (DC_Target d);
     Dbt_Environment := [];
     Dbt_Selector := None |}.

(** What the plugin framework does with the response of a [Delete]: without
    an error diagnostic it clears the state, so the resource is no longer
    tracked; with one it keeps the state. *)
Definition afterDelete {M} (resp : Response M) : Response M :=
  if HasError (Diags resp) then resp else MkResponse None (Diags resp).

End ProviderCommon.
Import ProviderCommon.

(* ------------------------------------------------------------------ *)
(** ** [resource_lightdash_project.go], first listing (lines 1-452) *)

Module ImmutableProject.

Local Open Scope string_scope.
Local Open Scope prog_scope.

(** [warehouseConnectionModel]. *)
Record warehouseConnectionModel : Type := MkWarehouseConnectionModel {
  WC_Type : tfString;
  WC_Project : tfString;
  WC_Dataset : tfString;
  WC_KeyfileContents : tfString;
  WC_AuthenticationType : tfString;
  WC_Location : tfString;
  WC_TimeoutSeconds : tfInt64;
  WC_MaximumBytesBilled : tfInt64;
  WC_Priority : tfString;
  WC_Retries : tfInt64;
  WC_StartOfWeek : tfInt64
}.

(** [projectResourceModel]. *)
Record projectResourceModel : Type := MkProjectResourceModel {
  ID : tfString;
  OrganizationUUID : tfString;
  ProjectUUID : tfString;
  Name : tfString;
  Type_ : tfString;
  DbtVersion : tfString;
  DbtConnection : option dbtConnectionModel;
  OrganizationWarehouseCredentialsUUID : tfString;
  WarehouseConnection : option warehouseConnectionModel;
  UpstreamProjectUUID : tfString
}.

(** The block "Build warehouse connection config" of [Create], after the
    keyfile has been parsed. *)
Definition warehouseConn `{E : Env} (w : warehouseConnectionModel) (keyfileMap : json)
  : BigQueryCredentials :=
  {| BQ_Type := ValueString (WC_Type w);
     BQ_Project := ValueString (WC_Project w);
     BQ_KeyfileContents := keyfileMap;
     BQ_Dataset := stringPtr (WC_Dataset w);
     BQ_AuthenticationType := stringPtr (WC_AuthenticationType w);
     BQ_Location := stringPtr (WC_Location w);
     BQ_TimeoutSeconds := int64Ptr (WC_TimeoutSeconds w);
     BQ_MaximumBytesBilled := int64Ptr (WC_MaximumBytesBilled w);
     BQ_Priority :=
       if String_IsNull (WC_Priority w) then None
       else Some (strings_ToLower (ValueString (WC_Priority w)));
     BQ_Retries := int64Ptr (WC_Retries w);
     BQ_StartOfWeek := int64Ptr (WC_StartOfWeek w) |}.

(** The request [Create] has built once the warehouse connection (if any)
    is known. *)
Definition createRequest (plan : projectResourceModel)
  (warehouse : option BigQueryCredentials) : CreateProject :=
  {| CP_Name := ValueString (Name plan);
     CP_Type := ValueString (Type_ plan);
     CP_DbtConnection := option_map dbtConnectionConfig (DbtConnection plan);
     CP_DbtVersion := ValueString (DbtVersion plan);
     CP_OrganizationWarehouseCredentialsUUID :=
       stringPtr (OrganizationWarehouseCredentialsUUID plan);
     CP_WarehouseConnection := warehouse;
     CP_UpstreamProjectUUID := stringPtr (UpstreamProjectUUID plan);
     CP_CopyWarehouseConnectionFromUpstreamProject := None |}.

(** "Create project" and "Set state". *)
Definition createAndSetState `{E : Env} (c : Client) (plan : projectResourceModel)
  (diags : Diagnostics) (createReq : CreateProject)
  : Prog (Response projectResourceModel) :=
  r <- CreateProjectV1 c createReq ;;
  match r with
  | Err e =>
      Ret (MkResponse None
             (AddError diags "Error creating project"
                ("Could not create project, unexpected error: " ++ e)))
  | Ok createdProject =>
      let organizationUUID := ValueString (OrganizationUUID plan) in
      let stateId := getProjectResourceId organizationUUID (P_ProjectUUID createdProject) in
      let plan' :=
        {| ID := StringValue stateId;
           OrganizationUUID := OrganizationUUID plan;
           ProjectUUID := StringValue (P_ProjectUUID createdProject);
           Name := Name plan;
           Type_ := Type_ plan;
           DbtVersion := DbtVersion plan;
           DbtConnection := DbtConnection plan;
           OrganizationWarehouseCredentialsUUID :=
             OrganizationWarehouseCredentialsUUID plan;
           WarehouseConnection := WarehouseConnection plan;
           UpstreamProjectUUID := UpstreamProjectUUID plan |} in
      Ret (MkResponse (Some plan') (Append diags []))
  end.

(** The block "Build warehouse connection config" of [Create]: nothing
    without a [warehouse_connection]; otherwise the keyfile is parsed first,
    and a keyfile that does not parse is the error. *)
Definition warehouseConnectionOf `{E : Env} (plan : projectResourceModel)
  : result (option BigQueryCredentials) :=
  match WarehouseConnection plan with
  | None => Ok None
  | Some w =>
      match json_Unmarshal_map (ValueString (WC_KeyfileContents w)) with
      | Err e => Err e
      | Ok keyfileMap => Ok (Some (warehouseConn w keyfileMap))
      end
  end.

(** [projectResource.Create]. *)
Definition Create `{E : Env} (c : Client) (req : TfData projectResourceModel)
  : Prog (Response projectResourceModel) :=
  let plan := Raw req in
  let diags := Append [] (GetDiags req) in
  if HasError diags then Ret (MkResponse None diags)
  else
    match warehouseConnectionOf plan with
    | Err e =>
        Ret (MkResponse None
               (AddError diags "Error parsing keyfile_contents"
                  ("Could not parse keyfile_contents as JSON: " ++ e)))
    | Ok warehouse =>
        createAndSetState c plan diags (createRequest plan warehouse)
    end.

(** The state [Read] writes back. *)
Definition refreshed (state : projectResourceModel) (project : GetProjectV1Results)
  : projectResourceModel :=
  {| ID := ID state;
     OrganizationUUID := StringValue (G_OrganizationUUID project);
     ProjectUUID := ProjectUUID state;
     Name := StringValue (G_ProjectName project);
     Type_ := StringValue (G_ProjectType project);
     DbtVersion :=
       if String.eqb (G_DbtVersion project) "" then DbtVersion state
       else StringValue (G_DbtVersion project);
     DbtConnection := DbtConnection state;
     OrganizationWarehouseCredentialsUUID :=
       match G_OrganizationWarehouseCredentialsUUID project with
       | Some u => StringValue u
       | None => StringNull
       end;
     WarehouseConnection := WarehouseConnection state;
     UpstreamProjectUUID :=
       match G_UpstreamProjectUUID project with
       | Some u => StringValue u
       | None => StringNull
       end |}.

(** [projectResource.Read]; the response starts from the prior state. *)
Definition Read `{E : Env} (c : Client) (req : TfData projectResourceModel)
  : Prog (Response projectResourceModel) :=
  let state := Raw req in
  let diags := Append [] (GetDiags req) in
  if HasError diags then Ret (MkResponse (Some state) diags)
  else
    r <- call (GetProjectV1 (ValueString (ProjectUUID state))) ;;
    match r with
    | Err e =>
        Ret (MkResponse (Some state)
               (AddError diags "Error Reading project"
                  ("Could not read project ID " ++ ValueString (ID state)
                   ++ ": " ++ e)))
    | Ok project =>
        Ret (MkResponse (Some (refreshed state project)) (Append diags []))
    end.

(** [projectResource.Update]: neither the plan nor the state is read. *)
Definition Update `{E : Env} (c : Client) (plan prior : TfData projectResourceModel)
  : Prog (Response projectResourceModel) :=
  Ret (MkResponse (Some (Raw prior))
         (AddError [] "Update not supported"
            "Lightdash projects are immutable. Any changes require destroying and recreating the resource.")).

(** [projectResource.Delete]: the state is not read. *)
Definition Delete `{E : Env} (c : Client) (req : TfData projectResourceModel)
  : Prog (Response projectResourceModel) :=
  Ret (MkResponse (Some (Raw req))
         (AddWarning [] "Project not deleted"
            "The Lightdash project was removed from Terraform state but still exists in Lightdash. You must manually delete it from the Lightdash UI if desired.")).

End ImmutableProject.

(* ------------------------------------------------------------------ *)
(** ** [resource_lightdash_project.go], second listing (lines 453-905) *)

Module PatchableProject.

Local Open Scope string_scope.
Local Open Scope prog_scope.

(** [projectResourceModel]. *)
Record projectResourceModel : Type := MkProjectResourceModel {
  ID : tfString;
  OrganizationUUID : tfString;
  ProjectUUID : tfString;
  Name : tfString;
  Type_ : tfString;
  DbtVersion : tfString;
  DbtConnection : option dbtConnectionModel;
  OrganizationWarehouseCredentialsUUID : tfString;
  UpstreamProjectUUID : tfString
}.

(** "Build create project request" of [Create]. *)
Definition createRequest (plan : projectResourceModel) : CreateProject :=
  {| CP_Name := ValueString (Name plan);
     CP_Type := ValueString (Type_ plan);
     CP_DbtConnection := option_map dbtConnectionConfig (DbtConnection plan);
     CP_DbtVersion := ValueString (DbtVersion plan);
     CP_OrganizationWarehouseCredentialsUUID :=
       stringPtr (OrganizationWarehouseCredentialsUUID plan);
     CP_WarehouseConnection := None;
     CP_UpstreamProjectUUID := stringPtr (UpstreamProjectUUID plan);
     CP_CopyWarehouseConnectionFromUpstreamProject := None |}.

(** [projectResource.Create]. *)
Definition Create `{E : Env} (c : Client) (req : TfData projectResourceModel)
  : Prog (Response projectResourceModel) :=
  let plan := Raw req in
  let diags := Append [] (GetDiags req) in
  if HasError diags then Ret (MkResponse None diags)
  else
    r <- CreateProjectV1 c (createRequest plan) ;;
    match r with
    | Err e =>
        Ret (MkResponse None
               (AddError diags "Error creating project"
                  ("Could not create project, unexpected error: " ++ e)))
    | Ok createdProject =>
        let organizationUUID := ValueString (OrganizationUUID plan) in
        let stateId :=
          getProjectResourceId organizationUUID (P_ProjectUUID createdProject) in
        let plan' :=
          {| ID := StringValue stateId;
             OrganizationUUID := OrganizationUUID plan;
             ProjectUUID := StringValue (P_ProjectUUID createdProject);
             Name := Name plan;
             Type_ := Type_ plan;
             DbtVersion := DbtVersion plan;
             DbtConnection := DbtConnection plan;
             OrganizationWarehouseCredentialsUUID :=
               OrganizationWarehouseCredentialsUUID plan;
             UpstreamProjectUUID := UpstreamProjectUUID plan |} in
        Ret (MkResponse (Some plan') (Append diags []))
    end.

(** The state [Read] writes back. *)
Definition refreshed (state : projectResourceModel) (project : GetProjectV1Results)
  : projectResourceModel :=
  {| ID := ID state;
     OrganizationUUID := StringValue (G_OrganizationUUID project);
     ProjectUUID := ProjectUUID state;
     Name := StringValue (G_ProjectName project);
     Type_ := StringValue (G_ProjectType project);
     DbtVersion :=
       if String.eqb (G_DbtVersion project) "" then DbtVersion state
       else StringValue (G_DbtVersion project);
     DbtConnection := DbtConnection state;
     OrganizationWarehouseCredentialsUUID :=
       match G_OrganizationWarehouseCredentialsUUID project with
       | Some u => StringValue u
       | None => StringNull
       end;
     UpstreamProjectUUID :=
       match G_UpstreamProjectUUID project with
       | Some u => StringValue u
       | None => StringNull
       end |}.

(** [projectResource.Read]; the response starts from the prior state. *)
Definition Read `{E : Env} (c : Client) (req : TfData projectResourceModel)
  : Prog (Response projectResourceModel) :=
  let state := Raw req in
  let diags := Append [] (GetDiags req) in
  if HasError diags then Ret (MkResponse (Some state) diags)
  else
    r <- call (GetProjectV1 (ValueString (ProjectUUID state))) ;;
    match r with
    | Err e =>
        Ret (MkResponse (Some state)
               (AddError diags "Error Reading project"
                  ("Could not read project ID " ++ ValueString (ID state)
                   ++ ": " ++ e)))
    | Ok project =>
        Ret (MkResponse (Some (refreshed state project)) (Append diags []))
    end.

(** "Build update project request" of [Update]. *)
Definition updateRequest (plan : projectResourceModel) : UpdateProject :=
  {| UP_Name := ValueString (Name plan);
     UP_DbtConnection := option_map dbtConnectionConfig (DbtConnection plan);
     UP_DbtVersion := ValueString (DbtVersion plan);
     UP_OrganizationWarehouseCredentialsUUID :=
       stringPtr (OrganizationWarehouseCredentialsUUID plan);
     UP_WarehouseConnection := None |}.

(** [projectResource.Update]; the response starts from the prior state. *)
Definition Update `{E : Env} (c : Client) (planReq prior : TfData projectResourceModel)
  : Prog (Response projectResourceModel) :=
  let plan := Raw planReq in
  let state := Raw prior in
  let diags := Append (Append [] (GetDiags planReq)) (GetDiags prior) in
  if HasError diags then Ret (MkResponse (Some state) diags)
  else
    r <- UpdateProjectV1 c (ValueString (ProjectUUID plan)) (updateRequest plan) ;;
    match r with
    | Err e =>
        Ret (MkResponse (Some state)
               (AddError diags "Error Updating project"
                  ("Could not update project with UUID '"
                   ++ ValueString (ProjectUUID plan)
                   ++ "', unexpected error: " ++ e)))
    | Ok updatedProject =>
        let plan' :=
          {| ID := ID plan;
             OrganizationUUID := OrganizationUUID plan;
             ProjectUUID := ProjectUUID plan;
             Name := StringValue (P_Name updatedProject);
             Type_ := Type_ plan;
             DbtVersion := DbtVersion plan;
             DbtConnection := DbtConnection plan;
             OrganizationWarehouseCredentialsUUID :=
               OrganizationWarehouseCredentialsUUID plan;
             UpstreamProjectUUID := UpstreamProjectUUID plan |} in
        Ret (MkResponse (Some plan') (Append diags []))
    end.

(** [projectResource.Delete]; the response starts from the prior state. *)
Definition Delete `{E : Env} (c : Client) (req : TfData projectResourceModel)
  : Prog (Response projectResourceModel) :=
  let state := Raw req in
  let diags := Append [] (GetDiags req) in
  if HasError diags then Ret (MkResponse (Some state) diags)
  else
    let uuid := ValueString (ProjectUUID state) in
    err <- call (DeleteProjectV1 uuid) ;;
    match err with
    | Some e =>
        Ret (MkResponse (Some state)
               (AddError diags "Error Deleting project"
                  ("Could not delete project, unexpected error: " ++ e)))
    | None => Ret (MkResponse (Some state) diags)
    end.

(** The state before any attribute is set: every attribute null. *)
Definition nullState : projectResourceModel :=
  {| ID := StringNull;
     OrganizationUUID := StringNull;
     ProjectUUID := StringNull;
     Name := StringNull;
     Type_ := StringNull;
     DbtVersion := StringNull;
     DbtConnection := None;
     OrganizationWarehouseCredentialsUUID := StringNull;
     UpstreamProjectUUID := StringNull |}.

(** The attributes [ImportState] sets, one [SetAttribute] after the other. *)
Definition imported (id : string) (importedProject : GetProjectV1Results)
  : projectResourceModel :=
  {| ID := StringValue id;
     OrganizationUUID := StringValue (G_OrganizationUUID importedProject);
     ProjectUUID := StringValue (G_ProjectUUID importedProject);
     Name := StringValue (G_ProjectName importedProject);
     Type_ := StringValue (G_ProjectType importedProject);
     DbtVersion :=
       if String.eqb (G_DbtVersion importedProject) "" then DbtVersion nullState
       else StringValue (G_DbtVersion importedProject);
     DbtConnection := DbtConnection nullState;
     OrganizationWarehouseCredentialsUUID :=
       match G_OrganizationWarehouseCredentialsUUID importedProject with
       | Some u => StringValue u
       | None => OrganizationWarehouseCredentialsUUID nullState
       end;
     UpstreamProjectUUID :=
       match G_UpstreamProjectUUID importedProject with
       | Some u => StringValue u
       | None => UpstreamProjectUUID nullState
       end |}.

(** [projectResource.ImportState]; [id] is [req.ID].  The response starts
    with no state. *)
Definition ImportState `{E : Env} (c : Client) (id : string)
  : Prog (Response projectResourceModel) :=
  match extractProjectResourceId id with
  | Err e =>
      Ret (MkResponse None
             (AddError [] "Error extracting resource ID"
                ("Could not extract resource ID, unexpected error: " ++ e)))
  | Ok extractedStrings =>
      let organizationUUID := nth 0 extractedStrings "" in
      let projectUUID := nth 1 extractedStrings "" in
      r <- call (GetProjectV1 projectUUID) ;;
      match r with
      | Err e =>
          Ret (MkResponse None
                 (AddError [] "Error Getting project"
                    ("Could not get project with organization UUID "
                     ++ organizationUUID ++ " and project UUID " ++ projectUUID
                     ++ ", unexpected error: " ++ e)))
      | Ok importedProject =>
          Ret (MkResponse (Some (imported id importedProject))
                 (AddWarning [] "DBT Connection not imported"
                    "The dbt connection credentials (personal_access_token, etc.) are not returned by the API for security reasons. You must manually configure these in your Terraform configuration."))
      end
  end.

End PatchableProject.

(* ------------------------------------------------------------------ *)
(** ** The personal access token resource *)

Module PersonalAccessTokenResource.

Local Open Scope string_scope.
Local Open Scope prog_scope.

(** [personalAccessTokenResourceModel]. *)
Record personalAccessTokenResourceModel : Type :=
  MkPersonalAccessTokenResourceModel {
  ID : tfString;
  TokenUUID : tfString;
  Description : tfString;
  ExpiresAt : tfString;
  CreatedAt : tfString;
  Token : tfString
}.

(** "Prepare the request" of [Create]. *)
Definition createRequest (plan : personalAccessTokenResourceModel)
  : CreatePersonalAccessToken :=
  {| CPAT_Description := ValueString (Description plan);
     CPAT_AutoGenerated := false;
     CPAT_ExpiresAt :=
       if negb (String_IsNull (ExpiresAt plan))
          && negb (String_IsUnknown (ExpiresAt plan))
       then Some (ValueString (ExpiresAt plan)) else None |}.

(** [personalAccessTokenResource.Create]. *)
Definition Create `{E : Env} (c : Client)
  (req : TfData personalAccessTokenResourceModel)
  : Prog (Response personalAccessTokenResourceModel) :=
  let plan := Raw req in
  let diags := Append [] (GetDiags req) in
  if HasError diags then Ret (MkResponse None diags)
  else
    r <- CreatePersonalAccessTokenV1 c (createRequest plan) ;;
    match r with
    | Err e =>
        Ret (MkResponse None
               (AddError diags "Error creating personal access token"
                  ("Could not create personal access token, unexpected error: "
                   ++ e)))
    | Ok createdToken =>
        let stateId := getPersonalAccessTokenResourceId (PATT_UUID createdToken) in
        let plan' :=
          {| ID := StringValue stateId;
             TokenUUID := StringValue (PATT_UUID createdToken);
             Description := StringValue (PATT_Description createdToken);
             ExpiresAt :=
               match PATT_ExpiresAt createdToken with
               | Some t => StringValue t
               | None => StringNull
               end;
             CreatedAt := StringValue (PATT_CreatedAt createdToken);
             Token := StringValue (PATT_Token createdToken) |} in
        Ret (MkResponse (Some plan') (Append diags []))
    end.

(** The state [Read] writes back when the token is found: the token value is
    kept, it is not in the list. *)
Definition refreshed (state : personalAccessTokenResourceModel)
  (foundToken : PersonalAccessToken) : personalAccessTokenResourceModel :=
  {| ID := ID state;
     TokenUUID := TokenUUID state;
     Description := StringValue (PAT_Description foundToken);
     ExpiresAt :=
       match PAT_ExpiresAt foundToken with
       | Some t => StringValue t
       | None => StringNull
       end;
     CreatedAt := StringValue (PAT_CreatedAt foundToken);
     Token := Token state |}.

(** The loop "Find the token with matching UUID": the first one. *)
Definition findToken (tokenUuid : string) (tokens : list PersonalAccessToken)
  : option PersonalAccessToken :=
  find (fun token => String.eqb (PAT_UUID token) tokenUuid) tokens.

(** [personalAccessTokenResource.Read]; the response starts from the prior
    state, and [RemoveResource] makes it null. *)
Definition Read `{E : Env} (c : Client)
  (req : TfData personalAccessTokenResourceModel)
  : Prog (Response personalAccessTokenResourceModel) :=
  let state := Raw req in
  let diags := Append [] (GetDiags req) in
  if HasError diags then Ret (MkResponse (Some state) diags)
  else
    let tokenUuid := ValueString (TokenUUID state) in
    r <- ListPersonalAccessTokensV1 c ;;
    match r with
    | Err e =>
        Ret (MkResponse (Some state)
               (AddError diags "Error Reading personal access token"
                  ("Could not read personal access token ID "
                   ++ ValueString (ID state) ++ ": " ++ e)))
    | Ok tokens =>
        match findToken tokenUuid tokens with
        | None => Ret (MkResponse None diags)
        | Some foundToken =>
            Ret (MkResponse (Some (refreshed state foundToken)) (Append diags []))
        end
    end.

(** [personalAccessTokenResource.Update]: neither the plan nor the state is
    read. *)
Definition Update `{E : Env} (c : Client)
  (plan prior : TfData personalAccessTokenResourceModel)
  : Prog (Response personalAccessTokenResourceModel) :=
  Ret (MkResponse (Some (Raw prior))
         (AddError [] "Update not supported"
            "Personal access tokens cannot be updated. Changes require recreation of the resource.")).

(** [personalAccessTokenResource.Delete]; the response starts from the prior
    state. *)
Definition Delete `{E : Env} `{S : GoStrings} (c : Client)
  (req : TfData personalAccessTokenResourceModel)
  : Prog (Response personalAccessTokenResourceModel) :=
  let state := Raw req in
  let diags := Append [] (GetDiags req) in
  if HasError diags then Ret (MkResponse (Some state) diags)
  else
    let tokenUuid := ValueString (TokenUUID state) in
    err <- DeletePersonalAccessTokenV1 c tokenUuid ;;
    match err with
    | Some e =>
        Ret (MkResponse (Some state)
               (AddError diags "Error Deleting personal access token"
                  ("Could not delete personal access token, unexpected error: "
                   ++ e)))
    | None => Ret (MkResponse (Some state) diags)
    end.

End PersonalAccessTokenResource.

(* ------------------------------------------------------------------ *)
(** ** The [lightdash_personal_access_tokens] data source *)

Module PersonalAccessTokensDataSource.

Local Open Scope string_scope.
Local Open Scope prog_scope.

(** [personalAccessTokenModel]. *)
Record personalAccessTokenModel : Type := MkPersonalAccessTokenModel {
  TokenUUID : tfString;
  Description : tfString;
  CreatedAt : tfString;
  ExpiresAt : tfString;
  RotatedAt : tfString;
  LastUsedAt : tfString
}.

(** [personalAccessTokensDataSourceModel]. *)
Record personalAccessTokensDataSourceModel : Type :=
  MkPersonalAccessTokensDataSourceModel {
  ID : tfString;
  Tokens : list personalAccessTokenModel
}.

Definition nullable (p : option string) : tfString :=
  match p with
  | Some s => StringValue s
  | None => StringNull
  end.

(** The body of the loop "Convert to model". *)
Definition fetchedToken (token : PersonalAccessToken) : personalAccessTokenModel :=
  {| TokenUUID := StringValue (PAT_UUID token);
     Description := StringValue (PAT_Description token);
     CreatedAt := StringValue (PAT_CreatedAt token);
     ExpiresAt := nullable (PAT_ExpiresAt token);
     RotatedAt := nullable (PAT_RotatedAt token);
     LastUsedAt := nullable (PAT_LastUsedAt token) |}.

(** The comparison handed to [sort.Slice]: [<] on the UUID strings, byte by
    byte. *)
Definition less (a b : personalAccessTokenModel) : bool :=
  String.ltb (ValueString (TokenUUID a)) (ValueString (TokenUUID b)).

(** [personalAccessTokensDataSource.Read]. *)
Definition Read `{E : Env} (c : Client)
  (req : TfData personalAccessTokensDataSourceModel)
  : Prog (Response personalAccessTokensDataSourceModel) :=
  let state := Raw req in
  let diags := Append [] (GetDiags req) in
  if HasError diags then Ret (MkResponse None diags)
  else
    r <- ListPersonalAccessTokensV1 c ;;
    match r with
    | Err e =>
        Ret (MkResponse None
               (AddError diags "Unable to get personal access tokens" e))
    | Ok tokens =>
        let fetchedTokens := map fetchedToken tokens in
        let fetchedTokens := sort_Slice less fetchedTokens in
        let state' :=
          {| ID := StringValue "personal-access-tokens";
             Tokens := fetchedTokens |} in
        Ret (MkResponse (Some state') (Append diags []))
    end.

End PersonalAccessTokensDataSource.

(* ------------------------------------------------------------------ *)
(** ** A concrete environment and a concrete server

    Used to run the provider on explicit inputs. *)

Module Fixtures.

Local Open Scope string_scope.

(** Insertion sort, standing for [sort.Slice]. *)
Fixpoint insert {A} (less : A -> A -> bool) (x : A) (l : list A) : list A :=
  match l with
  | [] => [x]
  | y :: rest => if less y x then y :: insert less x rest else x :: y :: rest
  end.

Fixpoint insertionSort {A} (less : A -> A -> bool) (l : list A) : list A :=
  match l with
  | [] => []
  | x :: rest => insert less x (insertionSort less rest)
  end.

Definition projectWithUuid (uuid : string) : Project :=
  {| P_OrganizationUUID := "org-1";
     P_ProjectUUID := uuid;
     P_Name := "Analytics Project";
     P_Type := "DEFAULT";
     P_DbtConnection := None;
     P_DbtVersion := "v1.8";
     P_OrganizationWarehouseCredentialsUUID := None;
     P_WarehouseConnection := None;
     P_UpstreamProjectUUID := None;
     P_PinnedListUUID := None;
     P_SchedulerTimezone := None |}.

Definition tokenWithUuid (uuid : string) : PersonalAccessTokenWithToken :=
  {| PATT_UUID := uuid;
     PATT_Description := "CI/CD pipeline token";
     PATT_CreatedAt := "2024-01-01T00:00:00Z";
     PATT_ExpiresAt := None;
     PATT_Token := "ldpat_secret" |}.

Definition listedToken (uuid : string) : PersonalAccessToken :=
  {| PAT_UUID := uuid;
     PAT_Description := "token " ++ uuid;
     PAT_CreatedAt := "2024-01-01T00:00:00Z";
     PAT_ExpiresAt := None;
     PAT_RotatedAt := None;
     PAT_LastUsedAt := None |}.

(** Response bodies are named rather than spelled out: the body [no-uuid]
    decodes to a result with an empty UUID, [garbage] does not decode, any
    other body decodes to a result whose UUID is the body; the keyfile [{}]
    is the only one that parses. *)
Definition testEnv : Env :=
  {| json_text := fun _ => "<json>";
     http_NewRequest_error := fun _ _ => None;
     json_Unmarshal_map :=
       fun s => if String.eqb s "{}" then Ok (JObject [])
                else Err "invalid character 'o' in literal null (expecting 'u')";
     json_Unmarshal_CreateProjectV1Response :=
       fun body =>
         if String.eqb body "garbage" then Err "unexpected end of JSON input"
         else Ok (MkCreateProjectV1Response
                    (MkCreateProjectV1Results false None
                       (projectWithUuid (if String.eqb body "no-uuid" then "" else body)))
                    "ok");
     json_Unmarshal_UpdateProjectV1Response :=
       fun body =>
         if String.eqb body "garbage" then Err "unexpected end of JSON input"
         else Ok (MkUpdateProjectV1Response
                    (projectWithUuid (if String.eqb body "no-uuid" then "" else body))
                    "ok");
     json_Unmarshal_CreatePersonalAccessTokenV1Response :=
       fun body =>
         if String.eqb body "garbage" then Err "unexpected end of JSON input"
         else Ok (MkCreatePersonalAccessTokenV1Response
                    (tokenWithUuid (if String.eqb body "no-uuid" then "" else body))
                    "ok");
     json_Unmarshal_ListPersonalAccessTokensV1Response :=
       fun body =>
         if String.eqb body "garbage" then Err "unexpected end of JSON input"
         else Ok (MkListPersonalAccessTokensV1Response
                    [listedToken "b7"; listedToken "a3"; listedToken "c1"; listedToken "a3"]
                    "ok");
     strings_ToLower := fun s => s;
     sort_Slice := fun A less l => insertionSort less l;
     BigQueryCredentials_json := fun b => JObject [("keyfileContents", BQ_KeyfileContents b)];
     CreatePersonalAccessToken_json :=
       fun r => JObject [("description", JString (CPAT_Description r))];
     extractStrings_noMatch :=
       fun input => "no match for " ++ input ++ ", expected " |}.

(** The remote end: the projects it holds and the body it answers an HTTP
    request with. *)
Record World : Type := MkWorld {
  projects : list GetProjectV1Results;
  answer : result string
}.

Definition findProject (uuid : string) (w : World) : option GetProjectV1Results :=
  find (fun p => String.eqb (G_ProjectUUID p) uuid) (projects w).

Definition testServer : Handler World :=
  fun R c =>
    match c in Call R return World -> R * World with
    | doRequest _ => fun w => (answer w, w)
    | DoRequest _ => fun w => (answer w, w)
    | GetProjectV1 uuid => fun w =>
        match findProject uuid w with
        | Some p => (Ok p, w)
        | None => (Err "request failed with status 404: project not found", w)
        end
    | DeleteProjectV1 uuid => fun w =>
        match findProject uuid w with
        | Some _ =>
            (None,
             MkWorld (filter (fun p => negb (String.eqb (G_ProjectUUID p) uuid))
                        (projects w))
                     (answer w))
        | None => (Some "request failed with status 404: project not found", w)
        end
    end.

Definition client : Client := MkClient "https://app.lightdash.cloud".

Definition remoteProject : GetProjectV1Results :=
  {| G_OrganizationUUID := "org-2";
     G_ProjectUUID := "p-1";
     G_ProjectName := "Analytics Project";
     G_ProjectType := "DEFAULT";
     G_DbtVersion := "v1.9";
     G_OrganizationWarehouseCredentialsUUID := None;
     G_UpstreamProjectUUID := None |}.

Definition worldWith (ps : list GetProjectV1Results) (body : result string) : World :=
  MkWorld ps body.

Definition dbt : dbtConnectionModel :=
  {| DC_Type := StringValue "github";
     DC_AuthorizationMethod := StringValue "personal_access_token";
     DC_PersonalAccessToken := StringValue "ghp_secret";
     DC_Repository := StringValue "my-org/dbt-project";
     DC_Branch := StringValue "main";
     DC_ProjectSubPath := StringValue "/";
     DC_HostDomain := StringNull;
     DC_Target := StringNull |}.

(** A stored state (or a plan, before the computed attributes are known)
    of the second listing. *)
Definition patchableState : PatchableProject.projectResourceModel :=
  {| PatchableProject.ID := StringValue "organizations/org-1/projects/p-1";
     PatchableProject.OrganizationUUID := StringValue "org-1";
     PatchableProject.ProjectUUID := StringValue "p-1";
     PatchableProject.Name := StringValue "Analytics Project";
     PatchableProject.Type_ := StringValue "PREVIEW";
     PatchableProject.DbtVersion := StringValue "v1.8";
     PatchableProject.DbtConnection := Some dbt;
     PatchableProject.OrganizationWarehouseCredentialsUUID := StringNull;
     PatchableProject.UpstreamProjectUUID := StringValue "p-0" |}.

Definition warehouse (keyfile : string) : ImmutableProject.warehouseConnectionModel :=
  {| ImmutableProject.WC_Type := StringValue "bigquery";
     ImmutableProject.WC_Project := StringValue "my-gcp-project-id";
     ImmutableProject.WC_Dataset := StringValue "my_dataset";
     ImmutableProject.WC_KeyfileContents := StringValue keyfile;
     ImmutableProject.WC_AuthenticationType := StringNull;
     ImmutableProject.WC_Location := StringNull;
     ImmutableProject.WC_TimeoutSeconds := Int64Null;
     ImmutableProject.WC_MaximumBytesBilled := Int64Null;
     ImmutableProject.WC_Priority := StringNull;
     ImmutableProject.WC_Retries := Int64Null;
     ImmutableProject.WC_StartOfWeek := Int64Null |}.

(** A stored state (or a plan) of the first listing. *)
Definition immutableState (w : option ImmutableProject.warehouseConnectionModel)
  : ImmutableProject.projectResourceModel :=
  {| ImmutableProject.ID := StringValue "organizations/org-1/projects/p-1";
     ImmutableProject.OrganizationUUID := StringValue "org-1";
     ImmutableProject.ProjectUUID := StringValue "p-1";
     ImmutableProject.Name := StringValue "Analytics Project";
     ImmutableProject.Type_ := StringValue "DEFAULT";
     ImmutableProject.DbtVersion := StringValue "v1.8";
     ImmutableProject.DbtConnection := Some dbt;
     ImmutableProject.OrganizationWarehouseCredentialsUUID := StringNull;
     ImmutableProject.WarehouseConnection := w;
     ImmutableProject.UpstreamProjectUUID := StringNull |}.

Definition tokenPlan : PersonalAccessTokenResource.personalAccessTokenResourceModel :=
  {| PersonalAccessTokenResource.ID := StringUnknown;
     PersonalAccessTokenResource.TokenUUID := StringUnknown;
     PersonalAccessTokenResource.Description := StringValue "CI/CD pipeline token";
     PersonalAccessTokenResource.ExpiresAt := StringNull;
     PersonalAccessTokenResource.CreatedAt := StringUnknown;
     PersonalAccessTokenResource.Token := StringUnknown |}.

Definition tokensConfig
  : PersonalAccessTokensDataSource.personalAccessTokensDataSourceModel :=
  {| PersonalAccessTokensDataSource.ID := StringNull;
     PersonalAccessTokensDataSource.Tokens := [] |}.

(** [strings.TrimSpace] on the strings used here: a string of blanks trims
    to nothing, any other is taken as already trimmed. *)
Fixpoint allBlank (s : string) : bool :=
  match s with
  | EmptyString => true
  | String a s' => Ascii.eqb a " " && allBlank s'
  end.

Definition testStrings : GoStrings :=
  {| strings_TrimSpace := fun s => if allBlank s then "" else s |}.

(** A stored token state; the list endpoint of [testEnv] has the tokens
    [b7], [a3], [c1] and [a3] again. *)
Definition tokenState (uuid : string)
  : PersonalAccessTokenResource.personalAccessTokenResourceModel :=
  {| PersonalAccessTokenResource.ID := StringValue ("personal-access-tokens/" ++ uuid);
     PersonalAccessTokenResource.TokenUUID := StringValue uuid;
     PersonalAccessTokenResource.Description := StringValue "CI/CD pipeline token";
     PersonalAccessTokenResource.ExpiresAt := StringValue "2024-12-31T23:59:59Z";
     PersonalAccessTokenResource.CreatedAt := StringValue "2023-12-31T00:00:00Z";
     PersonalAccessTokenResource.Token := StringValue "ldpat_secret" |}.

(** The same environment with a list endpoint whose answer depends on the
    body: [ba] lists the tokens [b7], [a3], any other body [a3], [b7]. *)
Definition orderEnv : Env :=
  {| json_text := json_text (Env := testEnv);
     http_NewRequest_error := http_NewRequest_error (Env := testEnv);
     json_Unmarshal_map := json_Unmarshal_map (Env := testEnv);
     json_Unmarshal_CreateProjectV1Response :=
       json_Unmarshal_CreateProjectV1Response (Env := testEnv);
     json_Unmarshal_UpdateProjectV1Response :=
       json_Unmarshal_UpdateProjectV1Response (Env := testEnv);
     json_Unmarshal_CreatePersonalAccessTokenV1Response :=
       json_Unmarshal_CreatePersonalAccessTokenV1Response (Env := testEnv);
     json_Unmarshal_ListPersonalAccessTokensV1Response :=
       fun body =>
         Ok (MkListPersonalAccessTokensV1Response
               (if String.eqb body "ba"
                then [listedToken "b7"; listedToken "a3"]
                else [listedToken "a3"; listedToken "b7"])
               "ok");
     strings_ToLower := strings_ToLower (Env := testEnv);
     sort_Slice := fun A less l => insertionSort less l;
     BigQueryCredentials_json := BigQueryCredentials_json (Env := testEnv);
     CreatePersonalAccessToken_json := CreatePersonalAccessToken_json (Env := testEnv);
     extractStrings_noMatch := extractStrings_noMatch (Env := testEnv) |}.

(** A server that answers every HTTP request with the body named by its
    state. *)
Definition echoServer : Handler string :=
  fun R c =>
    match c in Call R return string -> R * string with
    | doRequest _ => fun w => (Ok w, w)
    | DoRequest _ => fun w => (Ok w, w)
    | GetProjectV1 _ => fun w => (Err "request failed with status 404", w)
    | DeleteProjectV1 _ => fun w => (Some "request failed with status 404", w)
    end.

End Fixtures.

(* ------------------------------------------------------------------ *)
(** ** Reading a run *)

Module Observe.

Definition response {A W} (r : A * W * list Event) : A := fst (fst r).
Definition calls {A W} (r : A * W * list Event) : list Event := snd r.

(** A successful HTTP exchange: the request can be built, and the round
    trip from the server state [w] returns the body [answer] (the client
    returns a body only for a success status) and leaves the server in
    [w']. *)
Definition exchange `{E : Env} {W} (h : Handler W) (w : W)
  (send : Request -> Call (result string)) (method url : string)
  (body : option json) (answer : string) (w' : W) : Prop :=
  http_NewRequest_error method url = None
  /\ h _ (send (MkRequest method url body)) w = (Ok answer, w').

(** The keys of an object, in order. *)
Definition objectKeys (doc : json) : list string :=
  match doc with
  | JObject fields => keys fields
  | _ => []
  end.

(** The key of an optional attribute: there when the attribute is not
    null. *)
Definition whenSet (v : tfString) (key : string) : list string :=
  if String_IsNull v then [] else [key].

(** The keys a dbt connection is expected to be sent with. *)
Definition dbtKeys (d : dbtConnectionModel) : list string :=
  ["type"; "authorization_method"]
  ++ whenSet (DC_PersonalAccessToken d) "personal_access_token"
  ++ ["repository"; "branch"; "project_sub_path"]
  ++ whenSet (DC_HostDomain d) "host_domain"
  ++ whenSet (DC_Target d) "target".

(** What [sort.Slice] asks of its comparison: a strict weak ordering. *)
Record StrictWeakOrder {A : Type} (less : A -> A -> bool) : Prop :=
  MkStrictWeakOrder {
  swo_irreflexive : forall a, less a a = false;
  swo_transitive :
    forall a b c, less a b = true -> less b c = true -> less a c = true;
  swo_incomparable :
    forall a b c, less a b = false -> less b c = false -> less a c = false
}.

(** What [sort.Slice] promises: the elements are rearranged, and for such
    a comparison no element is less than one before it.  Nothing is said
    about the order of elements that compare equal (the sort is not
    stable). *)
Definition SortSliceContract (E : Env) : Prop :=
  forall (A : Type) (less : A -> A -> bool) (l : list A),
    Permutation l (sort_Slice less l)
    /\ (StrictWeakOrder less ->
        StronglySorted (fun a b => less b a = false) (sort_Slice less l)).


(** Whether a response leaves the resource without state. *)
Definition untracked {M} (resp : Response M) : bool :=
  match State resp with
  | None => true
  | Some _ => false
  end.

End Observe.
Import Observe.

(* ================================================================== *)
(** * Properties *)

(* ------------------------------------------------------------------ *)
(** ** Diagnostics *)

Section DiagnosticsFacts.

Lemma Diagnostic_eqb_isError (a b : Diagnostic) :
  Diagnostic_eqb a b = true -> isError a = isError b.
Proof.
  unfold Diagnostic_eqb, isError.
  destruct (diag_severity a), (diag_severity b); simpl; congruence.
Qed.

Lemma HasError_app (ds es : Diagnostics) :
  HasError (ds ++ es) = HasError ds || HasError es.
Proof. unfold HasError. apply existsb_app. Qed.

Lemma existsb_eqb_isError (d : Diagnostic) (ds : Diagnostics) :
  existsb (Diagnostic_eqb d) ds = true -> isError d = true ->
  HasError ds = true.
Proof.
  intros Hin Hd. apply existsb_exists in Hin. destruct Hin as [x [Hx Heq]].
  apply existsb_exists. exists x. split; [assumption|].
  rewrite <- (Diagnostic_eqb_isError _ _ Heq). assumption.
Qed.

Lemma HasError_Append (more ds : Diagnostics) :
  HasError (Append ds more) = HasError ds || HasError more.
Proof.
  revert ds. induction more as [|d rest IH]; intros ds; simpl.
  - now rewrite orb_false_r.
  - rewrite IH. destruct (existsb (Diagnostic_eqb d) ds) eqn:Hin.
    + destruct (isError d) eqn:Hd.
      * rewrite (existsb_eqb_isError _ _ Hin Hd). reflexivity.
      * reflexivity.
    + rewrite HasError_app. simpl. rewrite orb_false_r.
      now rewrite orb_assoc.
Qed.

Lemma HasError_decoded (ds : Diagnostics) :
  HasError (Append [] ds) = HasError ds.
Proof. now rewrite HasError_Append. Qed.

Lemma AddError_fresh (ds : Diagnostics) (summary detail : string) :
  HasError ds = false ->
  AddError ds summary detail = ds ++ [MkDiag SeverityError summary detail].
Proof.
  intros Hno. unfold AddError. simpl.
  destruct (existsb (Diagnostic_eqb (MkDiag SeverityError summary detail)) ds) eqn:Hin;
    [|reflexivity].
  rewrite (existsb_eqb_isError _ _ Hin eq_refl) in Hno. discriminate.
Qed.

End DiagnosticsFacts.

(* ------------------------------------------------------------------ *)
(** ** Programs *)

Section ProgFacts.

Variables (W : Type) (h : Handler W).

Lemma run_bind {A B} (m : Prog A) (f : A -> Prog B) (w : W) :
  run h (bind m f) w =
  let '(a, w1, log1) := run h m w in
  let '(b, w2, log2) := run h (f a) w1 in
  (b, w2, log1 ++ log2).
Proof.
  revert w. induction m as [a | R c k IH]; intros w; simpl.
  - destruct (run h (f a) w) as [[b w2] log2]. reflexivity.
  - destruct (@h R c w) as [r w1]. rewrite IH.
    destruct (run h (k r) w1) as [[a w2] log1].
    destruct (run h (f a) w2) as [[b w3] log2]. reflexivity.
Qed.

End ProgFacts.

(* ------------------------------------------------------------------ *)
(** ** Delete *)

(** C1, at an explicit input: in the second listing of the project resource,
    [Delete] on a stored state does not return without a call; run against
    a server that holds the project, it makes the call [DeleteProjectV1]
    and the project is gone afterwards. *)
Lemma C1_second_listing_deletes_remotely :
  (forall resp,
      PatchableProject.Delete (E := Fixtures.testEnv) Fixtures.client
        (MkTfData Fixtures.patchableState []) <> Ret resp)
  /\ run Fixtures.testServer
       (PatchableProject.Delete (E := Fixtures.testEnv) Fixtures.client
          (MkTfData Fixtures.patchableState []))
       (Fixtures.worldWith [Fixtures.remoteProject] (Ok "p-1"))
     = (MkResponse (Some Fixtures.patchableState) [],
        Fixtures.worldWith [] (Ok "p-1"),
        [EvCall (DeleteProjectV1 "p-1")]).
Proof.
  split.
  - intros resp Heq. discriminate Heq.
  - reflexivity.
Qed.

(** C1, amended: in the first listing of the project resource, [Delete]
    returns at once for every stored state, with the single warning
    "Project not deleted" and no error, so that no call reaches any server,
    the server is left as it was and the framework stops tracking the
    project.  In the second listing, [Delete] of a state that decodes
    without error makes exactly one call, [DeleteProjectV1] on the project
    UUID of the state. *)
Theorem C1_delete_local_in_first_listing_remote_in_second
  (E : Env) (c : Client)
  (stored : TfData ImmutableProject.projectResourceModel)
  (stored' : TfData PatchableProject.projectResourceModel)
  (Hdecoded : HasError (GetDiags stored') = false) :
  (exists resp warning,
      ImmutableProject.Delete c stored = Ret resp
      /\ Diags resp = [warning]
      /\ diag_severity warning = SeverityWarning
      /\ diag_summary warning = "Project not deleted"
      /\ State (afterDelete resp) = None
      /\ forall W (h : Handler W) (w : W),
           run h (ImmutableProject.Delete c stored) w = (resp, w, []))
  /\ (forall W (h : Handler W) (w : W),
         calls (run h (PatchableProject.Delete c stored') w)
         = [EvCall (DeleteProjectV1
                      (ValueString (PatchableProject.ProjectUUID (Raw stored'))))]).
Proof.
  split.
  - eexists. eexists. split; [reflexivity|].
    repeat split; reflexivity.
  - intros W h w. unfold PatchableProject.Delete.
    rewrite HasError_decoded, Hdecoded. simpl.
    destruct (h (option error) (DeleteProjectV1
                     (ValueString (PatchableProject.ProjectUUID (Raw stored')))) w)
      as [[e|] w1]; reflexivity.
Qed.

Lemma C1_delete_witness :
  HasError (GetDiags (MkTfData Fixtures.patchableState [])) = false
  /\ calls (run Fixtures.testServer
            (PatchableProject.Delete (E := Fixtures.testEnv) Fixtures.client
               (MkTfData Fixtures.patchableState []))
            (Fixtures.worldWith [] (Ok "p-1")))
     = [EvCall (DeleteProjectV1 "p-1")].
Proof.
  split; [reflexivity|].
  exact (proj2 (C1_delete_local_in_first_listing_remote_in_second
                  Fixtures.testEnv Fixtures.client
                  (MkTfData (Fixtures.immutableState None) [])
                  (MkTfData Fixtures.patchableState []) eq_refl)
               Fixtures.World Fixtures.testServer
               (Fixtures.worldWith [] (Ok "p-1"))).
Defined.

(* ------------------------------------------------------------------ *)
(** ** Read *)

Section ReadFacts.

Context {E : Env} (c : Client) (W : Type) (h : Handler W).

Lemma Immutable_Read_error (stored : TfData ImmutableProject.projectResourceModel)
  (w w' : W) (e : error) :
  HasError (GetDiags stored) = false ->
  h (GetProjectV1 (ValueString (ImmutableProject.ProjectUUID (Raw stored)))) w
    = (Err e, w') ->
  run h (ImmutableProject.Read c stored) w
  = (MkResponse (Some (Raw stored))
       (Append [] (GetDiags stored)
        ++ [MkDiag SeverityError "Error Reading project"
              ("Could not read project ID "
               ++ ValueString (ImmutableProject.ID (Raw stored)) ++ ": " ++ e)]),
     w',
     [EvCall (GetProjectV1 (ValueString (ImmutableProject.ProjectUUID (Raw stored))))]).
Proof.
  intros Hdec Hans. unfold ImmutableProject.Read.
  rewrite HasError_decoded, Hdec. simpl. rewrite Hans. simpl.
  rewrite AddError_fresh by (now rewrite HasError_decoded). reflexivity.
Qed.

Lemma Patchable_Read_error (stored : TfData PatchableProject.projectResourceModel)
  (w w' : W) (e : error) :
  HasError (GetDiags stored) = false ->
  h (GetProjectV1 (ValueString (PatchableProject.ProjectUUID (Raw stored)))) w
    = (Err e, w') ->
  run h (PatchableProject.Read c stored) w
  = (MkResponse (Some (Raw stored))
       (Append [] (GetDiags stored)
        ++ [MkDiag SeverityError "Error Reading project"
              ("Could not read project ID "
               ++ ValueString (PatchableProject.ID (Raw stored)) ++ ": " ++ e)]),
     w',
     [EvCall (GetProjectV1 (ValueString (PatchableProject.ProjectUUID (Raw stored))))]).
Proof.
  intros Hdec Hans. unfold PatchableProject.Read.
  rewrite HasError_decoded, Hdec. simpl. rewrite Hans. simpl.
  rewrite AddError_fresh by (now rewrite HasError_decoded). reflexivity.
Qed.

(** Whatever the server answers, the response of [Read] holds a state. *)
Lemma Immutable_Read_tracked (stored : TfData ImmutableProject.projectResourceModel)
  (w : W) :
  State (response (run h (ImmutableProject.Read c stored) w)) <> None.
Proof.
  unfold ImmutableProject.Read.
  destruct (HasError (Append [] (GetDiags stored))); simpl; [discriminate|].
  destruct (h _ w) as [[project | e] w1]; simpl; discriminate.
Qed.

Lemma Patchable_Read_tracked (stored : TfData PatchableProject.projectResourceModel)
  (w : W) :
  State (response (run h (PatchableProject.Read c stored) w)) <> None.
Proof.
  unfold PatchableProject.Read.
  destruct (HasError (Append [] (GetDiags stored))); simpl; [discriminate|].
  destruct (h _ w) as [[project | e] w1]; simpl; discriminate.
Qed.

Lemma Immutable_Read_ok (stored : TfData ImmutableProject.projectResourceModel)
  (w w' : W) (project : GetProjectV1Results) :
  HasError (GetDiags stored) = false ->
  h (GetProjectV1 (ValueString (ImmutableProject.ProjectUUID (Raw stored)))) w
    = (Ok project, w') ->
  run h (ImmutableProject.Read c stored) w
  = (MkResponse (Some (ImmutableProject.refreshed (Raw stored) project))
       (Append [] (GetDiags stored)),
     w',
     [EvCall (GetProjectV1 (ValueString (ImmutableProject.ProjectUUID (Raw stored))))]).
Proof.
  intros Hdec Hans. unfold ImmutableProject.Read.
  rewrite HasError_decoded, Hdec. simpl. rewrite Hans. reflexivity.
Qed.

Lemma Patchable_Read_ok (stored : TfData PatchableProject.projectResourceModel)
  (w w' : W) (project : GetProjectV1Results) :
  HasError (GetDiags stored) = false ->
  h (GetProjectV1 (ValueString (PatchableProject.ProjectUUID (Raw stored)))) w
    = (Ok project, w') ->
  run h (PatchableProject.Read c stored) w
  = (MkResponse (Some (PatchableProject.refreshed (Raw stored) project))
       (Append [] (GetDiags stored)),
     w',
     [EvCall (GetProjectV1 (ValueString (PatchableProject.ProjectUUID (Raw stored))))]).
Proof.
  intros Hdec Hans. unfold PatchableProject.Read.
  rewrite HasError_decoded, Hdec. simpl. rewrite Hans. reflexivity.
Qed.

End ReadFacts.

(** C2, at an explicit input: the server does not hold the project of the
    stored state and answers "not found"; [Read] keeps the state and reports
    the error "Error Reading project", in both listings. *)
Lemma C2_not_found_is_reported_as_error :
  run Fixtures.testServer
    (PatchableProject.Read (E := Fixtures.testEnv) Fixtures.client
       (MkTfData Fixtures.patchableState []))
    (Fixtures.worldWith [] (Ok ""))
  = (MkResponse (Some Fixtures.patchableState)
       [MkDiag SeverityError "Error Reading project"
          "Could not read project ID organizations/org-1/projects/p-1: request failed with status 404: project not found"],
     Fixtures.worldWith [] (Ok ""),
     [EvCall (GetProjectV1 "p-1")])
  /\ run Fixtures.testServer
       (ImmutableProject.Read (E := Fixtures.testEnv) Fixtures.client
          (MkTfData (Fixtures.immutableState None) []))
       (Fixtures.worldWith [] (Ok ""))
     = (MkResponse (Some (Fixtures.immutableState None))
          [MkDiag SeverityError "Error Reading project"
             "Could not read project ID organizations/org-1/projects/p-1: request failed with status 404: project not found"],
        Fixtures.worldWith [] (Ok ""),
        [EvCall (GetProjectV1 "p-1")]).
Proof. split; reflexivity. Qed.

(** C2, amended: for every project [Read] (either listing) of a state that
    decodes without error, when the client reports an error for the project
    (a remote entity that is not found is reported so), [Read] keeps the
    prior state and adds the error diagnostic "Error Reading project"; and
    whatever the server answers, [Read] never yields "absent". *)
Theorem C2_read_error_keeps_state_and_reports
  (E : Env) (c : Client) (W : Type) (h : Handler W)
  (stored : TfData ImmutableProject.projectResourceModel)
  (stored' : TfData PatchableProject.projectResourceModel) :
  (forall (w w' : W) (e : error),
      HasError (GetDiags stored) = false ->
      h _ (GetProjectV1 (ValueString (ImmutableProject.ProjectUUID (Raw stored)))) w
        = (Err e, w') ->
      let resp := response (run h (ImmutableProject.Read c stored) w) in
      State resp = Some (Raw stored)
      /\ HasError (Diags resp) = true
      /\ Diags resp
         = Append [] (GetDiags stored)
           ++ [MkDiag SeverityError "Error Reading project"
                 ("Could not read project ID "
                  ++ ValueString (ImmutableProject.ID (Raw stored)) ++ ": " ++ e)])
  /\ (forall (w w' : W) (e : error),
      HasError (GetDiags stored') = false ->
      h _ (GetProjectV1 (ValueString (PatchableProject.ProjectUUID (Raw stored')))) w
        = (Err e, w') ->
      let resp := response (run h (PatchableProject.Read c stored') w) in
      State resp = Some (Raw stored')
      /\ HasError (Diags resp) = true
      /\ Diags resp
         = Append [] (GetDiags stored')
           ++ [MkDiag SeverityError "Error Reading project"
                 ("Could not read project ID "
                  ++ ValueString (PatchableProject.ID (Raw stored')) ++ ": " ++ e)])
  /\ (forall w : W,
         State (response (run h (ImmutableProject.Read c stored) w)) <> None)
  /\ (forall w : W,
         State (response (run h (PatchableProject.Read c stored') w)) <> None).
Proof.
  split; [|split; [|split]].
  - intros w w' e Hdec Hans. cbv zeta.
    rewrite (Immutable_Read_error c h stored w Hdec Hans). simpl.
    repeat split. rewrite HasError_app. simpl. now rewrite orb_true_r.
  - intros w w' e Hdec Hans. cbv zeta.
    rewrite (Patchable_Read_error c h stored' w Hdec Hans). simpl.
    repeat split. rewrite HasError_app. simpl. now rewrite orb_true_r.
  - apply Immutable_Read_tracked.
  - apply Patchable_Read_tracked.
Qed.

Lemma C2_read_error_witness :
  HasError (GetDiags (MkTfData Fixtures.patchableState [])) = false
  /\ Fixtures.testServer (GetProjectV1 "p-1") (Fixtures.worldWith [] (Ok ""))
     = (Err "request failed with status 404: project not found",
        Fixtures.worldWith [] (Ok ""))
  /\ State (response (run Fixtures.testServer
                        (PatchableProject.Read (E := Fixtures.testEnv) Fixtures.client
                           (MkTfData Fixtures.patchableState []))
                        (Fixtures.worldWith [] (Ok ""))))
     = Some Fixtures.patchableState.
Proof.
  split; [reflexivity|]. split; [reflexivity|].
  exact (proj1 (proj1 (proj2 (C2_read_error_keeps_state_and_reports
                  Fixtures.testEnv Fixtures.client Fixtures.testServer
                  (MkTfData (Fixtures.immutableState None) [])
                  (MkTfData Fixtures.patchableState [])))
               (Fixtures.worldWith [] (Ok "")) (Fixtures.worldWith [] (Ok ""))
               "request failed with status 404: project not found"
               eq_refl eq_refl)).
Defined.

(* ------------------------------------------------------------------ *)
(** ** Update *)

Section UpdateFacts.

Context {E : Env} (c : Client) (W : Type) (h : Handler W).

(** [UpdateProjectV1] makes one HTTP round trip when the request can be
    built. *)
Lemma UpdateProjectV1_one_call (projectUuid : string) (project : UpdateProject)
  (w : W) :
  http_NewRequest_error "PATCH" (HostUrl c ++ "/api/v1/projects/" ++ projectUuid)
    = None ->
  calls (run h (UpdateProjectV1 c projectUuid project) w)
  = [EvCall (doRequest
               (MkRequest "PATCH" (HostUrl c ++ "/api/v1/projects/" ++ projectUuid)
                  (Some (UpdateProject_json project))))].
Proof.
  intros Hreq. unfold UpdateProjectV1, http_NewRequest. rewrite Hreq. simpl.
  destruct (h _ w) as [[body | e] w1]; simpl; [|reflexivity].
  destruct (json_Unmarshal_UpdateProjectV1Response body) as [response | e];
    simpl; [|reflexivity].
  destruct (String.eqb _ _); reflexivity.
Qed.

Lemma Patchable_Update_one_call
  (plan prior : TfData PatchableProject.projectResourceModel) (w : W) :
  HasError (GetDiags plan) = false ->
  HasError (GetDiags prior) = false ->
  http_NewRequest_error "PATCH"
    (HostUrl c ++ "/api/v1/projects/"
     ++ ValueString (PatchableProject.ProjectUUID (Raw plan))) = None ->
  calls (run h (PatchableProject.Update c plan prior) w)
  = [EvCall (doRequest
               (MkRequest "PATCH"
                  (HostUrl c ++ "/api/v1/projects/"
                   ++ ValueString (PatchableProject.ProjectUUID (Raw plan)))
                  (Some (UpdateProject_json
                           (PatchableProject.updateRequest (Raw plan))))))].
Proof.
  intros Hplan Hprior Hreq. unfold PatchableProject.Update.
  rewrite !HasError_Append, Hplan, Hprior. simpl.
  rewrite run_bind.
  pose proof (UpdateProjectV1_one_call
                (ValueString (PatchableProject.ProjectUUID (Raw plan)))
                (PatchableProject.updateRequest (Raw plan)) w Hreq) as Hone.
  destruct (run h (UpdateProjectV1 c _ _) w) as [[r w1] log1].
  simpl in Hone. subst log1.
  destruct r as [updated | e]; reflexivity.
Qed.

End UpdateFacts.

(** C3, at an explicit input: in the second listing of the project resource,
    [Update] does not return without a call; run against a server it sends
    one PATCH request for the project and reports no error. *)
Lemma C3_second_listing_update_patches :
  (forall resp,
      PatchableProject.Update (E := Fixtures.testEnv) Fixtures.client
        (MkTfData Fixtures.patchableState [])
        (MkTfData Fixtures.patchableState []) <> Ret resp)
  /\ (let '(resp, _, log) :=
        run Fixtures.testServer
          (PatchableProject.Update (E := Fixtures.testEnv) Fixtures.client
             (MkTfData Fixtures.patchableState [])
             (MkTfData Fixtures.patchableState []))
          (Fixtures.worldWith [Fixtures.remoteProject] (Ok "p-1")) in
      HasError (Diags resp) = false
      /\ State resp = Some Fixtures.patchableState
      /\ log = [EvCall (doRequest
                  (MkRequest "PATCH"
                     "https://app.lightdash.cloud/api/v1/projects/p-1"
                     (Some (UpdateProject_json (E := Fixtures.testEnv)
                              (PatchableProject.updateRequest
                                 Fixtures.patchableState)))))]).
Proof.
  split.
  - intros resp Heq. discriminate Heq.
  - vm_compute. repeat split.
Qed.

(** C3, amended: in the first listing of the project resource, every
    [Update] is a hard failure: it returns at once with the error
    "Update not supported", keeps the prior state and reaches no server.  In
    the second listing, an [Update] whose plan and state decode without
    error and whose request can be built sends exactly one PATCH request,
    to [/api/v1/projects/<project_uuid>], carrying the update request built
    from the plan. *)
Theorem C3_update_fails_in_first_listing_patches_in_second
  (E : Env) (c : Client)
  (plan prior : TfData ImmutableProject.projectResourceModel)
  (plan' prior' : TfData PatchableProject.projectResourceModel)
  (Hplan : HasError (GetDiags plan') = false)
  (Hprior : HasError (GetDiags prior') = false)
  (Hreq : http_NewRequest_error "PATCH"
            (HostUrl c ++ "/api/v1/projects/"
             ++ ValueString (PatchableProject.ProjectUUID (Raw plan')))%string
          = None) :
  (exists resp failure,
      ImmutableProject.Update c plan prior = Ret resp
      /\ State resp = Some (Raw prior)
      /\ Diags resp = [failure]
      /\ diag_severity failure = SeverityError
      /\ diag_summary failure = "Update not supported"
      /\ diag_detail failure
         = "Lightdash projects are immutable. Any changes require destroying and recreating the resource."
      /\ forall W (h : Handler W) (w : W),
           run h (ImmutableProject.Update c plan prior) w = (resp, w, []))
  /\ (forall W (h : Handler W) (w : W),
         calls (run h (PatchableProject.Update c plan' prior') w)
         = [EvCall (doRequest
                      (MkRequest "PATCH"
                         (HostUrl c ++ "/api/v1/projects/"
                          ++ ValueString (PatchableProject.ProjectUUID (Raw plan')))%string
                         (Some (UpdateProject_json
                                  (PatchableProject.updateRequest (Raw plan'))))))]).
Proof.
  split.
  - eexists. eexists. split; [reflexivity|]. repeat split; reflexivity.
  - intros W h w. now apply Patchable_Update_one_call.
Qed.

Lemma C3_update_witness :
  HasError (GetDiags (MkTfData Fixtures.patchableState [])) = false
  /\ http_NewRequest_error (Env := Fixtures.testEnv) "PATCH"
       "https://app.lightdash.cloud/api/v1/projects/p-1" = None
  /\ calls (run Fixtures.testServer
            (PatchableProject.Update (E := Fixtures.testEnv) Fixtures.client
               (MkTfData Fixtures.patchableState [])
               (MkTfData Fixtures.patchableState []))
            (Fixtures.worldWith [] (Err "connection refused")))
     = [EvCall (doRequest
                  (MkRequest "PATCH"
                     "https://app.lightdash.cloud/api/v1/projects/p-1"
                     (Some (UpdateProject_json (E := Fixtures.testEnv)
                              (PatchableProject.updateRequest
                                 Fixtures.patchableState)))))].
Proof.
  split; [reflexivity|]. split; [reflexivity|].
  exact (proj2 (C3_update_fails_in_first_listing_patches_in_second
                  Fixtures.testEnv Fixtures.client
                  (MkTfData (Fixtures.immutableState None) [])
                  (MkTfData (Fixtures.immutableState None) [])
                  (MkTfData Fixtures.patchableState [])
                  (MkTfData Fixtures.patchableState [])
                  eq_refl eq_refl eq_refl)
               Fixtures.World Fixtures.testServer
               (Fixtures.worldWith [] (Err "connection refused"))).
Defined.

(* ------------------------------------------------------------------ *)
(** ** Create: a response without a UUID *)

Section CreateFacts.

Context {E : Env} (c : Client) (W : Type) (h : Handler W).

Lemma CreateProjectV1_missing_uuid (project : CreateProject) (w w' : W)
  (body : string) (response : CreateProjectV1Response) :
  http_NewRequest_error "POST" (HostUrl c ++ "/api/v1/org/projects") = None ->
  h (doRequest (MkRequest "POST" (HostUrl c ++ "/api/v1/org/projects")
                  (Some (CreateProject_json project)))) w = (Ok body, w') ->
  json_Unmarshal_CreateProjectV1Response body = Ok response ->
  P_ProjectUUID (CPR_Project (CPResp_Results response)) = "" ->
  run h (CreateProjectV1 c project) w
  = (Err "project UUID is missing in the response", w',
     [EvCall (doRequest (MkRequest "POST" (HostUrl c ++ "/api/v1/org/projects")
                           (Some (CreateProject_json project))))]).
Proof.
  intros Hreq Hans Hdec Huuid. unfold CreateProjectV1, http_NewRequest.
  rewrite Hreq. simpl. rewrite Hans. simpl. rewrite Hdec, Huuid. reflexivity.
Qed.

Lemma CreatePersonalAccessTokenV1_missing_uuid
  (request : CreatePersonalAccessToken) (w w' : W)
  (body : string) (response : CreatePersonalAccessTokenV1Response) :
  http_NewRequest_error "POST"
    (HostUrl c ++ "/api/v1/user/me/personal-access-tokens") = None ->
  h (DoRequest (MkRequest "POST"
                  (HostUrl c ++ "/api/v1/user/me/personal-access-tokens")
                  (Some (CreatePersonalAccessToken_json request)))) w
    = (Ok body, w') ->
  json_Unmarshal_CreatePersonalAccessTokenV1Response body = Ok response ->
  PATT_UUID (CPATResp_Results response) = "" ->
  run h (CreatePersonalAccessTokenV1 c request) w
  = (Err "token UUID is missing in the response", w',
     [EvCall (DoRequest (MkRequest "POST"
                           (HostUrl c ++ "/api/v1/user/me/personal-access-tokens")
                           (Some (CreatePersonalAccessToken_json request))))]).
Proof.
  intros Hreq Hans Hdec Huuid. unfold CreatePersonalAccessTokenV1, http_NewRequest.
  rewrite Hreq. simpl. rewrite Hans. simpl. rewrite Hdec, Huuid. reflexivity.
Qed.

(** When the client reports an error, the resource stores nothing. *)
Lemma Patchable_Create_client_error
  (plan : TfData PatchableProject.projectResourceModel) (w w' : W)
  (e : error) (log : list Event) :
  HasError (GetDiags plan) = false ->
  run h (CreateProjectV1 c (PatchableProject.createRequest (Raw plan))) w
    = (Err e, w', log) ->
  run h (PatchableProject.Create c plan) w
  = (MkResponse None
       (Append [] (GetDiags plan)
        ++ [MkDiag SeverityError "Error creating project"
              ("Could not create project, unexpected error: " ++ e)]),
     w', log).
Proof.
  intros Hdec Hrun. unfold PatchableProject.Create.
  rewrite HasError_decoded, Hdec. rewrite run_bind, Hrun. simpl.
  rewrite AddError_fresh by (now rewrite HasError_decoded).
  now rewrite app_nil_r.
Qed.

Lemma Immutable_Create_client_error
  (plan : TfData ImmutableProject.projectResourceModel) (w w' : W)
  (warehouse : option BigQueryCredentials) (e : error) (log : list Event) :
  HasError (GetDiags plan) = false ->
  ImmutableProject.warehouseConnectionOf (Raw plan) = Ok warehouse ->
  run h (CreateProjectV1 c (ImmutableProject.createRequest (Raw plan) warehouse)) w
    = (Err e, w', log) ->
  run h (ImmutableProject.Create c plan) w
  = (MkResponse None
       (Append [] (GetDiags plan)
        ++ [MkDiag SeverityError "Error creating project"
              ("Could not create project, unexpected error: " ++ e)]),
     w', log).
Proof.
  intros Hdec Hwh Hrun. unfold ImmutableProject.Create.
  rewrite HasError_decoded, Hdec, Hwh. unfold ImmutableProject.createAndSetState.
  rewrite run_bind, Hrun. simpl.
  rewrite AddError_fresh by (now rewrite HasError_decoded).
  now rewrite app_nil_r.
Qed.

Lemma Token_Create_client_error
  (plan : TfData PersonalAccessTokenResource.personalAccessTokenResourceModel)
  (w w' : W) (e : error) (log : list Event) :
  HasError (GetDiags plan) = false ->
  run h (CreatePersonalAccessTokenV1 c
           (PersonalAccessTokenResource.createRequest (Raw plan))) w
    = (Err e, w', log) ->
  run h (PersonalAccessTokenResource.Create c plan) w
  = (MkResponse None
       (Append [] (GetDiags plan)
        ++ [MkDiag SeverityError "Error creating personal access token"
              ("Could not create personal access token, unexpected error: " ++ e)]),
     w', log).
Proof.
  intros Hdec Hrun. unfold PersonalAccessTokenResource.Create.
  rewrite HasError_decoded, Hdec. cbv zeta. rewrite run_bind, Hrun. simpl.
  rewrite AddError_fresh by (now rewrite HasError_decoded).
  now rewrite app_nil_r.
Qed.

End CreateFacts.

(** C4: when the HTTP exchange of a create call succeeds and its body
    decodes to a result whose UUID is empty, [CreateProjectV1] and
    [CreatePersonalAccessTokenV1] return the error "... UUID is missing in
    the response"; the project resource (both listings) and the token
    resource then store no state and report an error: the entity is not
    created as far as the provider is concerned. *)
Theorem C4_create_without_uuid_is_an_error
  (E : Env) (c : Client) (W : Type) (h : Handler W) (w w' : W) (body : string) :
  (forall (project : CreateProject) (decoded : CreateProjectV1Response),
      exchange h w doRequest "POST" (HostUrl c ++ "/api/v1/org/projects")%string
        (Some (CreateProject_json project)) body w' ->
      json_Unmarshal_CreateProjectV1Response body = Ok decoded ->
      P_ProjectUUID (CPR_Project (CPResp_Results decoded)) = "" ->
      response (run h (CreateProjectV1 c project) w)
      = Err "project UUID is missing in the response")
  /\ (forall (request : CreatePersonalAccessToken)
        (decoded : CreatePersonalAccessTokenV1Response),
      exchange h w DoRequest "POST"
        (HostUrl c ++ "/api/v1/user/me/personal-access-tokens")%string
        (Some (CreatePersonalAccessToken_json request)) body w' ->
      json_Unmarshal_CreatePersonalAccessTokenV1Response body = Ok decoded ->
      PATT_UUID (CPATResp_Results decoded) = "" ->
      response (run h (CreatePersonalAccessTokenV1 c request) w)
      = Err "token UUID is missing in the response")
  /\ (forall (plan : TfData PatchableProject.projectResourceModel)
        (decoded : CreateProjectV1Response),
      HasError (GetDiags plan) = false ->
      exchange h w doRequest "POST" (HostUrl c ++ "/api/v1/org/projects")%string
        (Some (CreateProject_json (PatchableProject.createRequest (Raw plan))))
        body w' ->
      json_Unmarshal_CreateProjectV1Response body = Ok decoded ->
      P_ProjectUUID (CPR_Project (CPResp_Results decoded)) = "" ->
      let resp := response (run h (PatchableProject.Create c plan) w) in
      State resp = None /\ HasError (Diags resp) = true)
  /\ (forall (plan : TfData ImmutableProject.projectResourceModel)
        (warehouse : option BigQueryCredentials)
        (decoded : CreateProjectV1Response),
      HasError (GetDiags plan) = false ->
      ImmutableProject.warehouseConnectionOf (Raw plan) = Ok warehouse ->
      exchange h w doRequest "POST" (HostUrl c ++ "/api/v1/org/projects")%string
        (Some (CreateProject_json
                 (ImmutableProject.createRequest (Raw plan) warehouse)))
        body w' ->
      json_Unmarshal_CreateProjectV1Response body = Ok decoded ->
      P_ProjectUUID (CPR_Project (CPResp_Results decoded)) = "" ->
      let resp := response (run h (ImmutableProject.Create c plan) w) in
      State resp = None /\ HasError (Diags resp) = true)
  /\ (forall (plan : TfData PersonalAccessTokenResource.personalAccessTokenResourceModel)
        (decoded : CreatePersonalAccessTokenV1Response),
      HasError (GetDiags plan) = false ->
      exchange h w DoRequest "POST"
        (HostUrl c ++ "/api/v1/user/me/personal-access-tokens")%string
        (Some (CreatePersonalAccessToken_json
                 (PersonalAccessTokenResource.createRequest (Raw plan))))
        body w' ->
      json_Unmarshal_CreatePersonalAccessTokenV1Response body = Ok decoded ->
      PATT_UUID (CPATResp_Results decoded) = "" ->
      let resp := response (run h (PersonalAccessTokenResource.Create c plan) w) in
      State resp = None /\ HasError (Diags resp) = true).
Proof.
  split; [|split; [|split; [|split]]].
  - intros project decoded [Hreq Hans] Hdec Huuid.
    now rewrite (CreateProjectV1_missing_uuid c h project w Hreq Hans Hdec Huuid).
  - intros request decoded [Hreq Hans] Hdec Huuid.
    now rewrite (CreatePersonalAccessTokenV1_missing_uuid c h request w
                   Hreq Hans Hdec Huuid).
  - intros plan decoded Hplan [Hreq Hans] Hdec Huuid. cbv zeta.
    rewrite (Patchable_Create_client_error c h plan w Hplan
               (CreateProjectV1_missing_uuid c h _ w Hreq Hans Hdec Huuid)).
    unfold response. simpl. split; [reflexivity|].
    rewrite HasError_app. simpl. now rewrite orb_true_r.
  - intros plan warehouse decoded Hplan Hwh [Hreq Hans] Hdec Huuid. cbv zeta.
    rewrite (Immutable_Create_client_error c h plan w Hplan Hwh
               (CreateProjectV1_missing_uuid c h _ w Hreq Hans Hdec Huuid)).
    unfold response. simpl. split; [reflexivity|].
    rewrite HasError_app. simpl. now rewrite orb_true_r.
  - intros plan decoded Hplan [Hreq Hans] Hdec Huuid. cbv zeta.
    rewrite (Token_Create_client_error c h plan w Hplan
               (CreatePersonalAccessTokenV1_missing_uuid c h _ w
                  Hreq Hans Hdec Huuid)).
    unfold response. simpl. split; [reflexivity|].
    rewrite HasError_app. simpl. now rewrite orb_true_r.
Qed.

Lemma C4_create_without_uuid_witness :
  exchange (E := Fixtures.testEnv) Fixtures.testServer
    (Fixtures.worldWith [] (Ok "no-uuid")) doRequest "POST"
    "https://app.lightdash.cloud/api/v1/org/projects"
    (Some (CreateProject_json (E := Fixtures.testEnv)
             (PatchableProject.createRequest Fixtures.patchableState)))
    "no-uuid" (Fixtures.worldWith [] (Ok "no-uuid"))
  /\ State (response
              (run Fixtures.testServer
                 (PatchableProject.Create (E := Fixtures.testEnv) Fixtures.client
                    (MkTfData Fixtures.patchableState []))
                 (Fixtures.worldWith [] (Ok "no-uuid")))) = None.
Proof.
  assert (Hex : exchange (E := Fixtures.testEnv) Fixtures.testServer
                  (Fixtures.worldWith [] (Ok "no-uuid")) doRequest "POST"
                  "https://app.lightdash.cloud/api/v1/org/projects"
                  (Some (CreateProject_json (E := Fixtures.testEnv)
                           (PatchableProject.createRequest Fixtures.patchableState)))
                  "no-uuid" (Fixtures.worldWith [] (Ok "no-uuid")))
    by (split; reflexivity).
  split; [exact Hex|].
  exact (proj1 (proj1 (proj2 (proj2
           (C4_create_without_uuid_is_an_error
              Fixtures.testEnv Fixtures.client Fixtures.testServer
              (Fixtures.worldWith [] (Ok "no-uuid"))
              (Fixtures.worldWith [] (Ok "no-uuid")) "no-uuid")))
           (MkTfData Fixtures.patchableState [])
           (MkCreateProjectV1Response
              (MkCreateProjectV1Results false None (Fixtures.projectWithUuid ""))
              "ok")
           eq_refl Hex eq_refl eq_refl)).
Defined.

(* ------------------------------------------------------------------ *)
(** ** Composite identifiers: format, parse, import *)

Section ResourceIdFacts.

Local Open Scope string_scope.

Lemma append_nil_r (a : string) : a ++ "" = a.
Proof. induction a as [|x a IH]; simpl; [reflexivity | now rewrite IH]. Qed.

Lemma stripPrefix_append (p s : string) : stripPrefix p (p ++ s) = Some s.
Proof.
  induction p as [|a p IH]; simpl; [reflexivity|].
  now rewrite Ascii.eqb_refl.
Qed.

Lemma stripPrefix_sound (p s s' : string) :
  stripPrefix p s = Some s' -> s = p ++ s'.
Proof.
  revert s. induction p as [|a p IH]; intros s; simpl.
  - intros Heq. now inversion Heq.
  - destruct s as [|b s]; [discriminate|].
    destruct (Ascii.eqb_spec a b) as [-> | Hne]; [|discriminate].
    intros Heq. now rewrite (IH _ Heq).
Qed.

(** A capture group takes a whole run of other characters when what
    follows it starts with the excluded character, or is the end. *)
Lemma matchPlus_run (c : ascii) (cont : string -> option (list string))
  (rest : string) (caps : list string) (o : string) :
  o <> "" -> lacks c o = true ->
  rest = "" \/ (exists t, rest = String c t) ->
  cont rest = Some caps ->
  matchPlus c cont (o ++ rest) = Some (o, caps).
Proof.
  intros Hne Hlacks Hrest Hcont.
  induction o as [|a o IH]; [congruence|].
  simpl in Hlacks. apply andb_true_iff in Hlacks. destruct Hlacks as [Ha Ho].
  apply negb_true_iff in Ha. simpl. rewrite Ha.
  destruct o as [|b o].
  - simpl.
    assert (Hstop : matchPlus c cont rest = None).
    { destruct Hrest as [-> | [t ->]]; simpl; [reflexivity|].
      now rewrite Ascii.eqb_refl. }
    now rewrite Hstop, Hcont.
  - rewrite IH; [reflexivity | discriminate | assumption].
Qed.

(** What a capture group has taken. *)
Lemma matchPlus_sound (c : ascii) (cont : string -> option (list string))
  (s cap : string) (caps : list string) :
  matchPlus c cont s = Some (cap, caps) ->
  exists rest, s = cap ++ rest /\ cap <> "" /\ lacks c cap = true
               /\ cont rest = Some caps.
Proof.
  revert cap caps. induction s as [|a s IH]; intros cap caps; simpl;
    [discriminate|].
  destruct (Ascii.eqb a c) eqn:Ha; [discriminate|].
  destruct (matchPlus c cont s) as [[cap' caps']|] eqn:Hrec.
  - intros Heq. inversion Heq; subst.
    destruct (IH _ _ eq_refl) as [rest [Hs [Hne [Hl Hc]]]].
    exists rest. repeat split.
    + simpl. now rewrite <- Hs.
    + discriminate.
    + simpl. now rewrite Ha, Hl.
    + assumption.
  - destruct (cont s) as [caps'|] eqn:Hc; [|discriminate].
    intros Heq. inversion Heq; subst.
    exists s. repeat split.
    + discriminate.
    + simpl. now rewrite Ha.
    + assumption.
Qed.

Lemma matchPlus_run_end (c : ascii) (cont : string -> option (list string))
  (caps : list string) (o : string) :
  o <> "" -> lacks c o = true -> cont "" = Some caps ->
  matchPlus c cont o = Some (o, caps).
Proof.
  intros Hne Hlacks Hcont.
  pose proof (@matchPlus_run c cont "" caps o Hne Hlacks (or_introl eq_refl) Hcont)
    as Hrun.
  now rewrite append_nil_r in Hrun.
Qed.

(** The equations of [matchItems]. *)
Lemma matchItems_nil (s : string) :
  matchItems [] s = match s with EmptyString => Some [] | _ => None end.
Proof. reflexivity. Qed.

Lemma matchItems_Lit (l : string) (rest : list Item) (s : string) :
  matchItems (Lit l :: rest) s
  = match stripPrefix l s with
    | Some s' => matchItems rest s'
    | None => None
    end.
Proof. reflexivity. Qed.

Lemma matchItems_NotCharPlus (c : ascii) (rest : list Item) (s : string) :
  matchItems (NotCharPlus c :: rest) s
  = match matchPlus c (matchItems rest) s with
    | Some (cap, caps) => Some (cap :: caps)
    | None => None
    end.
Proof. reflexivity. Qed.

Lemma projectId_match (o p : string) :
  o <> "" -> p <> "" -> lacks "/" o = true -> lacks "/" p = true ->
  matchItems projectIdPattern (getProjectResourceId o p) = Some [o; p].
Proof.
  intros Ho Hp Hlo Hlp. unfold projectIdPattern, getProjectResourceId.
  rewrite matchItems_Lit, stripPrefix_append, matchItems_NotCharPlus.
  rewrite (@matchPlus_run "/"%char
             (matchItems [Lit "/projects/"; NotCharPlus "/"])
             ("/projects/" ++ p) [p] o); try assumption.
  - reflexivity.
  - right. eexists. reflexivity.
  - rewrite matchItems_Lit, stripPrefix_append, matchItems_NotCharPlus.
    now rewrite (@matchPlus_run_end "/"%char (matchItems []) [] p).
Qed.

Lemma projectId_match_sound (s : string) (groups : list string) :
  matchItems projectIdPattern s = Some groups ->
  exists o p, groups = [o; p] /\ o <> "" /\ p <> ""
              /\ lacks "/" o = true /\ lacks "/" p = true
              /\ s = getProjectResourceId o p.
Proof.
  unfold projectIdPattern. rewrite matchItems_Lit.
  destruct (stripPrefix "organizations/" s) as [s1|] eqn:H1; [|discriminate].
  apply stripPrefix_sound in H1. rewrite matchItems_NotCharPlus.
  destruct (matchPlus "/" _ s1) as [[o caps]|] eqn:H2; [|discriminate].
  apply matchPlus_sound in H2. destruct H2 as [s2 [Hs1 [Ho [Hlo Hcont]]]].
  rewrite matchItems_Lit in Hcont.
  destruct (stripPrefix "/projects/" s2) as [s3|] eqn:H3; [|discriminate].
  apply stripPrefix_sound in H3. rewrite matchItems_NotCharPlus in Hcont.
  destruct (matchPlus "/" _ s3) as [[p caps']|] eqn:H4; [|discriminate].
  apply matchPlus_sound in H4. destruct H4 as [s4 [Hs3 [Hp [Hlp Hend]]]].
  rewrite matchItems_nil in Hend. destruct s4; [|discriminate].
  inversion Hend; subst caps'. inversion Hcont; subst caps.
  intros Heq. inversion Heq; subst groups.
  exists o, p. repeat split; try assumption.
  unfold getProjectResourceId. rewrite H1, Hs1, H3, Hs3.
  now rewrite append_nil_r.
Qed.

(** The matcher accepts exactly the strings of the pattern. *)
Lemma projectId_match_iff (s : string) :
  wellFormedProjectId s <-> exists groups, matchItems projectIdPattern s = Some groups.
Proof.
  split.
  - intros [o [p [Ho [Hp [Hlo [Hlp ->]]]]]]. exists [o; p].
    now apply projectId_match.
  - intros [groups Hm]. apply projectId_match_sound in Hm.
    destruct Hm as [o [p [_ [Ho [Hp [Hlo [Hlp Hs]]]]]]].
    exists o, p. repeat split; assumption.
Qed.

Lemma projectId_no_match (s : string) :
  ~ wellFormedProjectId s -> matchItems projectIdPattern s = None.
Proof.
  intros Hnot. destruct (matchItems projectIdPattern s) as [groups|] eqn:Hm;
    [|reflexivity].
  exfalso. apply Hnot. apply projectId_match_iff. now exists groups.
Qed.

Context {E : Env}.

Lemma extract_format (o p : string) :
  o <> "" -> p <> "" -> lacks "/" o = true -> lacks "/" p = true ->
  extractProjectResourceId (getProjectResourceId o p) = Ok [o; p].
Proof.
  intros Ho Hp Hlo Hlp. unfold extractProjectResourceId, extractStrings.
  now rewrite (projectId_match Ho Hp Hlo Hlp).
Qed.

Lemma extract_malformed (id : string) :
  ~ wellFormedProjectId id ->
  extractProjectResourceId id
  = Err ("could not extract resource ID: "
         ++ extractStrings_noMatch id ++ projectIdPatternText).
Proof.
  intros Hnot. unfold extractProjectResourceId, extractStrings.
  now rewrite (projectId_no_match Hnot).
Qed.

End ResourceIdFacts.

Section ImportFacts.

Context {E : Env} (c : Client) (W : Type) (h : Handler W).

Lemma ImportState_well_formed (o p : string) (w : W) :
  o <> "" -> p <> "" -> lacks "/" o = true -> lacks "/" p = true ->
  run h (PatchableProject.ImportState c (getProjectResourceId o p)) w
  = (let '(r, w') := h (GetProjectV1 p) w in
     match r with
     | Err e =>
         (MkResponse None
            [MkDiag SeverityError "Error Getting project"
               ("Could not get project with organization UUID " ++ o
                ++ " and project UUID " ++ p ++ ", unexpected error: " ++ e)%string],
          w', [EvCall (GetProjectV1 p)])
     | Ok project =>
         (MkResponse
            (Some (PatchableProject.imported (getProjectResourceId o p) project))
            [MkDiag SeverityWarning "DBT Connection not imported"
               "The dbt connection credentials (personal_access_token, etc.) are not returned by the API for security reasons. You must manually configure these in your Terraform configuration."],
          w', [EvCall (GetProjectV1 p)])
     end).
Proof.
  intros Ho Hp Hlo Hlp. unfold PatchableProject.ImportState.
  rewrite (extract_format Ho Hp Hlo Hlp). simpl.
  destruct (h (GetProjectV1 p) w) as [[project | e] w']; reflexivity.
Qed.

End ImportFacts.

(** C5, at an explicit input: the ID [organizations/org-1/projects/p-1]
    parses to [org-1] and [p-1], but the server holds project [p-1] under
    the organization [org-2]; the imported state has [org-2], not the
    organization of the ID. *)
Lemma C5_import_organization_comes_from_server :
  extractProjectResourceId (E := Fixtures.testEnv)
    (getProjectResourceId "org-1" "p-1") = Ok ["org-1"; "p-1"]
  /\ (let resp :=
        response (run Fixtures.testServer
                    (PatchableProject.ImportState (E := Fixtures.testEnv)
                       Fixtures.client (getProjectResourceId "org-1" "p-1"))
                    (Fixtures.worldWith [Fixtures.remoteProject] (Ok ""))) in
      HasError (Diags resp) = false
      /\ option_map PatchableProject.OrganizationUUID (State resp)
         = Some (StringValue "org-2")
      /\ option_map PatchableProject.OrganizationUUID (State resp)
         <> Some (StringValue "org-1")).
Proof.
  split; [reflexivity|]. cbv zeta. repeat split. discriminate.
Qed.

(** C5, amended: for every organization UUID [o] and project UUID [p], both
    non-empty and without '/', formatting the composite ID and parsing it
    returns exactly [o] and [p].  Import of such an ID makes one call,
    [GetProjectV1 p]; when it returns a project, the observed state has the
    ID as given and the organization and project UUIDs of the returned
    project; when it returns an error, Import reports it and sets no
    state. *)
Theorem C5_format_parse_round_trip_and_import
  (E : Env) (c : Client) (o p : string)
  (Ho : o <> "") (Hp : p <> "")
  (Hlo : lacks "/" o = true) (Hlp : lacks "/" p = true) :
  extractProjectResourceId (getProjectResourceId o p) = Ok [o; p]
  /\ forall (W : Type) (h : Handler W) (w : W),
       let result := run h (PatchableProject.ImportState c (getProjectResourceId o p)) w in
       calls result = [EvCall (GetProjectV1 p)]
       /\ (forall project w',
              h _ (GetProjectV1 p) w = (Ok project, w') ->
              exists state,
                State (response result) = Some state
                /\ PatchableProject.ID state = StringValue (getProjectResourceId o p)
                /\ PatchableProject.OrganizationUUID state
                   = StringValue (G_OrganizationUUID project)
                /\ PatchableProject.ProjectUUID state
                   = StringValue (G_ProjectUUID project))
       /\ (forall e w',
              h _ (GetProjectV1 p) w = (Err e, w') ->
              State (response result) = None
              /\ HasError (Diags (response result)) = true).
Proof.
  split; [now apply extract_format|].
  intros W h w. cbv zeta.
  rewrite (ImportState_well_formed c h w Ho Hp Hlo Hlp).
  destruct (h _ (GetProjectV1 p) w) as [[project | e0] w1].
  - split; [reflexivity|]. split.
    + intros project' w' Heq. inversion Heq; subst.
      eexists. split; [reflexivity|]. repeat split.
    + intros e w' Heq. discriminate Heq.
  - split; [reflexivity|]. split.
    + intros project w' Heq. discriminate Heq.
    + intros e w' Heq. split; reflexivity.
Qed.

Lemma C5_round_trip_witness :
  ("org-1" <> "" /\ "p-1" <> ""
   /\ lacks "/" "org-1" = true /\ lacks "/" "p-1" = true)
  /\ extractProjectResourceId (E := Fixtures.testEnv)
       (getProjectResourceId "org-1" "p-1") = Ok ["org-1"; "p-1"].
Proof.
  split.
  - repeat split; discriminate.
  - exact (proj1 (C5_format_parse_round_trip_and_import
                    Fixtures.testEnv Fixtures.client
                    (o := "org-1") (p := "p-1")
                    ltac:(discriminate) ltac:(discriminate) eq_refl eq_refl)).
Defined.

(** C6: for every import ID that is not of the shape
    [organizations/<org>/projects/<proj>] (both parts non-empty, without
    '/'), that is, that the pattern
    [^organizations/([^/]+)/projects/([^/]+)$] does not match,
    [ImportState] returns at once with the single error
    "Error extracting resource ID", whose detail ends with the pattern; it
    sets no state and no call reaches any server. *)
Theorem C6_malformed_import_id_is_rejected
  (E : Env) (c : Client) (id : string)
  (Hmalformed : ~ wellFormedProjectId id) :
  exists resp,
    PatchableProject.ImportState c id = Ret resp
    /\ State resp = None
    /\ Diags resp
       = [MkDiag SeverityError "Error extracting resource ID"
            ("Could not extract resource ID, unexpected error: "
             ++ "could not extract resource ID: "
             ++ extractStrings_noMatch id
             ++ "^organizations/([^/]+)/projects/([^/]+)$")%string]
    /\ forall (W : Type) (h : Handler W) (w : W),
         run h (PatchableProject.ImportState c id) w = (resp, w, []).
Proof.
  eexists. unfold PatchableProject.ImportState.
  rewrite (extract_malformed Hmalformed).
  split; [reflexivity|]. repeat split.
Qed.

Lemma C6_not_a_valid_id_witness :
  ~ wellFormedProjectId "not-a-valid-id"
  /\ exists resp,
       PatchableProject.ImportState (E := Fixtures.testEnv) Fixtures.client
         "not-a-valid-id" = Ret resp
       /\ State resp = None
       /\ Diags resp
          = [MkDiag SeverityError "Error extracting resource ID"
               "Could not extract resource ID, unexpected error: could not extract resource ID: no match for not-a-valid-id, expected ^organizations/([^/]+)/projects/([^/]+)$"]
       /\ forall (W : Type) (h : Handler W) (w : W),
            run h (PatchableProject.ImportState (E := Fixtures.testEnv)
                     Fixtures.client "not-a-valid-id") w = (resp, w, []).
Proof.
  assert (Hbad : ~ wellFormedProjectId "not-a-valid-id").
  { intros Hwf. apply projectId_match_iff in Hwf. destruct Hwf as [groups Hm].
    discriminate Hm. }
  split; [exact Hbad|].
  exact (C6_malformed_import_id_is_rejected Fixtures.testEnv Fixtures.client Hbad).
Defined.

(* ------------------------------------------------------------------ *)
(** ** Create: the request body *)

Section CreateBodyFacts.

Context {E : Env} (c : Client).

Lemma CreateProjectV1_one_call (W : Type) (h : Handler W)
  (project : CreateProject) (w : W) :
  http_NewRequest_error "POST" (HostUrl c ++ "/api/v1/org/projects") = None ->
  calls (run h (CreateProjectV1 c project) w)
  = [EvCall (doRequest
               (MkRequest "POST" (HostUrl c ++ "/api/v1/org/projects")
                  (Some (CreateProject_json project))))].
Proof.
  intros Hreq. unfold CreateProjectV1, http_NewRequest, calls. rewrite Hreq. simpl.
  destruct (h _ _ w) as [[body | e] w1]; simpl; [|reflexivity].
  destruct (json_Unmarshal_CreateProjectV1Response body) as [decoded | e];
    simpl; [|reflexivity].
  destruct (String.eqb _ _); reflexivity.
Qed.

Lemma Patchable_Create_one_call (W : Type) (h : Handler W)
  (plan : TfData PatchableProject.projectResourceModel) (w : W) :
  HasError (GetDiags plan) = false ->
  http_NewRequest_error "POST" (HostUrl c ++ "/api/v1/org/projects") = None ->
  calls (run h (PatchableProject.Create c plan) w)
  = [EvCall (doRequest
               (MkRequest "POST" (HostUrl c ++ "/api/v1/org/projects")
                  (Some (CreateProject_json
                           (PatchableProject.createRequest (Raw plan))))))].
Proof.
  intros Hdec Hreq. unfold PatchableProject.Create.
  rewrite HasError_decoded, Hdec. rewrite run_bind.
  pose proof (CreateProjectV1_one_call h
                (PatchableProject.createRequest (Raw plan)) w Hreq) as Hone.
  destruct (run h (CreateProjectV1 c _) w) as [[r w1] log1].
  unfold calls in *. simpl in Hone. subst log1.
  destruct r as [created | e]; reflexivity.
Qed.

Lemma Immutable_Create_one_call (W : Type) (h : Handler W)
  (plan : TfData ImmutableProject.projectResourceModel)
  (warehouse : option BigQueryCredentials) (w : W) :
  HasError (GetDiags plan) = false ->
  ImmutableProject.warehouseConnectionOf (Raw plan) = Ok warehouse ->
  http_NewRequest_error "POST" (HostUrl c ++ "/api/v1/org/projects") = None ->
  calls (run h (ImmutableProject.Create c plan) w)
  = [EvCall (doRequest
               (MkRequest "POST" (HostUrl c ++ "/api/v1/org/projects")
                  (Some (CreateProject_json
                           (ImmutableProject.createRequest (Raw plan) warehouse)))))].
Proof.
  intros Hdec Hwh Hreq. unfold ImmutableProject.Create.
  rewrite HasError_decoded, Hdec, Hwh.
  unfold ImmutableProject.createAndSetState. rewrite run_bind.
  pose proof (CreateProjectV1_one_call h
                (ImmutableProject.createRequest (Raw plan) warehouse) w Hreq)
    as Hone.
  destruct (run h (CreateProjectV1 c _) w) as [[r w1] log1].
  unfold calls in *. simpl in Hone. subst log1.
  destruct r as [created | e]; reflexivity.
Qed.

(** The keys of the encoded dbt connection. *)
Lemma dbtConnection_keys (d : dbtConnectionModel) :
  objectKeys (DbtGithubProjectConfig_json (dbtConnectionConfig d)) = dbtKeys d.
Proof.
  destruct d as [ty auth pat repo branch sub host target].
  unfold dbtKeys, whenSet, DbtGithubProjectConfig_json,
    DbtGithubProjectConfig_fields, dbtConnectionConfig, stringPtr.
  simpl. destruct pat, host, target; reflexivity.
Qed.

Lemma Patchable_body_keys (plan : PatchableProject.projectResourceModel) :
  objectKeys (CreateProject_json (PatchableProject.createRequest plan))
  = ["name"; "type"; "dbtConnection"; "dbtVersion"]
    ++ whenSet (PatchableProject.OrganizationWarehouseCredentialsUUID plan)
         "organizationWarehouseCredentialsUuid"
    ++ whenSet (PatchableProject.UpstreamProjectUUID plan) "upstreamProjectUuid".
Proof.
  destruct plan as [id org uuid name ty ver dbt owc up].
  unfold whenSet, CreateProject_json, CreateProject_fields,
    PatchableProject.createRequest, stringPtr. simpl.
  destruct dbt, owc, up; reflexivity.
Qed.

Lemma Immutable_body_keys (plan : ImmutableProject.projectResourceModel)
  (warehouse : option BigQueryCredentials) :
  ImmutableProject.warehouseConnectionOf plan = Ok warehouse ->
  objectKeys (CreateProject_json (ImmutableProject.createRequest plan warehouse))
  = ["name"; "type"; "dbtConnection"; "dbtVersion"]
    ++ whenSet (ImmutableProject.OrganizationWarehouseCredentialsUUID plan)
         "organizationWarehouseCredentialsUuid"
    ++ match ImmutableProject.WarehouseConnection plan with
       | Some _ => ["warehouseConnection"]
       | None => []
       end
    ++ whenSet (ImmutableProject.UpstreamProjectUUID plan) "upstreamProjectUuid".
Proof.
  destruct plan as [id org uuid name ty ver dbt owc wh up].
  unfold ImmutableProject.warehouseConnectionOf, whenSet, CreateProject_json,
    CreateProject_fields, ImmutableProject.createRequest, stringPtr. simpl.
  destruct wh as [wc|].
  - destruct (json_Unmarshal_map _) as [keyfile | e]; [|discriminate].
    intros Heq. inversion Heq; subst warehouse.
    destruct dbt, owc, up; reflexivity.
  - intros Heq. inversion Heq; subst warehouse.
    destruct dbt, owc, up; reflexivity.
Qed.

(** The [dbtConnection] member of the body. *)
Lemma body_dbtConnection (p : CreateProject) :
  member "dbtConnection" (CreateProject_json p)
  = Some match CP_DbtConnection p with
         | Some d => DbtGithubProjectConfig_json d
         | None => JNull
         end.
Proof.
  unfold CreateProject_json, CreateProject_fields. simpl.
  destruct (CP_DbtConnection p); reflexivity.
Qed.

(** The [upstreamProjectUuid] member of the body. *)
Lemma body_upstream (p : CreateProject) :
  member "upstreamProjectUuid" (CreateProject_json p)
  = option_map JString (CP_UpstreamProjectUUID p).
Proof.
  unfold CreateProject_json, CreateProject_fields. simpl.
  destruct (CP_DbtConnection p), (CP_OrganizationWarehouseCredentialsUUID p),
    (CP_WarehouseConnection p), (CP_UpstreamProjectUUID p),
    (CP_CopyWarehouseConnectionFromUpstreamProject p); reflexivity.
Qed.

End CreateBodyFacts.

(** C7: for every project [Create] plan (either listing; in the first, one
    whose keyfile, if any, parses), the body of the one request sent is the
    encoding of the request built from the plan, and its keys are the four
    required ones followed by one key for each optional attribute that is
    not null: [organizationWarehouseCredentialsUuid],
    [warehouseConnection], [upstreamProjectUuid]; inside [dbtConnection],
    [personal_access_token], [host_domain] and [target] are there exactly
    when they are not null.  A null optional attribute has no key at all.
    When [upstream_project_uuid] has a value, the body has the key
    [upstreamProjectUuid] with that value. *)
Theorem C7_create_body_has_only_the_fields_set
  (E : Env) (c : Client)
  (plan : TfData PatchableProject.projectResourceModel)
  (plan' : TfData ImmutableProject.projectResourceModel)
  (warehouse : option BigQueryCredentials)
  (Hdecoded : HasError (GetDiags plan) = false)
  (Hdecoded' : HasError (GetDiags plan') = false)
  (Hkeyfile : ImmutableProject.warehouseConnectionOf (Raw plan') = Ok warehouse)
  (Hreq : http_NewRequest_error "POST"
            (HostUrl c ++ "/api/v1/org/projects")%string = None) :
  let body := CreateProject_json (PatchableProject.createRequest (Raw plan)) in
  let body' :=
    CreateProject_json (ImmutableProject.createRequest (Raw plan') warehouse) in
  (forall (W : Type) (h : Handler W) (w : W),
      calls (run h (PatchableProject.Create c plan) w)
      = [EvCall (doRequest
                   (MkRequest "POST" (HostUrl c ++ "/api/v1/org/projects")%string
                      (Some body)))]
      /\ calls (run h (ImmutableProject.Create c plan') w)
         = [EvCall (doRequest
                      (MkRequest "POST" (HostUrl c ++ "/api/v1/org/projects")%string
                         (Some body')))])
  /\ objectKeys body
     = ["name"; "type"; "dbtConnection"; "dbtVersion"]
       ++ whenSet (PatchableProject.OrganizationWarehouseCredentialsUUID (Raw plan))
            "organizationWarehouseCredentialsUuid"
       ++ whenSet (PatchableProject.UpstreamProjectUUID (Raw plan))
            "upstreamProjectUuid"
  /\ objectKeys body'
     = ["name"; "type"; "dbtConnection"; "dbtVersion"]
       ++ whenSet (ImmutableProject.OrganizationWarehouseCredentialsUUID (Raw plan'))
            "organizationWarehouseCredentialsUuid"
       ++ match ImmutableProject.WarehouseConnection (Raw plan') with
          | Some _ => ["warehouseConnection"]
          | None => []
          end
       ++ whenSet (ImmutableProject.UpstreamProjectUUID (Raw plan'))
            "upstreamProjectUuid"
  /\ (forall d, PatchableProject.DbtConnection (Raw plan) = Some d ->
        exists doc, member "dbtConnection" body = Some doc
                    /\ objectKeys doc = dbtKeys d)
  /\ (forall d, ImmutableProject.DbtConnection (Raw plan') = Some d ->
        exists doc, member "dbtConnection" body' = Some doc
                    /\ objectKeys doc = dbtKeys d)
  /\ (forall v, PatchableProject.UpstreamProjectUUID (Raw plan) = StringValue v ->
        member "upstreamProjectUuid" body = Some (JString v))
  /\ (forall v, ImmutableProject.UpstreamProjectUUID (Raw plan') = StringValue v ->
        member "upstreamProjectUuid" body' = Some (JString v)).
Proof.
  cbv zeta. split; [|split; [|split; [|split; [|split; [|split]]]]].
  - intros W h w. split.
    + now apply Patchable_Create_one_call.
    + now apply Immutable_Create_one_call.
  - apply Patchable_body_keys.
  - now apply Immutable_body_keys.
  - intros d Hd. rewrite body_dbtConnection. simpl. rewrite Hd. simpl.
    eexists. split; [reflexivity|]. apply dbtConnection_keys.
  - intros d Hd. rewrite body_dbtConnection. simpl. rewrite Hd. simpl.
    eexists. split; [reflexivity|]. apply dbtConnection_keys.
  - intros v Hv. rewrite body_upstream. simpl. now rewrite Hv.
  - intros v Hv. rewrite body_upstream. simpl. now rewrite Hv.
Qed.

Lemma C7_preview_project_witness :
  (HasError (GetDiags (MkTfData Fixtures.patchableState [])) = false
   /\ ImmutableProject.warehouseConnectionOf (E := Fixtures.testEnv)
        (Fixtures.immutableState (Some (Fixtures.warehouse "{}")))
      = Ok (Some (ImmutableProject.warehouseConn (E := Fixtures.testEnv)
                    (Fixtures.warehouse "{}") (JObject [])))
   /\ http_NewRequest_error (Env := Fixtures.testEnv) "POST"
        "https://app.lightdash.cloud/api/v1/org/projects" = None)
  /\ objectKeys (CreateProject_json (E := Fixtures.testEnv)
                   (PatchableProject.createRequest Fixtures.patchableState))
     = ["name"; "type"; "dbtConnection"; "dbtVersion"; "upstreamProjectUuid"]
  /\ objectKeys (CreateProject_json (E := Fixtures.testEnv)
                   (ImmutableProject.createRequest
                      (Fixtures.immutableState (Some (Fixtures.warehouse "{}")))
                      (Some (ImmutableProject.warehouseConn (E := Fixtures.testEnv)
                               (Fixtures.warehouse "{}") (JObject [])))))
     = ["name"; "type"; "dbtConnection"; "dbtVersion"; "warehouseConnection"].
Proof.
  split; [repeat split|].
  pose proof (C7_create_body_has_only_the_fields_set
                Fixtures.testEnv Fixtures.client
                (MkTfData Fixtures.patchableState [])
                (MkTfData (Fixtures.immutableState (Some (Fixtures.warehouse "{}"))) [])
                eq_refl eq_refl eq_refl eq_refl) as Hbody.
  exact (conj (proj1 (proj2 Hbody)) (proj1 (proj2 (proj2 Hbody)))).
Defined.

(* ------------------------------------------------------------------ *)
(** ** Read: what is kept and what is rewritten *)

(** C8: for every successful project [Read] (either listing: the state
    decodes without error and the client returns the project), the new
    state keeps [dbt_connection] as it was, secret token included (and also
    [id], [project_uuid] and, in the first listing, [warehouse_connection]);
    it takes [name], [type] and [organization_uuid] from the server,
    [dbt_version] from the server unless the server's is empty, and
    [organization_warehouse_credentials_uuid] and [upstream_project_uuid]
    from the server, null when the server has none. *)
Theorem C8_read_keeps_dbt_connection
  (E : Env) (c : Client) (W : Type) (h : Handler W) (w w1 w2 : W)
  (stored : TfData ImmutableProject.projectResourceModel)
  (stored' : TfData PatchableProject.projectResourceModel)
  (project project' : GetProjectV1Results)
  (Hdecoded : HasError (GetDiags stored) = false)
  (Hdecoded' : HasError (GetDiags stored') = false)
  (Hfound : h _ (GetProjectV1 (ValueString (ImmutableProject.ProjectUUID (Raw stored)))) w
            = (Ok project, w1))
  (Hfound' : h _ (GetProjectV1 (ValueString (PatchableProject.ProjectUUID (Raw stored')))) w
             = (Ok project', w2)) :
  (exists state,
      State (response (run h (ImmutableProject.Read c stored) w)) = Some state
      /\ ImmutableProject.DbtConnection state
         = ImmutableProject.DbtConnection (Raw stored)
      /\ ImmutableProject.WarehouseConnection state
         = ImmutableProject.WarehouseConnection (Raw stored)
      /\ ImmutableProject.ID state = ImmutableProject.ID (Raw stored)
      /\ ImmutableProject.ProjectUUID state = ImmutableProject.ProjectUUID (Raw stored)
      /\ ImmutableProject.Name state = StringValue (G_ProjectName project)
      /\ ImmutableProject.Type_ state = StringValue (G_ProjectType project)
      /\ ImmutableProject.OrganizationUUID state
         = StringValue (G_OrganizationUUID project)
      /\ ImmutableProject.DbtVersion state
         = (if String.eqb (G_DbtVersion project) ""
            then ImmutableProject.DbtVersion (Raw stored)
            else StringValue (G_DbtVersion project))
      /\ ImmutableProject.OrganizationWarehouseCredentialsUUID state
         = match G_OrganizationWarehouseCredentialsUUID project with
           | Some u => StringValue u
           | None => StringNull
           end
      /\ ImmutableProject.UpstreamProjectUUID state
         = match G_UpstreamProjectUUID project with
           | Some u => StringValue u
           | None => StringNull
           end)
  /\ (exists state,
      State (response (run h (PatchableProject.Read c stored') w)) = Some state
      /\ PatchableProject.DbtConnection state
         = PatchableProject.DbtConnection (Raw stored')
      /\ PatchableProject.ID state = PatchableProject.ID (Raw stored')
      /\ PatchableProject.ProjectUUID state = PatchableProject.ProjectUUID (Raw stored')
      /\ PatchableProject.Name state = StringValue (G_ProjectName project')
      /\ PatchableProject.Type_ state = StringValue (G_ProjectType project')
      /\ PatchableProject.OrganizationUUID state
         = StringValue (G_OrganizationUUID project')
      /\ PatchableProject.DbtVersion state
         = (if String.eqb (G_DbtVersion project') ""
            then PatchableProject.DbtVersion (Raw stored')
            else StringValue (G_DbtVersion project'))
      /\ PatchableProject.OrganizationWarehouseCredentialsUUID state
         = match G_OrganizationWarehouseCredentialsUUID project' with
           | Some u => StringValue u
           | None => StringNull
           end
      /\ PatchableProject.UpstreamProjectUUID state
         = match G_UpstreamProjectUUID project' with
           | Some u => StringValue u
           | None => StringNull
           end).
Proof.
  split.
  - rewrite (Immutable_Read_ok c h stored w Hdecoded Hfound).
    eexists. split; [reflexivity|]. repeat split.
  - rewrite (Patchable_Read_ok c h stored' w Hdecoded' Hfound').
    eexists. split; [reflexivity|]. repeat split.
Qed.

Lemma C8_read_witness :
  (HasError (GetDiags (MkTfData Fixtures.patchableState [])) = false
   /\ Fixtures.testServer (GetProjectV1 "p-1")
        (Fixtures.worldWith [Fixtures.remoteProject] (Ok ""))
      = (Ok Fixtures.remoteProject,
         Fixtures.worldWith [Fixtures.remoteProject] (Ok "")))
  /\ exists state,
       State (response
                (run Fixtures.testServer
                   (PatchableProject.Read (E := Fixtures.testEnv) Fixtures.client
                      (MkTfData Fixtures.patchableState []))
                   (Fixtures.worldWith [Fixtures.remoteProject] (Ok ""))))
       = Some state
       /\ PatchableProject.DbtConnection state = Some Fixtures.dbt.
Proof.
  split; [split; reflexivity|].
  destruct (proj2 (@C8_read_keeps_dbt_connection
                     Fixtures.testEnv Fixtures.client Fixtures.World
                     Fixtures.testServer
                     (Fixtures.worldWith [Fixtures.remoteProject] (Ok ""))
                     (Fixtures.worldWith [Fixtures.remoteProject] (Ok ""))
                     (Fixtures.worldWith [Fixtures.remoteProject] (Ok ""))
                     (MkTfData (Fixtures.immutableState None) [])
                     (MkTfData Fixtures.patchableState [])
                     Fixtures.remoteProject Fixtures.remoteProject
                     eq_refl eq_refl eq_refl eq_refl))
    as [state [Hstate [Hdbt _]]].
  exists state. split; [exact Hstate | exact Hdbt].
Defined.

(* ------------------------------------------------------------------ *)
(** ** Create: a keyfile that does not parse *)

(** C9: for every project [Create] plan (first listing) that decodes
    without error and has a [warehouse_connection] whose
    [keyfile_contents] the JSON decoder rejects, [Create] returns at once
    with the error "Error parsing keyfile_contents", whose detail carries
    the decoder's message; it sets no state and no call reaches any
    server. *)
Theorem C9_unparsable_keyfile_stops_create
  (E : Env) (c : Client)
  (plan : TfData ImmutableProject.projectResourceModel)
  (connection : ImmutableProject.warehouseConnectionModel) (e : error)
  (Hdecoded : HasError (GetDiags plan) = false)
  (Hconnection : ImmutableProject.WarehouseConnection (Raw plan) = Some connection)
  (Hinvalid : json_Unmarshal_map
                (ValueString (ImmutableProject.WC_KeyfileContents connection))
              = Err e) :
  exists resp,
    ImmutableProject.Create c plan = Ret resp
    /\ State resp = None
    /\ Diags resp
       = Append [] (GetDiags plan)
         ++ [MkDiag SeverityError "Error parsing keyfile_contents"
               ("Could not parse keyfile_contents as JSON: " ++ e)%string]
    /\ forall (W : Type) (h : Handler W) (w : W),
         run h (ImmutableProject.Create c plan) w = (resp, w, []).
Proof.
  eexists. unfold ImmutableProject.Create, ImmutableProject.warehouseConnectionOf.
  rewrite HasError_decoded, Hdecoded, Hconnection, Hinvalid.
  rewrite AddError_fresh by (now rewrite HasError_decoded).
  split; [reflexivity|]. repeat split.
Qed.

Lemma C9_unparsable_keyfile_witness :
  (HasError (GetDiags (MkTfData (Fixtures.immutableState
                                   (Some (Fixtures.warehouse "not json"))) []))
   = false
   /\ json_Unmarshal_map (Env := Fixtures.testEnv) "not json"
      = Err "invalid character 'o' in literal null (expecting 'u')")
  /\ exists resp,
       ImmutableProject.Create (E := Fixtures.testEnv) Fixtures.client
         (MkTfData (Fixtures.immutableState (Some (Fixtures.warehouse "not json"))) [])
       = Ret resp
       /\ State resp = None
       /\ Diags resp
          = [MkDiag SeverityError "Error parsing keyfile_contents"
               "Could not parse keyfile_contents as JSON: invalid character 'o' in literal null (expecting 'u')"]
       /\ forall (W : Type) (h : Handler W) (w : W),
            run h (ImmutableProject.Create (E := Fixtures.testEnv) Fixtures.client
                     (MkTfData (Fixtures.immutableState
                                  (Some (Fixtures.warehouse "not json"))) [])) w
            = (resp, w, []).
Proof.
  split; [split; reflexivity|].
  exact (C9_unparsable_keyfile_stops_create
           Fixtures.testEnv Fixtures.client
           (MkTfData (Fixtures.immutableState (Some (Fixtures.warehouse "not json"))) [])
           (connection := Fixtures.warehouse "not json")
           eq_refl eq_refl eq_refl).
Defined.

(* ------------------------------------------------------------------ *)
(** ** The order of strings *)

Section StringOrder.

Lemma ascii_compare_refl (a : ascii) : Ascii.compare a a = Eq.
Proof. unfold Ascii.compare. apply N.compare_refl. Qed.

Lemma ascii_compare_lt_trans (a b c : ascii) :
  Ascii.compare a b = Lt -> Ascii.compare b c = Lt -> Ascii.compare a c = Lt.
Proof.
  unfold Ascii.compare. rewrite !N.compare_lt_iff. lia.
Qed.

Lemma string_compare_cons (a b : ascii) (s t : string) :
  String.compare (String a s) (String b t)
  = match Ascii.compare a b with
    | Eq => String.compare s t
    | other => other
    end.
Proof. simpl. destruct (Ascii.compare a b); reflexivity. Qed.

Lemma string_compare_refl (s : string) : String.compare s s = Eq.
Proof.
  induction s as [|a s IH]; [reflexivity|].
  now rewrite string_compare_cons, ascii_compare_refl.
Qed.

Lemma string_compare_lt_trans (s t u : string) :
  String.compare s t = Lt -> String.compare t u = Lt -> String.compare s u = Lt.
Proof.
  revert t u. induction s as [|a s IH]; intros [|b t] [|c u]; simpl;
    try discriminate; try reflexivity.
  rewrite <- !string_compare_cons. rewrite !string_compare_cons.
  destruct (Ascii.compare a b) eqn:Hab; try discriminate.
  - apply Ascii.compare_eq_iff in Hab. subst b.
    destruct (Ascii.compare a c); try discriminate; [apply IH | reflexivity].
  - intros _. destruct (Ascii.compare b c) eqn:Hbc; try discriminate.
    + apply Ascii.compare_eq_iff in Hbc. subst c. now rewrite Hab.
    + intros _. now rewrite (ascii_compare_lt_trans _ _ _ Hab Hbc).
Qed.

Lemma string_ltb_irreflexive (s : string) : String.ltb s s = false.
Proof. unfold String.ltb. now rewrite string_compare_refl. Qed.

Lemma string_ltb_transitive (s t u : string) :
  String.ltb s t = true -> String.ltb t u = true -> String.ltb s u = true.
Proof.
  unfold String.ltb.
  destruct (String.compare s t) eqn:H1; try discriminate.
  destruct (String.compare t u) eqn:H2; try discriminate.
  intros _ _. now rewrite (string_compare_lt_trans _ _ _ H1 H2).
Qed.

Lemma string_compare_gt_lt (s t : string) :
  String.compare s t = Gt -> String.compare t s = Lt.
Proof. intros H. rewrite String.compare_antisym, H. reflexivity. Qed.

Lemma string_ltb_incomparable (s t u : string) :
  String.ltb s t = false -> String.ltb t u = false -> String.ltb s u = false.
Proof.
  unfold String.ltb.
  destruct (String.compare s t) eqn:H1; try discriminate;
    destruct (String.compare t u) eqn:H2; try discriminate;
    intros _ _; destruct (String.compare s u) eqn:Hsu; try reflexivity;
    exfalso.
  - apply String.compare_eq_iff in H1. subst t. congruence.
  - apply String.compare_eq_iff in H1. subst t. congruence.
  - apply String.compare_eq_iff in H2. subst u. congruence.
  - apply string_compare_gt_lt in H1. apply string_compare_gt_lt in H2.
    pose proof (string_compare_lt_trans _ _ _ H2 H1) as Hus.
    rewrite String.compare_antisym, Hsu in Hus. discriminate.
Qed.

Lemma string_not_ltb_leb (s t : string) :
  String.ltb t s = false -> String.leb s t = true.
Proof.
  unfold String.ltb, String.leb. rewrite (String.compare_antisym s t).
  destruct (String.compare t s); simpl; congruence.
Qed.

(** The comparison of the data source is a strict weak ordering. *)
Lemma less_StrictWeakOrder : StrictWeakOrder PersonalAccessTokensDataSource.less.
Proof.
  unfold PersonalAccessTokensDataSource.less. constructor.
  - intros a. apply string_ltb_irreflexive.
  - intros a b c. apply string_ltb_transitive.
  - intros a b c. apply string_ltb_incomparable.
Qed.

End StringOrder.

(* ------------------------------------------------------------------ *)
(** ** Insertion sort keeps the promise of [sort.Slice] *)

Section InsertionSort.

Context {A : Type} (less : A -> A -> bool).

Lemma insert_Permutation (x : A) (l : list A) :
  Permutation (x :: l) (Fixtures.insert less x l).
Proof.
  induction l as [|y l IH]; simpl; [apply Permutation_refl|].
  destruct (less y x).
  - eapply Permutation_trans; [apply perm_swap|]. now apply perm_skip.
  - apply Permutation_refl.
Qed.

Lemma insertionSort_Permutation (l : list A) :
  Permutation l (Fixtures.insertionSort less l).
Proof.
  induction l as [|x l IH]; simpl; [constructor|].
  eapply Permutation_trans; [|apply insert_Permutation].
  now apply perm_skip.
Qed.

Hypothesis Hless : StrictWeakOrder less.

Let notAfter (a b : A) : Prop := less b a = false.

Lemma less_asymmetric (a b : A) : less a b = true -> less b a = false.
Proof.
  intros Hab. destruct (less b a) eqn:Hba; [|reflexivity].
  pose proof (swo_transitive Hless _ _ _ Hab Hba) as Haa.
  rewrite (swo_irreflexive Hless) in Haa. discriminate.
Qed.

Lemma insert_StronglySorted (x : A) (l : list A) :
  StronglySorted notAfter l -> StronglySorted notAfter (Fixtures.insert less x l).
Proof.
  induction l as [|y l IH]; intros Hsorted; simpl.
  - constructor; constructor.
  - inversion Hsorted as [|y' l' Hl Hall]; subst.
    destruct (less y x) eqn:Hyx.
    + constructor; [now apply IH|].
      apply (Permutation_Forall (insert_Permutation x l)).
      constructor; [|assumption].
      unfold notAfter. now apply less_asymmetric.
    + constructor; [assumption|].
      constructor; [exact Hyx|].
      eapply Forall_impl; [|exact Hall].
      intros z Hz. unfold notAfter in *.
      apply (swo_incomparable Hless _ _ _ Hz Hyx).
Qed.

Lemma insertionSort_StronglySorted (l : list A) :
  StronglySorted notAfter (Fixtures.insertionSort less l).
Proof.
  induction l as [|x l IH]; simpl; [constructor|].
  now apply insert_StronglySorted.
Qed.

End InsertionSort.


(* ------------------------------------------------------------------ *)
(** ** The personal access tokens data source *)

Section TokensFacts.

Context {E : Env} (c : Client) (W : Type) (h : Handler W).

Lemma ListPersonalAccessTokensV1_ok (w w' : W) (body : string)
  (decoded : ListPersonalAccessTokensV1Response) :
  exchange h w doRequest "GET"
    (HostUrl c ++ "/api/v1/user/me/personal-access-tokens")%string None body w' ->
  json_Unmarshal_ListPersonalAccessTokensV1Response body = Ok decoded ->
  run h (ListPersonalAccessTokensV1 c) w
  = (Ok (LPATResp_Results decoded), w',
     [EvCall (doRequest
                (MkRequest "GET"
                   (HostUrl c ++ "/api/v1/user/me/personal-access-tokens")%string
                   None))]).
Proof.
  intros [Hreq Hans] Hdec. unfold ListPersonalAccessTokensV1, http_NewRequest.
  rewrite Hreq. simpl. rewrite Hans. simpl. now rewrite Hdec.
Qed.

Lemma DataSource_Read_ok
  (config : TfData PersonalAccessTokensDataSource.personalAccessTokensDataSourceModel)
  (w w' : W) (body : string) (decoded : ListPersonalAccessTokensV1Response) :
  HasError (GetDiags config) = false ->
  exchange h w doRequest "GET"
    (HostUrl c ++ "/api/v1/user/me/personal-access-tokens")%string None body w' ->
  json_Unmarshal_ListPersonalAccessTokensV1Response body = Ok decoded ->
  State (response (run h (PersonalAccessTokensDataSource.Read c config) w))
  = Some {| PersonalAccessTokensDataSource.ID := StringValue "personal-access-tokens";
            PersonalAccessTokensDataSource.Tokens :=
              sort_Slice PersonalAccessTokensDataSource.less
                (map PersonalAccessTokensDataSource.fetchedToken
                   (LPATResp_Results decoded)) |}.
Proof.
  intros Hconfig Hex Hdec. unfold PersonalAccessTokensDataSource.Read.
  rewrite HasError_decoded, Hconfig. rewrite run_bind.
  now rewrite (ListPersonalAccessTokensV1_ok Hex Hdec).
Qed.

End TokensFacts.




(* ================================================================== *)
(** * Further properties of the client and of the resources *)

(* ------------------------------------------------------------------ *)
(** ** The client: one round trip, and no entity without a UUID *)

Section ClientFacts.

Context {E : Env} {S : GoStrings} (c : Client) (W : Type) (h : Handler W).

Lemma CreateProjectV1_outcome (project : CreateProject) (w : W) :
  length (calls (run h (CreateProjectV1 c project) w)) <= 1
  /\ forall p, response (run h (CreateProjectV1 c project) w) = Ok p ->
               P_ProjectUUID p <> "".
Proof.
  unfold CreateProjectV1, http_NewRequest, calls, response.
  destruct (http_NewRequest_error _ _) as [e|]; simpl;
    [split; [lia | discriminate]|].
  destruct (h _ w) as [[body | e] w1]; simpl; [|split; [lia | discriminate]].
  destruct (json_Unmarshal_CreateProjectV1Response body) as [decoded | e];
    simpl; [|split; [lia | discriminate]].
  destruct (String.eqb_spec (P_ProjectUUID (CPR_Project (CPResp_Results decoded))) "")
    as [Hempty | Hfull]; simpl; split; try lia; try discriminate.
  intros p Hp. inversion Hp; subst. exact Hfull.
Qed.

Lemma UpdateProjectV1_outcome (projectUuid : string) (project : UpdateProject)
  (w : W) :
  length (calls (run h (UpdateProjectV1 c projectUuid project) w)) <= 1
  /\ forall p, response (run h (UpdateProjectV1 c projectUuid project) w) = Ok p ->
               P_ProjectUUID p <> "".
Proof.
  unfold UpdateProjectV1, http_NewRequest, calls, response.
  destruct (http_NewRequest_error _ _) as [e|]; simpl;
    [split; [lia | discriminate]|].
  destruct (h _ w) as [[body | e] w1]; simpl; [|split; [lia | discriminate]].
  destruct (json_Unmarshal_UpdateProjectV1Response body) as [decoded | e];
    simpl; [|split; [lia | discriminate]].
  destruct (String.eqb_spec (P_ProjectUUID (UPResp_Results decoded)) "")
    as [Hempty | Hfull]; simpl; split; try lia; try discriminate.
  intros p Hp. inversion Hp; subst. exact Hfull.
Qed.

Lemma CreatePersonalAccessTokenV1_outcome (request : CreatePersonalAccessToken)
  (w : W) :
  length (calls (run h (CreatePersonalAccessTokenV1 c request) w)) <= 1
  /\ forall t, response (run h (CreatePersonalAccessTokenV1 c request) w) = Ok t ->
               PATT_UUID t <> "".
Proof.
  unfold CreatePersonalAccessTokenV1, http_NewRequest, calls, response.
  destruct (http_NewRequest_error _ _) as [e|]; simpl;
    [split; [lia | discriminate]|].
  destruct (h _ w) as [[body | e] w1]; simpl; [|split; [lia | discriminate]].
  destruct (json_Unmarshal_CreatePersonalAccessTokenV1Response body)
    as [decoded | e]; simpl; [|split; [lia | discriminate]].
  destruct (String.eqb_spec (PATT_UUID (CPATResp_Results decoded)) "")
    as [Hempty | Hfull]; simpl; split; try lia; try discriminate.
  intros t Ht. inversion Ht; subst. exact Hfull.
Qed.

Lemma ListPersonalAccessTokensV1_outcome (w : W) :
  length (calls (run h (ListPersonalAccessTokensV1 c) w)) <= 1.
Proof.
  unfold ListPersonalAccessTokensV1, http_NewRequest, calls.
  destruct (http_NewRequest_error _ _) as [e|]; simpl; [lia|].
  destruct (h _ w) as [[body | e] w1]; simpl; [|lia].
  destruct (json_Unmarshal_ListPersonalAccessTokensV1Response body); simpl; lia.
Qed.

Lemma DeletePersonalAccessTokenV1_outcome (tokenUuid : string) (w : W) :
  length (calls (run h (DeletePersonalAccessTokenV1 c tokenUuid) w)) <= 1.
Proof.
  unfold DeletePersonalAccessTokenV1, http_NewRequest, calls.
  destruct (String.eqb _ _); simpl; [lia|].
  destruct (http_NewRequest_error _ _) as [e|]; simpl; [lia|].
  destruct (h _ w) as [[body | e] w1]; simpl; lia.
Qed.

End ClientFacts.

(** X1: no client method retries or fans out.  Whatever the server answers,
    [CreateProjectV1], [UpdateProjectV1], [CreatePersonalAccessTokenV1],
    [ListPersonalAccessTokensV1] and [DeletePersonalAccessTokenV1] make at
    most one HTTP round trip. *)
Theorem X1_client_methods_make_at_most_one_round_trip
  (E : Env) (S : GoStrings) (c : Client) (W : Type) (h : Handler W) (w : W) :
  (forall project,
      length (calls (run h (CreateProjectV1 c project) w)) <= 1)
  /\ (forall projectUuid project,
         length (calls (run h (UpdateProjectV1 c projectUuid project) w)) <= 1)
  /\ (forall request,
         length (calls (run h (CreatePersonalAccessTokenV1 c request) w)) <= 1)
  /\ length (calls (run h (ListPersonalAccessTokensV1 c) w)) <= 1
  /\ (forall tokenUuid,
         length (calls (run h (DeletePersonalAccessTokenV1 c tokenUuid) w)) <= 1).
Proof.
  split; [|split; [|split; [|split]]].
  - intros project. apply CreateProjectV1_outcome.
  - intros projectUuid project. apply UpdateProjectV1_outcome.
  - intros request. apply CreatePersonalAccessTokenV1_outcome.
  - apply ListPersonalAccessTokensV1_outcome.
  - intros tokenUuid. apply DeletePersonalAccessTokenV1_outcome.
Qed.



(* ------------------------------------------------------------------ *)
(** ** Create: what is stored *)

Section CreateOutcome.

Context {E : Env} (c : Client) (W : Type) (h : Handler W).

Lemma Patchable_Create_decode_error
  (plan : TfData PatchableProject.projectResourceModel) (w : W) :
  HasError (GetDiags plan) = true ->
  run h (PatchableProject.Create c plan) w
  = (MkResponse None (Append [] (GetDiags plan)), w, []).
Proof.
  intros Hdec. unfold PatchableProject.Create.
  now rewrite HasError_decoded, Hdec.
Qed.

Lemma Patchable_Create_client_ok
  (plan : TfData PatchableProject.projectResourceModel) (w w' : W)
  (created : Project) (log : list Event) :
  HasError (GetDiags plan) = false ->
  run h (CreateProjectV1 c (PatchableProject.createRequest (Raw plan))) w
    = (Ok created, w', log) ->
  run h (PatchableProject.Create c plan) w
  = (MkResponse
       (Some {| PatchableProject.ID :=
                  StringValue
                    (getProjectResourceId
                       (ValueString (PatchableProject.OrganizationUUID (Raw plan)))
                       (P_ProjectUUID created));
                PatchableProject.OrganizationUUID :=
                  PatchableProject.OrganizationUUID (Raw plan);
                PatchableProject.ProjectUUID := StringValue (P_ProjectUUID created);
                PatchableProject.Name := PatchableProject.Name (Raw plan);
                PatchableProject.Type_ := PatchableProject.Type_ (Raw plan);
                PatchableProject.DbtVersion := PatchableProject.DbtVersion (Raw plan);
                PatchableProject.DbtConnection :=
                  PatchableProject.DbtConnection (Raw plan);
                PatchableProject.OrganizationWarehouseCredentialsUUID :=
                  PatchableProject.OrganizationWarehouseCredentialsUUID (Raw plan);
                PatchableProject.UpstreamProjectUUID :=
                  PatchableProject.UpstreamProjectUUID (Raw plan) |})
       (Append [] (GetDiags plan)),
     w', log).
Proof.
  intros Hdec Hrun. unfold PatchableProject.Create.
  rewrite HasError_decoded, Hdec. rewrite run_bind, Hrun. simpl.
  now rewrite app_nil_r.
Qed.




Lemma Token_Create_decode_error
  (plan : TfData PersonalAccessTokenResource.personalAccessTokenResourceModel)
  (w : W) :
  HasError (GetDiags plan) = true ->
  run h (PersonalAccessTokenResource.Create c plan) w
  = (MkResponse None (Append [] (GetDiags plan)), w, []).
Proof.
  intros Hdec. unfold PersonalAccessTokenResource.Create.
  now rewrite HasError_decoded, Hdec.
Qed.

Lemma Token_Create_client_ok
  (plan : TfData PersonalAccessTokenResource.personalAccessTokenResourceModel)
  (w w' : W) (createdToken : PersonalAccessTokenWithToken) (log : list Event) :
  HasError (GetDiags plan) = false ->
  run h (CreatePersonalAccessTokenV1 c
           (PersonalAccessTokenResource.createRequest (Raw plan))) w
    = (Ok createdToken, w', log) ->
  run h (PersonalAccessTokenResource.Create c plan) w
  = (MkResponse
       (Some {| PersonalAccessTokenResource.ID :=
                  StringValue
                    (getPersonalAccessTokenResourceId (PATT_UUID createdToken));
                PersonalAccessTokenResource.TokenUUID :=
                  StringValue (PATT_UUID createdToken);
                PersonalAccessTokenResource.Description :=
                  StringValue (PATT_Description createdToken);
                PersonalAccessTokenResource.ExpiresAt :=
                  match PATT_ExpiresAt createdToken with
                  | Some t => StringValue t
                  | None => StringNull
                  end;
                PersonalAccessTokenResource.CreatedAt :=
                  StringValue (PATT_CreatedAt createdToken);
                PersonalAccessTokenResource.Token :=
                  StringValue (PATT_Token createdToken) |})
       (Append [] (GetDiags plan)),
     w', log).
Proof.
  intros Hdec Hrun. unfold PersonalAccessTokenResource.Create.
  rewrite HasError_decoded, Hdec. rewrite run_bind, Hrun. simpl.
  now rewrite app_nil_r.
Qed.


End CreateOutcome.


Section CreateStored.

Context {E : Env} (c : Client) (W : Type) (h : Handler W).

(** A state stored by [Create] comes from a project the client returned. *)
Lemma Patchable_Create_stored
  (plan : TfData PatchableProject.projectResourceModel) (w : W)
  (state : PatchableProject.projectResourceModel) :
  State (response (run h (PatchableProject.Create c plan) w)) = Some state ->
  exists created,
    response (run h (CreateProjectV1 c (PatchableProject.createRequest (Raw plan))) w)
    = Ok created
    /\ HasError (Diags (response (run h (PatchableProject.Create c plan) w))) = false
    /\ state
       = {| PatchableProject.ID :=
              StringValue
                (getProjectResourceId
                   (ValueString (PatchableProject.OrganizationUUID (Raw plan)))
                   (P_ProjectUUID created));
            PatchableProject.OrganizationUUID :=
              PatchableProject.OrganizationUUID (Raw plan);
            PatchableProject.ProjectUUID := StringValue (P_ProjectUUID created);
            PatchableProject.Name := PatchableProject.Name (Raw plan);
            PatchableProject.Type_ := PatchableProject.Type_ (Raw plan);
            PatchableProject.DbtVersion := PatchableProject.DbtVersion (Raw plan);
            PatchableProject.DbtConnection :=
              PatchableProject.DbtConnection (Raw plan);
            PatchableProject.OrganizationWarehouseCredentialsUUID :=
              PatchableProject.OrganizationWarehouseCredentialsUUID (Raw plan);
            PatchableProject.UpstreamProjectUUID :=
              PatchableProject.UpstreamProjectUUID (Raw plan) |}.
Proof.
  destruct (HasError (GetDiags plan)) eqn:Hdec.
  - rewrite (Patchable_Create_decode_error c h plan w Hdec). discriminate.
  - destruct (run h (CreateProjectV1 c (PatchableProject.createRequest (Raw plan))) w)
      as [[[created | e] w1] log] eqn:Hrun.
    + rewrite (Patchable_Create_client_ok c h plan w Hdec Hrun).
      unfold response. cbn [fst State Diags]. intros Heq. inversion Heq; subst.
      exists created. split; [reflexivity|]. split; [|reflexivity].
      now rewrite HasError_decoded.
    + rewrite (Patchable_Create_client_error c h plan w Hdec Hrun). discriminate.
Qed.


Lemma Token_Create_stored
  (plan : TfData PersonalAccessTokenResource.personalAccessTokenResourceModel)
  (w : W) (state : PersonalAccessTokenResource.personalAccessTokenResourceModel) :
  State (response (run h (PersonalAccessTokenResource.Create c plan) w)) = Some state ->
  exists createdToken,
    response (run h (CreatePersonalAccessTokenV1 c
                       (PersonalAccessTokenResource.createRequest (Raw plan))) w)
    = Ok createdToken
    /\ state
       = {| PersonalAccessTokenResource.ID :=
              StringValue (getPersonalAccessTokenResourceId (PATT_UUID createdToken));
            PersonalAccessTokenResource.TokenUUID :=
              StringValue (PATT_UUID createdToken);
            PersonalAccessTokenResource.Description :=
              StringValue (PATT_Description createdToken);
            PersonalAccessTokenResource.ExpiresAt :=
              match PATT_ExpiresAt createdToken with
              | Some t => StringValue t
              | None => StringNull
              end;
            PersonalAccessTokenResource.CreatedAt :=
              StringValue (PATT_CreatedAt createdToken);
            PersonalAccessTokenResource.Token :=
              StringValue (PATT_Token createdToken) |}.
Proof.
  destruct (HasError (GetDiags plan)) eqn:Hdec.
  - rewrite (Token_Create_decode_error c h plan w Hdec). discriminate.
  - destruct (run h (CreatePersonalAccessTokenV1 c
                       (PersonalAccessTokenResource.createRequest (Raw plan))) w)
      as [[[created | e] w1] log] eqn:Hrun.
    + rewrite (Token_Create_client_ok c h plan w Hdec Hrun).
      unfold response. simpl. intros Heq. inversion Heq; subst.
      exists created. split; reflexivity.
    + rewrite (Token_Create_client_error c h plan w Hdec Hrun). discriminate.
Qed.

End CreateStored.



(** X5: whenever the token resource's [Create] stores a state, whatever the
    server answered, every attribute of the state is settled: [token_uuid]
    is a non-empty value, [id] is [personal-access-tokens/<token_uuid>],
    [description], [created_at] and [token] are values, and [expires_at] is
    a value or null, never unknown. *)
Theorem X5_created_token_state
  (E : Env) (c : Client) (W : Type) (h : Handler W) (w : W)
  (plan : TfData PersonalAccessTokenResource.personalAccessTokenResourceModel)
  (state : PersonalAccessTokenResource.personalAccessTokenResourceModel)
  (Hstored : State (response (run h (PersonalAccessTokenResource.Create c plan) w))
             = Some state) :
  (exists uuid,
      uuid <> ""
      /\ PersonalAccessTokenResource.TokenUUID state = StringValue uuid
      /\ PersonalAccessTokenResource.ID state
         = StringValue ("personal-access-tokens/" ++ uuid)%string)
  /\ (exists d, PersonalAccessTokenResource.Description state = StringValue d)
  /\ (exists t, PersonalAccessTokenResource.CreatedAt state = StringValue t)
  /\ (exists v, PersonalAccessTokenResource.Token state = StringValue v)
  /\ String_IsUnknown (PersonalAccessTokenResource.ExpiresAt state) = false.
Proof.
  destruct (Token_Create_stored c h plan w Hstored) as [created [Hcreated ->]].
  simpl. split; [|split; [|split; [|split]]].
  - exists (PATT_UUID created). split; [|split; reflexivity].
    exact (proj2 (CreatePersonalAccessTokenV1_outcome c h _ w) _ Hcreated).
  - eexists. reflexivity.
  - eexists. reflexivity.
  - eexists. reflexivity.
  - destruct (PATT_ExpiresAt created); reflexivity.
Qed.

Lemma X5_created_token_witness :
  State (response
           (run Fixtures.testServer
              (PersonalAccessTokenResource.Create (E := Fixtures.testEnv)
                 Fixtures.client (MkTfData Fixtures.tokenPlan []))
              (Fixtures.worldWith [] (Ok "t-1"))))
  <> None
  /\ exists state v,
       State (response
                (run Fixtures.testServer
                   (PersonalAccessTokenResource.Create (E := Fixtures.testEnv)
                      Fixtures.client (MkTfData Fixtures.tokenPlan []))
                   (Fixtures.worldWith [] (Ok "t-1"))))
       = Some state
       /\ PersonalAccessTokenResource.Token state = StringValue v.
Proof.
  split; [discriminate|].
  eexists.
  destruct (proj1 (proj2 (proj2 (proj2
              (@X5_created_token_state
                 Fixtures.testEnv Fixtures.client Fixtures.World
                 Fixtures.testServer (Fixtures.worldWith [] (Ok "t-1"))
                 (MkTfData Fixtures.tokenPlan []) _ eq_refl)))))
    as [v Hv].
  exists v. split; [reflexivity | exact Hv].
Defined.

(* ------------------------------------------------------------------ *)
(** ** Composite identifiers, further *)

Section ResourceIdMore.

Local Open Scope string_scope.

(** Two strings without [c], each followed by [c], that make the same
    string are the same, and so is what follows. *)
Lemma split_at_first (c : ascii) (o o' r r' : string) :
  lacks c o = true -> lacks c o' = true ->
  o ++ String c r = o' ++ String c r' -> o = o' /\ r = r'.
Proof.
  revert o'. induction o as [|a o IH]; intros [|a' o'] Ho Ho' Heq; simpl in *.
  - inversion Heq. now split.
  - inversion Heq; subst. rewrite Ascii.eqb_refl in Ho'. discriminate.
  - inversion Heq; subst. rewrite Ascii.eqb_refl in Ho. discriminate.
  - inversion Heq; subst.
    apply andb_true_iff in Ho. apply andb_true_iff in Ho'.
    destruct (IH o' (proj2 Ho) (proj2 Ho') H1) as [-> ->]. now split.
Qed.

End ResourceIdMore.

(** X6: the ID that [Create] stores is one that [ImportState] accepts.
    When [Create] (second listing) stores a state for a plan whose
    organization UUID is non-empty and has no '/', and the project UUID the
    server assigned has no '/', the stored [id] parses to exactly the plan's
    organization UUID and the stored project UUID, and [ImportState] on that
    [id] asks the server for that project and for nothing else. *)
Theorem X6_created_id_can_be_imported
  (E : Env) (c : Client) (W : Type) (h : Handler W) (w : W)
  (plan : TfData PatchableProject.projectResourceModel)
  (state : PatchableProject.projectResourceModel)
  (Hstored : State (response (run h (PatchableProject.Create c plan) w)) = Some state)
  (Horg : ValueString (PatchableProject.OrganizationUUID (Raw plan)) <> "")
  (Horg' : lacks "/" (ValueString (PatchableProject.OrganizationUUID (Raw plan))) = true)
  (Huuid : lacks "/" (ValueString (PatchableProject.ProjectUUID state)) = true) :
  extractProjectResourceId (ValueString (PatchableProject.ID state))
  = Ok [ValueString (PatchableProject.OrganizationUUID (Raw plan));
        ValueString (PatchableProject.ProjectUUID state)]
  /\ forall (W' : Type) (h' : Handler W') (w' : W'),
       calls (run h' (PatchableProject.ImportState c
                        (ValueString (PatchableProject.ID state))) w')
       = [EvCall (GetProjectV1 (ValueString (PatchableProject.ProjectUUID state)))].
Proof.
  destruct (Patchable_Create_stored c h plan w Hstored)
    as [created [Hcreated [_ Hstate]]].
  pose proof (proj2 (CreateProjectV1_outcome c h _ w) _ Hcreated) as Hne.
  subst state. simpl in *. split.
  - now apply extract_format.
  - intros W' h' w'.
    rewrite (ImportState_well_formed c h' w' Horg Hne Horg' Huuid).
    destruct (h' _ (GetProjectV1 (P_ProjectUUID created)) w') as [[project | e] w1];
      reflexivity.
Qed.

Lemma X6_created_id_witness :
  (State (response
            (run Fixtures.testServer
               (PatchableProject.Create (E := Fixtures.testEnv) Fixtures.client
                  (MkTfData Fixtures.patchableState []))
               (Fixtures.worldWith [] (Ok "p-9"))))
   <> None
   /\ lacks "/" "org-1" = true /\ lacks "/" "p-9" = true)
  /\ extractProjectResourceId (E := Fixtures.testEnv)
       "organizations/org-1/projects/p-9" = Ok ["org-1"; "p-9"].
Proof.
  split; [split; [discriminate | split; reflexivity]|].
  exact (proj1 (@X6_created_id_can_be_imported
                  Fixtures.testEnv Fixtures.client Fixtures.World
                  Fixtures.testServer (Fixtures.worldWith [] (Ok "p-9"))
                  (MkTfData Fixtures.patchableState []) _
                  eq_refl ltac:(discriminate) eq_refl eq_refl)).
Defined.

(** X7: composite project IDs are unambiguous.  When the organization
    UUIDs have no '/', two pairs of organization and project UUID with the
    same composite ID are the same pair. *)
Theorem X7_project_ids_are_unambiguous
  (o o' p p' : string)
  (Ho : lacks "/" o = true) (Ho' : lacks "/" o' = true)
  (Hsame : getProjectResourceId o p = getProjectResourceId o' p') :
  o = o' /\ p = p'.
Proof.
  unfold getProjectResourceId in Hsame.
  simpl in Hsame. inversion Hsame as [Hrest]. clear Hsame.
  change ("/projects/" ++ p)%string
    with (String "/" ("projects/" ++ p)) in Hrest.
  change ("/projects/" ++ p')%string
    with (String "/" ("projects/" ++ p')) in Hrest.
  destruct (@split_at_first _ _ _ _ _ Ho Ho' Hrest) as [-> Hp].
  simpl in Hp. inversion Hp. now split.
Qed.

Lemma X7_project_ids_witness :
  (lacks "/" "org-1" = true
   /\ getProjectResourceId "org-1" "p/1" = getProjectResourceId "org-1" "p/1")
  /\ "org-1" = "org-1" /\ "p/1" = "p/1".
Proof.
  split; [split; reflexivity|].
  exact (@X7_project_ids_are_unambiguous "org-1" "org-1" "p/1" "p/1"
           eq_refl eq_refl eq_refl).
Defined.

(** X8: what [extractProjectResourceId] accepts, it reads back exactly.
    Whenever it succeeds on an ID, it returns two parts, both non-empty and
    without '/', and formatting them with [getProjectResourceId] gives the
    ID again ([extractStrings] as modelled). *)
Theorem X8_accepted_id_formats_back
  (E : Env) (id : string) (groups : list string)
  (Haccepted : extractProjectResourceId id = Ok groups) :
  exists o p,
    groups = [o; p]
    /\ o <> "" /\ p <> ""
    /\ lacks "/" o = true /\ lacks "/" p = true
    /\ getProjectResourceId o p = id.
Proof.
  unfold extractProjectResourceId, extractStrings in Haccepted.
  destruct (matchItems projectIdPattern id) as [found|] eqn:Hm; [|discriminate].
  destruct (projectId_match_sound _ Hm) as [o [p [-> [Ho [Hp [Hlo [Hlp Hid]]]]]]].
  simpl in Haccepted. inversion Haccepted; subst groups.
  exists o, p. repeat split; try assumption. now symmetry.
Qed.

Lemma X8_accepted_id_witness :
  extractProjectResourceId (E := Fixtures.testEnv)
    "organizations/org-1/projects/p-1" = Ok ["org-1"; "p-1"]
  /\ exists o p,
       ["org-1"; "p-1"] = [o; p]
       /\ o <> "" /\ p <> ""
       /\ lacks "/" o = true /\ lacks "/" p = true
       /\ getProjectResourceId o p = "organizations/org-1/projects/p-1".
Proof.
  split; [reflexivity|].
  exact (@X8_accepted_id_formats_back Fixtures.testEnv
           "organizations/org-1/projects/p-1" ["org-1"; "p-1"] eq_refl).
Defined.

(* ------------------------------------------------------------------ *)
(** ** The personal access token resource: Read, Update, Delete *)

Section TokenResourceFacts.

Context {E : Env} {S : GoStrings} (c : Client) (W : Type) (h : Handler W).

Lemma findToken_absent (uuid : string) (tokens : list PersonalAccessToken) :
  (forall t, In t tokens -> PAT_UUID t <> uuid) ->
  PersonalAccessTokenResource.findToken uuid tokens = None.
Proof.
  unfold PersonalAccessTokenResource.findToken.
  induction tokens as [|t tokens IH]; intros Hnone; simpl; [reflexivity|].
  destruct (String.eqb_spec (PAT_UUID t) uuid) as [Heq | Hne].
  - exfalso. apply (Hnone t); [now left | exact Heq].
  - apply IH. intros t' Hin. apply Hnone. now right.
Qed.

Lemma findToken_found (uuid : string) (tokens : list PersonalAccessToken)
  (found : PersonalAccessToken) :
  PersonalAccessTokenResource.findToken uuid tokens = Some found ->
  In found tokens /\ PAT_UUID found = uuid.
Proof.
  unfold PersonalAccessTokenResource.findToken. intros Hfind.
  apply find_some in Hfind. destruct Hfind as [Hin Heq].
  split; [exact Hin | now apply String.eqb_eq].
Qed.

Lemma findToken_present (uuid : string) (tokens : list PersonalAccessToken)
  (t : PersonalAccessToken) :
  In t tokens -> PAT_UUID t = uuid ->
  exists found, PersonalAccessTokenResource.findToken uuid tokens = Some found.
Proof.
  intros Hin Huuid.
  destruct (PersonalAccessTokenResource.findToken uuid tokens) as [found|] eqn:Hfind;
    [now exists found|].
  unfold PersonalAccessTokenResource.findToken in Hfind.
  pose proof (find_none _ _ Hfind t Hin) as Hno. simpl in Hno.
  apply String.eqb_neq in Hno. contradiction.
Qed.

(** The three ways a [Read] with a decoded state ends. *)
Lemma Token_Read_listed
  (stored : TfData PersonalAccessTokenResource.personalAccessTokenResourceModel)
  (w w' : W) (tokens : list PersonalAccessToken) (log : list Event) :
  HasError (GetDiags stored) = false ->
  run h (ListPersonalAccessTokensV1 c) w = (Ok tokens, w', log) ->
  run h (PersonalAccessTokenResource.Read c stored) w
  = (match PersonalAccessTokenResource.findToken
             (ValueString (PersonalAccessTokenResource.TokenUUID (Raw stored)))
             tokens with
     | None => MkResponse None (Append [] (GetDiags stored))
     | Some found =>
         MkResponse
           (Some (PersonalAccessTokenResource.refreshed (Raw stored) found))
           (Append [] (GetDiags stored))
     end, w', log).
Proof.
  intros Hdec Hrun. unfold PersonalAccessTokenResource.Read.
  rewrite HasError_decoded, Hdec. cbv zeta. rewrite run_bind, Hrun.
  destruct (PersonalAccessTokenResource.findToken _ tokens); simpl;
    now rewrite app_nil_r.
Qed.

Lemma Token_Read_list_error
  (stored : TfData PersonalAccessTokenResource.personalAccessTokenResourceModel)
  (w w' : W) (e : error) (log : list Event) :
  HasError (GetDiags stored) = false ->
  run h (ListPersonalAccessTokensV1 c) w = (Err e, w', log) ->
  run h (PersonalAccessTokenResource.Read c stored) w
  = (MkResponse (Some (Raw stored))
       (Append [] (GetDiags stored)
        ++ [MkDiag SeverityError "Error Reading personal access token"
              ("Could not read personal access token ID "
               ++ ValueString (PersonalAccessTokenResource.ID (Raw stored))
               ++ ": " ++ e)%string]),
     w', log).
Proof.
  intros Hdec Hrun. unfold PersonalAccessTokenResource.Read.
  rewrite HasError_decoded, Hdec. cbv zeta. rewrite run_bind, Hrun. simpl.
  rewrite AddError_fresh by (now rewrite HasError_decoded).
  now rewrite app_nil_r.
Qed.

Lemma Token_Read_decode_error
  (stored : TfData PersonalAccessTokenResource.personalAccessTokenResourceModel)
  (w : W) :
  HasError (GetDiags stored) = true ->
  run h (PersonalAccessTokenResource.Read c stored) w
  = (MkResponse (Some (Raw stored)) (Append [] (GetDiags stored)), w, []).
Proof.
  intros Hdec. unfold PersonalAccessTokenResource.Read.
  now rewrite HasError_decoded, Hdec.
Qed.

(** [DeletePersonalAccessTokenV1] on a UUID that is not blank. *)
Lemma DeletePersonalAccessTokenV1_sends (tokenUuid : string) (w : W) :
  strings_TrimSpace tokenUuid <> "" ->
  http_NewRequest_error "DELETE"
    (HostUrl c ++ "/api/v1/user/me/personal-access-tokens/" ++ tokenUuid)%string
    = None ->
  run h (DeletePersonalAccessTokenV1 c tokenUuid) w
  = (let '(r, w') :=
       h (DoRequest
              (MkRequest "DELETE"
                 (HostUrl c ++ "/api/v1/user/me/personal-access-tokens/"
                  ++ tokenUuid)%string None)) w in
     (match r with
      | Ok _ => None
      | Err e =>
          Some ("error performing DELETE request for personal access token UUID '"
                ++ tokenUuid ++ "': " ++ e)%string
      end, w',
      [EvCall (DoRequest
                 (MkRequest "DELETE"
                    (HostUrl c ++ "/api/v1/user/me/personal-access-tokens/"
                     ++ tokenUuid)%string None))])).
Proof.
  intros Hblank Hreq. unfold DeletePersonalAccessTokenV1, http_NewRequest.
  apply String.eqb_neq in Hblank. rewrite Hblank, Hreq. simpl.
  destruct (h _ w) as [[body | e] w']; reflexivity.
Qed.

Lemma Token_Delete_outcome
  (stored : TfData PersonalAccessTokenResource.personalAccessTokenResourceModel)
  (w : W) :
  HasError (GetDiags stored) = false ->
  untracked (afterDelete (response (run h (PersonalAccessTokenResource.Delete c stored) w)))
  = match response
            (run h (DeletePersonalAccessTokenV1 c
                      (ValueString (PersonalAccessTokenResource.TokenUUID (Raw stored))))
               w) with
    | None => true
    | Some _ => false
    end.
Proof.
  intros Hdec. unfold PersonalAccessTokenResource.Delete.
  rewrite HasError_decoded, Hdec. cbv zeta. rewrite run_bind.
  destruct (run h (DeletePersonalAccessTokenV1 c _) w) as [[[e|] w1] log];
    unfold untracked, afterDelete, response; simpl.
  - rewrite AddError_fresh by (now rewrite HasError_decoded).
    rewrite HasError_app. simpl. now rewrite orb_true_r.
  - now rewrite HasError_decoded, Hdec.
Qed.

Lemma Patchable_Delete_outcome
  (stored : TfData PatchableProject.projectResourceModel) (w : W) :
  HasError (GetDiags stored) = false ->
  untracked (afterDelete (response (run h (PatchableProject.Delete c stored) w)))
  = match fst (h (DeleteProjectV1
                      (ValueString (PatchableProject.ProjectUUID (Raw stored)))) w) with
    | None => true
    | Some _ => false
    end.
Proof.
  intros Hdec. unfold PatchableProject.Delete.
  rewrite HasError_decoded, Hdec. simpl.
  destruct (h _ w) as [[e|] w1]; unfold untracked, afterDelete, response; simpl.
  - rewrite AddError_fresh by (now rewrite HasError_decoded).
    rewrite HasError_app. simpl. now rewrite orb_true_r.
  - now rewrite HasError_decoded, Hdec.
Qed.

End TokenResourceFacts.

(** X9: a token that is gone is dropped, not reported.  When the token
    resource's [Read] gets the list (the state decodes without error, the
    HTTP exchange succeeds and its body decodes) and no listed token has the
    UUID of the state, the response has no state and no error: the resource
    is removed from tracking. *)
Theorem X9_token_read_drops_a_missing_token
  (E : Env) (c : Client) (W : Type) (h : Handler W) (w w' : W)
  (stored : TfData PersonalAccessTokenResource.personalAccessTokenResourceModel)
  (body : string) (decoded : ListPersonalAccessTokensV1Response)
  (Hdecoded : HasError (GetDiags stored) = false)
  (Hexchange : exchange h w doRequest "GET"
                 (HostUrl c ++ "/api/v1/user/me/personal-access-tokens")%string
                 None body w')
  (Hbody : json_Unmarshal_ListPersonalAccessTokensV1Response body = Ok decoded)
  (Habsent : forall t, In t (LPATResp_Results decoded) ->
               PAT_UUID t
               <> ValueString (PersonalAccessTokenResource.TokenUUID (Raw stored))) :
  let resp := response (run h (PersonalAccessTokenResource.Read c stored) w) in
  State resp = None /\ HasError (Diags resp) = false.
Proof.
  cbv zeta.
  rewrite (Token_Read_listed c h stored w Hdecoded
             (@ListPersonalAccessTokensV1_ok E c W h w w' body decoded Hexchange Hbody)).
  rewrite (@findToken_absent _ _ Habsent). unfold response. simpl.
  split; [reflexivity | now rewrite HasError_decoded].
Qed.

Lemma X9_token_read_witness :
  (HasError (GetDiags (MkTfData (Fixtures.tokenState "zz") [])) = false
   /\ exchange (E := Fixtures.testEnv) Fixtures.testServer
        (Fixtures.worldWith [] (Ok "tokens")) doRequest "GET"
        "https://app.lightdash.cloud/api/v1/user/me/personal-access-tokens"
        None "tokens" (Fixtures.worldWith [] (Ok "tokens")))
  /\ State (response
              (run Fixtures.testServer
                 (PersonalAccessTokenResource.Read (E := Fixtures.testEnv)
                    Fixtures.client (MkTfData (Fixtures.tokenState "zz") []))
                 (Fixtures.worldWith [] (Ok "tokens")))) = None.
Proof.
  assert (Hex : exchange (E := Fixtures.testEnv) Fixtures.testServer
                  (Fixtures.worldWith [] (Ok "tokens")) doRequest "GET"
                  "https://app.lightdash.cloud/api/v1/user/me/personal-access-tokens"
                  None "tokens" (Fixtures.worldWith [] (Ok "tokens")))
    by (split; reflexivity).
  split; [split; [reflexivity | exact Hex]|].
  refine (proj1 (@X9_token_read_drops_a_missing_token
                   Fixtures.testEnv Fixtures.client Fixtures.World
                   Fixtures.testServer
                   (Fixtures.worldWith [] (Ok "tokens"))
                   (Fixtures.worldWith [] (Ok "tokens"))
                   (MkTfData (Fixtures.tokenState "zz") []) "tokens"
                   (MkListPersonalAccessTokensV1Response
                      [Fixtures.listedToken "b7"; Fixtures.listedToken "a3";
                       Fixtures.listedToken "c1"; Fixtures.listedToken "a3"] "ok")
                   eq_refl Hex eq_refl _)).
  intros t Hin. simpl in Hin.
  destruct Hin as [<- | [<- | [<- | [<- | []]]]]; discriminate.
Defined.

(** X10: [Read] never touches the secret.  Whatever the server answers,
    when the token resource's [Read] leaves a state, its [token], [id] and
    [token_uuid] are those of the prior state. *)
Theorem X10_token_read_keeps_the_secret
  (E : Env) (c : Client) (W : Type) (h : Handler W) (w : W)
  (stored : TfData PersonalAccessTokenResource.personalAccessTokenResourceModel)
  (state : PersonalAccessTokenResource.personalAccessTokenResourceModel)
  (Hkept : State (response (run h (PersonalAccessTokenResource.Read c stored) w))
           = Some state) :
  PersonalAccessTokenResource.Token state
  = PersonalAccessTokenResource.Token (Raw stored)
  /\ PersonalAccessTokenResource.ID state
     = PersonalAccessTokenResource.ID (Raw stored)
  /\ PersonalAccessTokenResource.TokenUUID state
     = PersonalAccessTokenResource.TokenUUID (Raw stored).
Proof.
  destruct (HasError (GetDiags stored)) eqn:Hdec.
  - rewrite (Token_Read_decode_error c h stored w Hdec) in Hkept.
    unfold response in Hkept. simpl in Hkept. inversion Hkept. repeat split.
  - destruct (run h (ListPersonalAccessTokensV1 c) w) as [[[tokens | e] w1] log]
      eqn:Hrun.
    + rewrite (Token_Read_listed c h stored w Hdec Hrun) in Hkept.
      destruct (PersonalAccessTokenResource.findToken _ tokens) as [found|];
        unfold response in Hkept; simpl in Hkept; [|discriminate].
      inversion Hkept. repeat split.
    + rewrite (Token_Read_list_error c h stored w Hdec Hrun) in Hkept.
      unfold response in Hkept. simpl in Hkept. inversion Hkept. repeat split.
Qed.

Lemma X10_token_read_witness :
  State (response
           (run Fixtures.testServer
              (PersonalAccessTokenResource.Read (E := Fixtures.testEnv)
                 Fixtures.client (MkTfData (Fixtures.tokenState "a3") []))
              (Fixtures.worldWith [] (Ok "tokens"))))
  <> None
  /\ exists state,
       State (response
                (run Fixtures.testServer
                   (PersonalAccessTokenResource.Read (E := Fixtures.testEnv)
                      Fixtures.client (MkTfData (Fixtures.tokenState "a3") []))
                   (Fixtures.worldWith [] (Ok "tokens"))))
       = Some state
       /\ PersonalAccessTokenResource.Token state = StringValue "ldpat_secret".
Proof.
  split; [discriminate|].
  eexists. split; [reflexivity|].
  exact (proj1 (@X10_token_read_keeps_the_secret
                  Fixtures.testEnv Fixtures.client Fixtures.World
                  Fixtures.testServer (Fixtures.worldWith [] (Ok "tokens"))
                  (MkTfData (Fixtures.tokenState "a3") []) _ eq_refl)).
Defined.

(** X11: a token that is listed is refreshed from the list.  When the
    token resource's [Read] gets the list and some listed token has the UUID
    of the state, the new state takes [description], [created_at] and
    [expires_at] (null when the list has none) from a listed token with
    that UUID, and no error is reported. *)
Theorem X11_token_read_refreshes_from_the_list
  (E : Env) (c : Client) (W : Type) (h : Handler W) (w w' : W)
  (stored : TfData PersonalAccessTokenResource.personalAccessTokenResourceModel)
  (body : string) (decoded : ListPersonalAccessTokensV1Response)
  (listed : PersonalAccessToken)
  (Hdecoded : HasError (GetDiags stored) = false)
  (Hexchange : exchange h w doRequest "GET"
                 (HostUrl c ++ "/api/v1/user/me/personal-access-tokens")%string
                 None body w')
  (Hbody : json_Unmarshal_ListPersonalAccessTokensV1Response body = Ok decoded)
  (Hlisted : In listed (LPATResp_Results decoded))
  (Huuid : PAT_UUID listed
           = ValueString (PersonalAccessTokenResource.TokenUUID (Raw stored))) :
  let resp := response (run h (PersonalAccessTokenResource.Read c stored) w) in
  HasError (Diags resp) = false
  /\ exists found state,
       In found (LPATResp_Results decoded)
       /\ PAT_UUID found
          = ValueString (PersonalAccessTokenResource.TokenUUID (Raw stored))
       /\ State resp = Some state
       /\ PersonalAccessTokenResource.Description state
          = StringValue (PAT_Description found)
       /\ PersonalAccessTokenResource.CreatedAt state
          = StringValue (PAT_CreatedAt found)
       /\ PersonalAccessTokenResource.ExpiresAt state
          = match PAT_ExpiresAt found with
            | Some t => StringValue t
            | None => StringNull
            end.
Proof.
  cbv zeta.
  rewrite (Token_Read_listed c h stored w Hdecoded
             (@ListPersonalAccessTokensV1_ok E c W h w w' body decoded Hexchange Hbody)).
  destruct (@findToken_present _ _ _ Hlisted Huuid) as [found Hfind].
  rewrite Hfind. unfold response. simpl.
  split; [now rewrite HasError_decoded|].
  destruct (@findToken_found _ _ _ Hfind) as [Hin Hfound].
  exists found. eexists. repeat split; assumption.
Qed.

Lemma X11_token_read_witness :
  (HasError (GetDiags (MkTfData (Fixtures.tokenState "a3") [])) = false
   /\ exchange (E := Fixtures.testEnv) Fixtures.testServer
        (Fixtures.worldWith [] (Ok "tokens")) doRequest "GET"
        "https://app.lightdash.cloud/api/v1/user/me/personal-access-tokens"
        None "tokens" (Fixtures.worldWith [] (Ok "tokens")))
  /\ HasError (Diags (response
                        (run Fixtures.testServer
                           (PersonalAccessTokenResource.Read (E := Fixtures.testEnv)
                              Fixtures.client
                              (MkTfData (Fixtures.tokenState "a3") []))
                           (Fixtures.worldWith [] (Ok "tokens"))))) = false.
Proof.
  assert (Hex : exchange (E := Fixtures.testEnv) Fixtures.testServer
                  (Fixtures.worldWith [] (Ok "tokens")) doRequest "GET"
                  "https://app.lightdash.cloud/api/v1/user/me/personal-access-tokens"
                  None "tokens" (Fixtures.worldWith [] (Ok "tokens")))
    by (split; reflexivity).
  split; [split; [reflexivity | exact Hex]|].
  exact (proj1 (@X11_token_read_refreshes_from_the_list
                  Fixtures.testEnv Fixtures.client Fixtures.World
                  Fixtures.testServer
                  (Fixtures.worldWith [] (Ok "tokens"))
                  (Fixtures.worldWith [] (Ok "tokens"))
                  (MkTfData (Fixtures.tokenState "a3") []) "tokens"
                  (MkListPersonalAccessTokensV1Response
                     [Fixtures.listedToken "b7"; Fixtures.listedToken "a3";
                      Fixtures.listedToken "c1"; Fixtures.listedToken "a3"] "ok")
                  (Fixtures.listedToken "a3")
                  eq_refl Hex eq_refl (or_intror (or_introl eq_refl)) eq_refl)).
Defined.

(** X12: a personal access token cannot be updated in place.  For every
    plan and state, the token resource's [Update] returns at once with the
    single error "Update not supported", keeps the prior state, and no call
    reaches any server. *)
Theorem X12_token_update_is_refused
  (E : Env) (c : Client)
  (plan prior : TfData PersonalAccessTokenResource.personalAccessTokenResourceModel) :
  exists resp failure,
    PersonalAccessTokenResource.Update c plan prior = Ret resp
    /\ State resp = Some (Raw prior)
    /\ Diags resp = [failure]
    /\ diag_severity failure = SeverityError
    /\ diag_summary failure = "Update not supported"
    /\ forall (W : Type) (h : Handler W) (w : W),
         run h (PersonalAccessTokenResource.Update c plan prior) w = (resp, w, []).
Proof.
  eexists. eexists. split; [reflexivity|]. repeat split.
Qed.

(** X13: [DeletePersonalAccessTokenV1] refuses a blank UUID before it
    touches the network: when the UUID trims to nothing it returns
    "token UUID is empty" and no call is made.  For any other UUID (when
    the request can be built) it makes exactly one call, a DELETE without
    body to [/api/v1/user/me/personal-access-tokens/<uuid>], and its error,
    if any, is the wrapped error of that round trip. *)
Theorem X13_token_delete_call
  (E : Env) (S : GoStrings) (c : Client) (blank uuid : string)
  (Hblank : strings_TrimSpace blank = "")
  (Huuid : strings_TrimSpace uuid <> "")
  (Hreq : http_NewRequest_error "DELETE"
            (HostUrl c ++ "/api/v1/user/me/personal-access-tokens/" ++ uuid)%string
          = None) :
  (forall (W : Type) (h : Handler W) (w : W),
      run h (DeletePersonalAccessTokenV1 c blank) w
      = (Some "token UUID is empty", w, []))
  /\ (forall (W : Type) (h : Handler W) (w : W),
         let request :=
           MkRequest "DELETE"
             (HostUrl c ++ "/api/v1/user/me/personal-access-tokens/" ++ uuid)%string
             None in
         calls (run h (DeletePersonalAccessTokenV1 c uuid) w)
         = [EvCall (DoRequest request)]
         /\ response (run h (DeletePersonalAccessTokenV1 c uuid) w)
            = match fst (h _ (DoRequest request) w) with
              | Ok _ => None
              | Err e =>
                  Some ("error performing DELETE request for personal access token UUID '"
                        ++ uuid ++ "': " ++ e)%string
              end).
Proof.
  split.
  - intros W h w. unfold DeletePersonalAccessTokenV1. now rewrite Hblank.
  - intros W h w. cbv zeta.
    rewrite (@DeletePersonalAccessTokenV1_sends E S c W h uuid w Huuid Hreq).
    destruct (h _ _ w) as [[body | e] w']; split; reflexivity.
Qed.

Lemma X13_token_delete_witness :
  (strings_TrimSpace (GoStrings := Fixtures.testStrings) "  " = ""
   /\ strings_TrimSpace (GoStrings := Fixtures.testStrings) "a3" <> ""
   /\ http_NewRequest_error (Env := Fixtures.testEnv) "DELETE"
        "https://app.lightdash.cloud/api/v1/user/me/personal-access-tokens/a3" = None)
  /\ run Fixtures.testServer
       (DeletePersonalAccessTokenV1 (E := Fixtures.testEnv)
          (S := Fixtures.testStrings) Fixtures.client "  ")
       (Fixtures.worldWith [] (Ok ""))
     = (Some "token UUID is empty", Fixtures.worldWith [] (Ok ""), []).
Proof.
  split; [split; [reflexivity | split; [discriminate | reflexivity]]|].
  exact (proj1 (@X13_token_delete_call
                  Fixtures.testEnv Fixtures.testStrings Fixtures.client "  " "a3"
                  eq_refl ltac:(discriminate) eq_refl)
               Fixtures.World Fixtures.testServer (Fixtures.worldWith [] (Ok ""))).
Defined.

(** X14: [Delete] stops tracking exactly when the client reports no error.
    For a state that decodes without error, after the token resource's
    [Delete] and after the second listing's project [Delete], the framework
    clears the state if the client's delete call returned no error, and
    keeps it if it returned one. *)
Theorem X14_delete_untracks_exactly_on_success
  (E : Env) (S : GoStrings) (c : Client) (W : Type) (h : Handler W) (w : W)
  (token : TfData PersonalAccessTokenResource.personalAccessTokenResourceModel)
  (project : TfData PatchableProject.projectResourceModel)
  (Htoken : HasError (GetDiags token) = false)
  (Hproject : HasError (GetDiags project) = false) :
  untracked (afterDelete (response (run h (PersonalAccessTokenResource.Delete c token) w)))
  = match response
            (run h (DeletePersonalAccessTokenV1 c
                      (ValueString (PersonalAccessTokenResource.TokenUUID (Raw token))))
               w) with
    | None => true
    | Some _ => false
    end
  /\ untracked (afterDelete (response (run h (PatchableProject.Delete c project) w)))
     = match fst (h _ (DeleteProjectV1
                         (ValueString (PatchableProject.ProjectUUID (Raw project)))) w) with
       | None => true
       | Some _ => false
       end.
Proof.
  split.
  - now apply Token_Delete_outcome.
  - now apply Patchable_Delete_outcome.
Qed.

Lemma X14_delete_witness :
  HasError (GetDiags (MkTfData (Fixtures.tokenState "a3") [])) = false
  /\ untracked (afterDelete
                  (response
                     (run Fixtures.testServer
                        (PersonalAccessTokenResource.Delete (E := Fixtures.testEnv)
                           (S := Fixtures.testStrings) Fixtures.client
                           (MkTfData (Fixtures.tokenState "a3") []))
                        (Fixtures.worldWith [] (Err "status 404")))))
     = false.
Proof.
  split; [reflexivity|].
  exact (proj1 (@X14_delete_untracks_exactly_on_success
                  Fixtures.testEnv Fixtures.testStrings Fixtures.client
                  Fixtures.World Fixtures.testServer
                  (Fixtures.worldWith [] (Err "status 404"))
                  (MkTfData (Fixtures.tokenState "a3") [])
                  (MkTfData Fixtures.patchableState [])
                  eq_refl eq_refl)).
Defined.

(* ------------------------------------------------------------------ *)
(** ** Reading twice, importing then reading, updating *)

Section RefreshFacts.

Lemma Immutable_refreshed_idempotent
  (state : ImmutableProject.projectResourceModel) (project : GetProjectV1Results) :
  ImmutableProject.refreshed (ImmutableProject.refreshed state project) project
  = ImmutableProject.refreshed state project.
Proof.
  unfold ImmutableProject.refreshed. simpl.
  destruct (String.eqb (G_DbtVersion project) ""); reflexivity.
Qed.

Lemma Patchable_refreshed_idempotent
  (state : PatchableProject.projectResourceModel) (project : GetProjectV1Results) :
  PatchableProject.refreshed (PatchableProject.refreshed state project) project
  = PatchableProject.refreshed state project.
Proof.
  unfold PatchableProject.refreshed. simpl.
  destruct (String.eqb (G_DbtVersion project) ""); reflexivity.
Qed.

Lemma Patchable_refreshed_imported (id : string) (project : GetProjectV1Results) :
  PatchableProject.refreshed (PatchableProject.imported id project) project
  = PatchableProject.imported id project.
Proof.
  unfold PatchableProject.refreshed, PatchableProject.imported. simpl.
  destruct (String.eqb (G_DbtVersion project) "");
    destruct (G_OrganizationWarehouseCredentialsUUID project);
    destruct (G_UpstreamProjectUUID project); reflexivity.
Qed.

End RefreshFacts.

(** X15: [Read] is idempotent.  In both listings of the project resource,
    when the server gives the same project twice, a second [Read], of the
    state the first one wrote, writes that same state again. *)
Theorem X15_project_read_is_idempotent
  (E : Env) (c : Client) (W : Type) (h : Handler W) (w w1 w2 : W)
  (stored : TfData ImmutableProject.projectResourceModel)
  (stored' : TfData PatchableProject.projectResourceModel)
  (project project' : GetProjectV1Results)
  (Hdecoded : HasError (GetDiags stored) = false)
  (Hdecoded' : HasError (GetDiags stored') = false)
  (Hfirst : h _ (GetProjectV1 (ValueString (ImmutableProject.ProjectUUID (Raw stored)))) w
            = (Ok project, w1))
  (Hsecond : h _ (GetProjectV1 (ValueString (ImmutableProject.ProjectUUID (Raw stored)))) w1
             = (Ok project, w2))
  (Hfirst' : h _ (GetProjectV1 (ValueString (PatchableProject.ProjectUUID (Raw stored')))) w
             = (Ok project', w1))
  (Hsecond' : h _ (GetProjectV1 (ValueString (PatchableProject.ProjectUUID (Raw stored')))) w1
              = (Ok project', w2)) :
  (exists state,
      State (response (run h (ImmutableProject.Read c stored) w)) = Some state
      /\ State (response (run h (ImmutableProject.Read c (MkTfData state [])) w1))
         = Some state)
  /\ (exists state,
      State (response (run h (PatchableProject.Read c stored') w)) = Some state
      /\ State (response (run h (PatchableProject.Read c (MkTfData state [])) w1))
         = Some state).
Proof.
  split.
  - exists (ImmutableProject.refreshed (Raw stored) project). split.
    + now rewrite (Immutable_Read_ok c h stored w Hdecoded Hfirst).
    + rewrite (Immutable_Read_ok c h
                 (MkTfData (ImmutableProject.refreshed (Raw stored) project) [])
                 w1 (w' := w2) (project := project) eq_refl Hsecond).
      unfold response. simpl. now rewrite Immutable_refreshed_idempotent.
  - exists (PatchableProject.refreshed (Raw stored') project'). split.
    + now rewrite (Patchable_Read_ok c h stored' w Hdecoded' Hfirst').
    + rewrite (Patchable_Read_ok c h
                 (MkTfData (PatchableProject.refreshed (Raw stored') project') [])
                 w1 (w' := w2) (project := project') eq_refl Hsecond').
      unfold response. simpl. now rewrite Patchable_refreshed_idempotent.
Qed.

Lemma X15_project_read_witness :
  (HasError (GetDiags (MkTfData Fixtures.patchableState [])) = false
   /\ Fixtures.testServer (GetProjectV1 "p-1")
        (Fixtures.worldWith [Fixtures.remoteProject] (Ok ""))
      = (Ok Fixtures.remoteProject,
         Fixtures.worldWith [Fixtures.remoteProject] (Ok "")))
  /\ exists state,
       State (response
                (run Fixtures.testServer
                   (PatchableProject.Read (E := Fixtures.testEnv) Fixtures.client
                      (MkTfData Fixtures.patchableState []))
                   (Fixtures.worldWith [Fixtures.remoteProject] (Ok ""))))
       = Some state
       /\ State (response
                   (run Fixtures.testServer
                      (PatchableProject.Read (E := Fixtures.testEnv) Fixtures.client
                         (MkTfData state []))
                      (Fixtures.worldWith [Fixtures.remoteProject] (Ok ""))))
          = Some state.
Proof.
  split; [split; reflexivity|].
  exact (proj2 (@X15_project_read_is_idempotent
                  Fixtures.testEnv Fixtures.client Fixtures.World Fixtures.testServer
                  (Fixtures.worldWith [Fixtures.remoteProject] (Ok ""))
                  (Fixtures.worldWith [Fixtures.remoteProject] (Ok ""))
                  (Fixtures.worldWith [Fixtures.remoteProject] (Ok ""))
                  (MkTfData (Fixtures.immutableState None) [])
                  (MkTfData Fixtures.patchableState [])
                  Fixtures.remoteProject Fixtures.remoteProject
                  eq_refl eq_refl eq_refl eq_refl eq_refl eq_refl)).
Defined.

(** X16: a [Read] right after an import changes nothing.  When
    [ImportState] (second listing) has stored a state for a well-formed ID,
    and the server gives the same project again for the project UUID it
    returned, [Read] of the imported state writes the imported state
    again. *)
Theorem X16_read_after_import_is_stable
  (E : Env) (c : Client) (W : Type) (h : Handler W) (w w1 w2 : W)
  (o p : string) (project : GetProjectV1Results)
  (Ho : o <> "") (Hp : p <> "")
  (Hlo : lacks "/" o = true) (Hlp : lacks "/" p = true)
  (Himport : h _ (GetProjectV1 p) w = (Ok project, w1))
  (Hread : h _ (GetProjectV1 (G_ProjectUUID project)) w1 = (Ok project, w2)) :
  exists state,
    State (response (run h (PatchableProject.ImportState c
                              (getProjectResourceId o p)) w)) = Some state
    /\ State (response (run h (PatchableProject.Read c (MkTfData state [])) w1))
       = Some state.
Proof.
  exists (PatchableProject.imported (getProjectResourceId o p) project). split.
  - rewrite (ImportState_well_formed c h w Ho Hp Hlo Hlp), Himport. reflexivity.
  - rewrite (Patchable_Read_ok c h
               (MkTfData (PatchableProject.imported (getProjectResourceId o p) project) [])
               w1 (w' := w2) (project := project) eq_refl Hread).
    unfold response. simpl. now rewrite Patchable_refreshed_imported.
Qed.

Lemma X16_read_after_import_witness :
  (lacks "/" "org-2" = true /\ lacks "/" "p-1" = true
   /\ Fixtures.testServer (GetProjectV1 "p-1")
        (Fixtures.worldWith [Fixtures.remoteProject] (Ok ""))
      = (Ok Fixtures.remoteProject,
         Fixtures.worldWith [Fixtures.remoteProject] (Ok "")))
  /\ exists state,
       State (response
                (run Fixtures.testServer
                   (PatchableProject.ImportState (E := Fixtures.testEnv)
                      Fixtures.client (getProjectResourceId "org-2" "p-1"))
                   (Fixtures.worldWith [Fixtures.remoteProject] (Ok ""))))
       = Some state
       /\ State (response
                   (run Fixtures.testServer
                      (PatchableProject.Read (E := Fixtures.testEnv) Fixtures.client
                         (MkTfData state []))
                      (Fixtures.worldWith [Fixtures.remoteProject] (Ok ""))))
          = Some state.
Proof.
  split; [split; [reflexivity | split; reflexivity]|].
  exact (@X16_read_after_import_is_stable
           Fixtures.testEnv Fixtures.client Fixtures.World Fixtures.testServer
           (Fixtures.worldWith [Fixtures.remoteProject] (Ok ""))
           (Fixtures.worldWith [Fixtures.remoteProject] (Ok ""))
           (Fixtures.worldWith [Fixtures.remoteProject] (Ok ""))
           "org-2" "p-1" Fixtures.remoteProject
           ltac:(discriminate) ltac:(discriminate) eq_refl eq_refl
           eq_refl eq_refl).
Defined.

Section UpdateOutcome.

Context {E : Env} (c : Client) (W : Type) (h : Handler W).

Lemma Patchable_Update_client_error
  (plan prior : TfData PatchableProject.projectResourceModel) (w w' : W)
  (e : error) (log : list Event) :
  HasError (GetDiags plan) = false ->
  HasError (GetDiags prior) = false ->
  run h (UpdateProjectV1 c (ValueString (PatchableProject.ProjectUUID (Raw plan)))
           (PatchableProject.updateRequest (Raw plan))) w = (Err e, w', log) ->
  run h (PatchableProject.Update c plan prior) w
  = (MkResponse (Some (Raw prior))
       (Append (Append [] (GetDiags plan)) (GetDiags prior)
        ++ [MkDiag SeverityError "Error Updating project"
              ("Could not update project with UUID '"
               ++ ValueString (PatchableProject.ProjectUUID (Raw plan))
               ++ "', unexpected error: " ++ e)%string]),
     w', log).
Proof.
  intros Hplan Hprior Hrun. unfold PatchableProject.Update.
  rewrite !HasError_Append, Hplan, Hprior. cbn [HasError existsb orb].
  cbv zeta. rewrite run_bind, Hrun. simpl.
  rewrite AddError_fresh by (now rewrite !HasError_Append, Hplan, Hprior).
  now rewrite app_nil_r.
Qed.

Lemma Patchable_Update_client_ok
  (plan prior : TfData PatchableProject.projectResourceModel) (w w' : W)
  (updated : Project) (log : list Event) :
  HasError (GetDiags plan) = false ->
  HasError (GetDiags prior) = false ->
  run h (UpdateProjectV1 c (ValueString (PatchableProject.ProjectUUID (Raw plan)))
           (PatchableProject.updateRequest (Raw plan))) w = (Ok updated, w', log) ->
  run h (PatchableProject.Update c plan prior) w
  = (MkResponse
       (Some {| PatchableProject.ID := PatchableProject.ID (Raw plan);
                PatchableProject.OrganizationUUID :=
                  PatchableProject.OrganizationUUID (Raw plan);
                PatchableProject.ProjectUUID := PatchableProject.ProjectUUID (Raw plan);
                PatchableProject.Name := StringValue (P_Name updated);
                PatchableProject.Type_ := PatchableProject.Type_ (Raw plan);
                PatchableProject.DbtVersion := PatchableProject.DbtVersion (Raw plan);
                PatchableProject.DbtConnection :=
                  PatchableProject.DbtConnection (Raw plan);
                PatchableProject.OrganizationWarehouseCredentialsUUID :=
                  PatchableProject.OrganizationWarehouseCredentialsUUID (Raw plan);
                PatchableProject.UpstreamProjectUUID :=
                  PatchableProject.UpstreamProjectUUID (Raw plan) |})
       (Append (Append [] (GetDiags plan)) (GetDiags prior)),
     w', log).
Proof.
  intros Hplan Hprior Hrun. unfold PatchableProject.Update.
  rewrite !HasError_Append, Hplan, Hprior. cbn [HasError existsb orb].
  cbv zeta. rewrite run_bind, Hrun. simpl. now rewrite app_nil_r.
Qed.

End UpdateOutcome.

(** X17: [Update] never reassigns the identity of a project.  In the second
    listing, for a plan and a state that decode without error and whatever
    the server answers: if the update fails, the response carries an error
    and the prior state; if it succeeds, the new state has the plan's [id],
    [project_uuid], [organization_uuid] and every other attribute of the
    plan, whatever UUID the server's answer carries, and only [name] is
    taken from the server. *)
Theorem X17_update_keeps_the_identity
  (E : Env) (c : Client) (W : Type) (h : Handler W) (w : W)
  (plan prior : TfData PatchableProject.projectResourceModel)
  (Hplan : HasError (GetDiags plan) = false)
  (Hprior : HasError (GetDiags prior) = false) :
  let resp := response (run h (PatchableProject.Update c plan prior) w) in
  exists state,
    State resp = Some state
    /\ (if HasError (Diags resp) then state = Raw prior
        else
          PatchableProject.ID state = PatchableProject.ID (Raw plan)
          /\ PatchableProject.ProjectUUID state
             = PatchableProject.ProjectUUID (Raw plan)
          /\ PatchableProject.OrganizationUUID state
             = PatchableProject.OrganizationUUID (Raw plan)
          /\ PatchableProject.Type_ state = PatchableProject.Type_ (Raw plan)
          /\ PatchableProject.DbtVersion state
             = PatchableProject.DbtVersion (Raw plan)
          /\ PatchableProject.DbtConnection state
             = PatchableProject.DbtConnection (Raw plan)
          /\ PatchableProject.OrganizationWarehouseCredentialsUUID state
             = PatchableProject.OrganizationWarehouseCredentialsUUID (Raw plan)
          /\ PatchableProject.UpstreamProjectUUID state
             = PatchableProject.UpstreamProjectUUID (Raw plan)
          /\ exists updated,
               response (run h (UpdateProjectV1 c
                                  (ValueString (PatchableProject.ProjectUUID (Raw plan)))
                                  (PatchableProject.updateRequest (Raw plan))) w)
               = Ok updated
               /\ PatchableProject.Name state = StringValue (P_Name updated)).
Proof.
  cbv zeta.
  destruct (run h (UpdateProjectV1 c
                     (ValueString (PatchableProject.ProjectUUID (Raw plan)))
                     (PatchableProject.updateRequest (Raw plan))) w)
    as [[[updated | e] w1] log] eqn:Hrun.
  - rewrite (Patchable_Update_client_ok c h plan prior w Hplan Hprior Hrun).
    unfold response. cbn [fst State Diags].
    rewrite !HasError_Append, Hplan, Hprior. cbn [HasError existsb orb].
    eexists. split; [reflexivity|]. repeat split. now exists updated.
  - rewrite (Patchable_Update_client_error c h plan prior w Hplan Hprior Hrun).
    unfold response. cbn [fst State Diags].
    rewrite HasError_app. cbn [HasError existsb isError diag_severity Severity_eqb].
    rewrite orb_true_r. eexists. split; reflexivity.
Qed.

Lemma X17_update_witness :
  HasError (GetDiags (MkTfData Fixtures.patchableState [])) = false
  /\ exists state,
       State (response
                (run Fixtures.testServer
                   (PatchableProject.Update (E := Fixtures.testEnv) Fixtures.client
                      (MkTfData Fixtures.patchableState [])
                      (MkTfData Fixtures.patchableState []))
                   (Fixtures.worldWith [] (Ok "p-other"))))
       = Some state
       /\ PatchableProject.ProjectUUID state = StringValue "p-1".
Proof.
  split; [reflexivity|].
  destruct (@X17_update_keeps_the_identity
              Fixtures.testEnv Fixtures.client Fixtures.World Fixtures.testServer
              (Fixtures.worldWith [] (Ok "p-other"))
              (MkTfData Fixtures.patchableState [])
              (MkTfData Fixtures.patchableState []) eq_refl eq_refl)
    as [state [Hstate Hrest]].
  exists state. split; [exact Hstate|].
  exact (proj1 (proj2 Hrest)).
Defined.

(** X18: the PATCH body never carries what cannot be patched.  For every
    plan of the second listing, the keys of the encoded update request are
    [name], [dbtConnection] and [dbtVersion], followed by
    [organizationWarehouseCredentialsUuid] exactly when that attribute is
    not null: never [type], [upstreamProjectUuid] or
    [warehouseConnection]. *)
Theorem X18_update_body_keys
  (E : Env) (plan : PatchableProject.projectResourceModel) :
  objectKeys (UpdateProject_json (PatchableProject.updateRequest plan))
  = ["name"; "dbtConnection"; "dbtVersion"]
    ++ whenSet (PatchableProject.OrganizationWarehouseCredentialsUUID plan)
         "organizationWarehouseCredentialsUuid".
Proof.
  destruct plan as [id org uuid name ty ver dbt owc up].
  unfold whenSet, UpdateProject_json, UpdateProject_fields,
    PatchableProject.updateRequest, stringPtr. simpl.
  destruct dbt, owc; reflexivity.
Qed.

(* ------------------------------------------------------------------ *)
(** ** The tokens data source: the order of the server's list *)

Section SortedUnique.

Context {A : Type} (R : A -> A -> Prop).

(** Two sorted arrangements of the same elements are the same list, when
    no two different elements are each before the other. *)
Lemma StronglySorted_Permutation_eq (l1 l2 : list A) :
  StronglySorted R l1 -> StronglySorted R l2 -> Permutation l1 l2 ->
  (forall a b, In a l1 -> In b l1 -> R a b -> R b a -> a = b) ->
  l1 = l2.
Proof.
  intros H1. revert l2.
  induction H1 as [|a l1 Hl1 IH Hall1]; intros l2 H2 Hperm Hanti.
  - apply Permutation_nil in Hperm. now subst.
  - destruct l2 as [|b l2].
    + apply Permutation_sym, Permutation_nil in Hperm. discriminate.
    + inversion H2 as [|b' l2' Hl2 Hall2]; subst.
      assert (Hab : a = b).
      { assert (Ha : In a (b :: l2))
          by (apply (Permutation_in _ Hperm); now left).
        assert (Hb : In b (a :: l1))
          by (apply (Permutation_in _ (Permutation_sym Hperm)); now left).
        destruct Ha as [Ha | Ha]; [now symmetry|].
        destruct Hb as [Hb | Hb]; [assumption|].
        apply Hanti; [now left | now right | |].
        - rewrite Forall_forall in Hall1. now apply Hall1.
        - rewrite Forall_forall in Hall2. now apply Hall2. }
      subst b. f_equal. apply IH.
      * assumption.
      * now apply Permutation_cons_inv in Hperm.
      * intros x y Hx Hy. apply Hanti; now right.
Qed.

End SortedUnique.

Section TokensOrder.

Lemma NoDup_map_injective {A B : Type} (f : A -> B) (l : list A) (a b : A) :
  NoDup (map f l) -> In a l -> In b l -> f a = f b -> a = b.
Proof.
  induction l as [|x l IH]; intros Hnd Ha Hb Heq; [contradiction|].
  simpl in Hnd. inversion Hnd as [|y m Hnotin Hnd']; subst.
  destruct Ha as [-> | Ha], Hb as [-> | Hb].
  - reflexivity.
  - exfalso. apply Hnotin. rewrite Heq. now apply in_map.
  - exfalso. apply Hnotin. rewrite <- Heq. now apply in_map.
  - now apply IH.
Qed.

Lemma string_ltb_both_false (s t : string) :
  String.ltb s t = false -> String.ltb t s = false -> s = t.
Proof.
  intros Hst Hts. apply String.leb_antisym; now apply string_not_ltb_leb.
Qed.

(** With distinct UUIDs, the sorted tokens do not depend on the order of
    the list. *)
Lemma sorted_tokens_order_free (E : Env) (tokens tokens' : list PersonalAccessToken) :
  SortSliceContract E ->
  Permutation tokens tokens' ->
  NoDup (map PAT_UUID tokens) ->
  sort_Slice PersonalAccessTokensDataSource.less
    (map PersonalAccessTokensDataSource.fetchedToken tokens)
  = sort_Slice PersonalAccessTokensDataSource.less
      (map PersonalAccessTokensDataSource.fetchedToken tokens').
Proof.
  intros Hsort Hperm Hdistinct.
  destruct (Hsort _ PersonalAccessTokensDataSource.less
              (map PersonalAccessTokensDataSource.fetchedToken tokens))
    as [Hp1 Hs1].
  destruct (Hsort _ PersonalAccessTokensDataSource.less
              (map PersonalAccessTokensDataSource.fetchedToken tokens'))
    as [Hp2 Hs2].
  apply (StronglySorted_Permutation_eq
           (R := fun a b => PersonalAccessTokensDataSource.less b a = false)).
  - apply Hs1. exact less_StrictWeakOrder.
  - apply Hs2. exact less_StrictWeakOrder.
  - eapply Permutation_trans; [apply Permutation_sym; exact Hp1|].
    eapply Permutation_trans; [|exact Hp2].
    now apply Permutation_map.
  - intros a b Ha Hb Hab Hba.
    apply (Permutation_in _ (Permutation_sym Hp1)) in Ha.
    apply (Permutation_in _ (Permutation_sym Hp1)) in Hb.
    apply (NoDup_map_injective
             (fun m => ValueString (PersonalAccessTokensDataSource.TokenUUID m))
             (map PersonalAccessTokensDataSource.fetchedToken tokens));
      try assumption.
    + rewrite map_map. exact Hdistinct.
    + unfold PersonalAccessTokensDataSource.less in Hab, Hba.
      now apply string_ltb_both_false.
Qed.

End TokensOrder.

(** X19: the data source does not depend on the order of the server's
    list.  When two answers of the list endpoint hold the same tokens in
    different orders and the UUIDs are distinct, [Read] stores the same
    state for both ([sort.Slice] taken with what it promises). *)
Theorem X19_tokens_do_not_depend_on_server_order
  (E : Env) (Hsort : SortSliceContract E)
  (c : Client) (W : Type) (h : Handler W) (w1 w1' w2 w2' : W)
  (config : TfData PersonalAccessTokensDataSource.personalAccessTokensDataSourceModel)
  (body1 body2 : string) (decoded1 decoded2 : ListPersonalAccessTokensV1Response)
  (Hdecoded : HasError (GetDiags config) = false)
  (Hexchange1 : exchange h w1 doRequest "GET"
                  (HostUrl c ++ "/api/v1/user/me/personal-access-tokens")%string
                  None body1 w1')
  (Hexchange2 : exchange h w2 doRequest "GET"
                  (HostUrl c ++ "/api/v1/user/me/personal-access-tokens")%string
                  None body2 w2')
  (Hbody1 : json_Unmarshal_ListPersonalAccessTokensV1Response body1 = Ok decoded1)
  (Hbody2 : json_Unmarshal_ListPersonalAccessTokensV1Response body2 = Ok decoded2)
  (Hsame : Permutation (LPATResp_Results decoded1) (LPATResp_Results decoded2))
  (Hdistinct : NoDup (map PAT_UUID (LPATResp_Results decoded1))) :
  State (response (run h (PersonalAccessTokensDataSource.Read c config) w1))
  = State (response (run h (PersonalAccessTokensDataSource.Read c config) w2)).
Proof.
  rewrite (@DataSource_Read_ok E c W h config w1 w1' body1 decoded1
             Hdecoded Hexchange1 Hbody1).
  rewrite (@DataSource_Read_ok E c W h config w2 w2' body2 decoded2
             Hdecoded Hexchange2 Hbody2).
  now rewrite (sorted_tokens_order_free Hsort Hsame Hdistinct).
Qed.

Lemma orderEnv_SortSliceContract : SortSliceContract Fixtures.orderEnv.
Proof.
  intros A less l. split.
  - apply insertionSort_Permutation.
  - intros Hless. now apply insertionSort_StronglySorted.
Qed.

Lemma X19_tokens_order_witness :
  (SortSliceContract Fixtures.orderEnv
   /\ Permutation [Fixtures.listedToken "b7"; Fixtures.listedToken "a3"]
        [Fixtures.listedToken "a3"; Fixtures.listedToken "b7"]
   /\ NoDup (map PAT_UUID [Fixtures.listedToken "b7"; Fixtures.listedToken "a3"]))
  /\ State (response
              (run Fixtures.echoServer
                 (PersonalAccessTokensDataSource.Read (E := Fixtures.orderEnv)
                    Fixtures.client (MkTfData Fixtures.tokensConfig []))
                 "ba"))
     = State (response
                (run Fixtures.echoServer
                   (PersonalAccessTokensDataSource.Read (E := Fixtures.orderEnv)
                      Fixtures.client (MkTfData Fixtures.tokensConfig []))
                   "ab")).
Proof.
  assert (Hperm : Permutation [Fixtures.listedToken "b7"; Fixtures.listedToken "a3"]
                    [Fixtures.listedToken "a3"; Fixtures.listedToken "b7"])
    by apply perm_swap.
  assert (Hnd : NoDup (map PAT_UUID [Fixtures.listedToken "b7"; Fixtures.listedToken "a3"])).
  { simpl. constructor.
    - intros [Heq | []]. discriminate Heq.
    - constructor; [intros [] | constructor]. }
  split; [split; [exact orderEnv_SortSliceContract | split; assumption]|].
  exact (@X19_tokens_do_not_depend_on_server_order
           Fixtures.orderEnv orderEnv_SortSliceContract Fixtures.client
           string Fixtures.echoServer "ba" "ba" "ab" "ab"
           (MkTfData Fixtures.tokensConfig []) "ba" "ab"
           (MkListPersonalAccessTokensV1Response
              [Fixtures.listedToken "b7"; Fixtures.listedToken "a3"] "ok")
           (MkListPersonalAccessTokensV1Response
              [Fixtures.listedToken "a3"; Fixtures.listedToken "b7"] "ok")
           eq_refl (conj eq_refl eq_refl) (conj eq_refl eq_refl)
           eq_refl eq_refl Hperm Hnd).
Defined.

(* ------------------------------------------------------------------ *)
(** ** The resources: one call at most *)

Section OneCall.

Context {E : Env} {S : GoStrings} (c : Client) (W : Type) (h : Handler W).

(** A continuation that only returns adds no call. *)
Lemma calls_bind_returning {A B} (m : Prog A) (f : A -> Prog B) (w : W) :
  (forall a, exists b, f a = Ret b) ->
  calls (run h (bind m f) w) = calls (run h m w).
Proof.
  intros Hret. rewrite run_bind.
  destruct (run h m w) as [[a w1] log]. destruct (Hret a) as [b Hb].
  rewrite Hb. unfold calls. simpl. apply app_nil_r.
Qed.

Lemma Patchable_Create_calls (plan : TfData PatchableProject.projectResourceModel)
  (w : W) : length (calls (run h (PatchableProject.Create c plan) w)) <= 1.
Proof.
  unfold PatchableProject.Create.
  destruct (HasError _); [unfold calls; simpl; lia|].
  rewrite calls_bind_returning; [apply CreateProjectV1_outcome|].
  intros [created | e]; eexists; reflexivity.
Qed.

Lemma Immutable_Create_calls (plan : TfData ImmutableProject.projectResourceModel)
  (w : W) : length (calls (run h (ImmutableProject.Create c plan) w)) <= 1.
Proof.
  unfold ImmutableProject.Create.
  destruct (HasError _); [unfold calls; simpl; lia|].
  destruct (ImmutableProject.warehouseConnectionOf _);
    [|unfold calls; simpl; lia].
  unfold ImmutableProject.createAndSetState.
  rewrite calls_bind_returning; [apply CreateProjectV1_outcome|].
  intros [created | e]; eexists; reflexivity.
Qed.

Lemma Immutable_Read_calls (stored : TfData ImmutableProject.projectResourceModel)
  (w : W) : length (calls (run h (ImmutableProject.Read c stored) w)) <= 1.
Proof.
  unfold ImmutableProject.Read.
  destruct (HasError _); [unfold calls; simpl; lia|]. simpl.
  destruct (h _ w) as [[project | e] w1]; unfold calls; simpl; lia.
Qed.

Lemma Patchable_Read_calls (stored : TfData PatchableProject.projectResourceModel)
  (w : W) : length (calls (run h (PatchableProject.Read c stored) w)) <= 1.
Proof.
  unfold PatchableProject.Read.
  destruct (HasError _); [unfold calls; simpl; lia|]. simpl.
  destruct (h _ w) as [[project | e] w1]; unfold calls; simpl; lia.
Qed.

Lemma Patchable_Update_calls
  (plan prior : TfData PatchableProject.projectResourceModel) (w : W) :
  length (calls (run h (PatchableProject.Update c plan prior) w)) <= 1.
Proof.
  unfold PatchableProject.Update.
  destruct (HasError _); [unfold calls; simpl; lia|].
  rewrite calls_bind_returning; [apply UpdateProjectV1_outcome|].
  intros [updated | e]; eexists; reflexivity.
Qed.

Lemma Patchable_Delete_calls (stored : TfData PatchableProject.projectResourceModel)
  (w : W) : length (calls (run h (PatchableProject.Delete c stored) w)) <= 1.
Proof.
  unfold PatchableProject.Delete.
  destruct (HasError _); [unfold calls; simpl; lia|]. simpl.
  destruct (h _ w) as [[e|] w1]; unfold calls; simpl; lia.
Qed.

Lemma Patchable_ImportState_calls (id : string) (w : W) :
  length (calls (run h (PatchableProject.ImportState c id) w)) <= 1.
Proof.
  unfold PatchableProject.ImportState.
  destruct (extractProjectResourceId id); [|unfold calls; simpl; lia]. simpl.
  destruct (h _ w) as [[project | e] w1]; unfold calls; simpl; lia.
Qed.

Lemma Token_Create_calls
  (plan : TfData PersonalAccessTokenResource.personalAccessTokenResourceModel)
  (w : W) : length (calls (run h (PersonalAccessTokenResource.Create c plan) w)) <= 1.
Proof.
  unfold PersonalAccessTokenResource.Create.
  destruct (HasError _); [unfold calls; simpl; lia|].
  rewrite calls_bind_returning; [apply CreatePersonalAccessTokenV1_outcome|].
  intros [created | e]; eexists; reflexivity.
Qed.

Lemma Token_Read_calls
  (stored : TfData PersonalAccessTokenResource.personalAccessTokenResourceModel)
  (w : W) : length (calls (run h (PersonalAccessTokenResource.Read c stored) w)) <= 1.
Proof.
  unfold PersonalAccessTokenResource.Read.
  destruct (HasError _); [unfold calls; simpl; lia|]. cbv zeta.
  rewrite calls_bind_returning; [apply ListPersonalAccessTokensV1_outcome|].
  intros [tokens | e]; [|eexists; reflexivity].
  destruct (PersonalAccessTokenResource.findToken _ tokens); eexists; reflexivity.
Qed.

Lemma Token_Delete_calls
  (stored : TfData PersonalAccessTokenResource.personalAccessTokenResourceModel)
  (w : W) : length (calls (run h (PersonalAccessTokenResource.Delete c stored) w)) <= 1.
Proof.
  unfold PersonalAccessTokenResource.Delete.
  destruct (HasError _); [unfold calls; simpl; lia|]. cbv zeta.
  rewrite calls_bind_returning; [apply DeletePersonalAccessTokenV1_outcome|].
  intros [e|]; eexists; reflexivity.
Qed.

Lemma DataSource_Read_calls
  (config : TfData PersonalAccessTokensDataSource.personalAccessTokensDataSourceModel)
  (w : W) : length (calls (run h (PersonalAccessTokensDataSource.Read c config) w)) <= 1.
Proof.
  unfold PersonalAccessTokensDataSource.Read.
  destruct (HasError _); [unfold calls; simpl; lia|].
  rewrite calls_bind_returning; [apply ListPersonalAccessTokensV1_outcome|].
  intros [tokens | e]; eexists; reflexivity.
Qed.

End OneCall.

(** X20: every lifecycle operation makes at most one call.  Whatever the
    input and whatever the server answers, [Create], [Read], [Update],
    [Delete] and [ImportState] of the project resource (both listings),
    [Create], [Read], [Update] and [Delete] of the token resource and
    [Read] of the tokens data source reach the server at most once: no
    retry, no second request. *)
Theorem X20_operations_make_at_most_one_call
  (E : Env) (S : GoStrings) (c : Client) (W : Type) (h : Handler W) (w : W) :
  (forall plan, length (calls (run h (ImmutableProject.Create c plan) w)) <= 1)
  /\ (forall stored, length (calls (run h (ImmutableProject.Read c stored) w)) <= 1)
  /\ (forall plan prior,
         length (calls (run h (ImmutableProject.Update c plan prior) w)) <= 1)
  /\ (forall stored, length (calls (run h (ImmutableProject.Delete c stored) w)) <= 1)
  /\ (forall plan, length (calls (run h (PatchableProject.Create c plan) w)) <= 1)
  /\ (forall stored, length (calls (run h (PatchableProject.Read c stored) w)) <= 1)
  /\ (forall plan prior,
         length (calls (run h (PatchableProject.Update c plan prior) w)) <= 1)
  /\ (forall stored, length (calls (run h (PatchableProject.Delete c stored) w)) <= 1)
  /\ (forall id, length (calls (run h (PatchableProject.ImportState c id) w)) <= 1)
  /\ (forall plan,
         length (calls (run h (PersonalAccessTokenResource.Create c plan) w)) <= 1)
  /\ (forall stored,
         length (calls (run h (PersonalAccessTokenResource.Read c stored) w)) <= 1)
  /\ (forall plan prior,
         length (calls (run h (PersonalAccessTokenResource.Update c plan prior) w)) <= 1)
  /\ (forall stored,
         length (calls (run h (PersonalAccessTokenResource.Delete c stored) w)) <= 1)
  /\ (forall config,
         length (calls (run h (PersonalAccessTokensDataSource.Read c config) w)) <= 1).
Proof.
  repeat match goal with |- _ /\ _ => split end.
  - intros plan. apply Immutable_Create_calls.
  - intros stored. apply Immutable_Read_calls.
  - intros plan prior. unfold calls. simpl. lia.
  - intros stored. unfold calls. simpl. lia.
  - intros plan. apply Patchable_Create_calls.
  - intros stored. apply Patchable_Read_calls.
  - intros plan prior. apply Patchable_Update_calls.
  - intros stored. apply Patchable_Delete_calls.
  - intros id. apply Patchable_ImportState_calls.
  - intros plan. apply Token_Create_calls.
  - intros stored. apply Token_Read_calls.
  - intros plan prior. unfold calls. simpl. lia.
  - intros stored. apply Token_Delete_calls.
  - intros config. apply DataSource_Read_calls.
Qed.
